(** * Bybit spot DCA bot: the order arithmetic, the exchange client's request
    signing and the trade orchestrator, embedded from the Go sources

    - [internal/service/order_manager.go] (OrderService and TradeService),
    - [internal/bybit/exchange_client.go] (Client),
    - [internal/handler/trade_controller.go] (TradeHandler, OrderHandler and
      the predicates of the configuration),
    - [internal/router/http_router.go] (Router),
    - the error values, the domain types and constants.

    Go's [float64] is modelled by the Standard Library's [spec_float] at
    binary64 (53 bits of precision, infinities at exponent 1024), with every
    operation rounded to nearest-even on its own (no fused multiply-add).
    Strings are byte strings, as in Go. *)

From stdpp Require Import gmap strings list.
From Stdlib Require Import ZArith NArith List String Ascii Bool Lia.
From Stdlib Require Import SpecFloat DecimalString.
Import ListNotations.

Local Open Scope Z_scope.
Local Open Scope string_scope.

(* ===================================================================== *)
(** ** Bytes and characters *)
(* ===================================================================== *)

Module Chars.

Definition code (c : ascii) : N := N_of_ascii c.

Definition between (lo hi : N) (c : ascii) : bool :=
  ((lo <=? code c) && (code c <=? hi))%N.

Definition is_digit (c : ascii) : bool := between 48 57 c.
Definition is_upper (c : ascii) : bool := between 65 90 c.
Definition is_lower (c : ascii) : bool := between 97 122 c.

(** strconv's [lower(c) = c | ('x' - 'X')]: sets bit 0x20. *)
Definition lower (c : ascii) : ascii := ascii_of_N (N.lor (code c) 32).

Definition is_hex_letter (c : ascii) : bool := between 97 102 (lower c).

Definition digit_val (c : ascii) : N := (code c - 48)%N.
Definition hex_letter_val (c : ascii) : N := (code (lower c) - 97 + 10)%N.

Definition eqb (a b : ascii) : bool := Ascii.eqb a b.

(** [strings.EqualFold] restricted to an ASCII-lowercase pattern. *)
Fixpoint prefix_fold_len (s pat : list ascii) : nat :=
  match s, pat with
  | c :: s', p :: pat' =>
      if eqb (if is_upper c then lower c else c) p
      then S (prefix_fold_len s' pat') else O
  | _, _ => O
  end.

End Chars.

(* ===================================================================== *)
(** ** float64 *)
(* ===================================================================== *)

Module F64.
Import Chars.

Definition prec : Z := 53.
Definition emax : Z := 1024.

Definition float64 : Type := spec_float.

Definition add : float64 -> float64 -> float64 := SFadd prec emax.
Definition sub : float64 -> float64 -> float64 := SFsub prec emax.
Definition mul : float64 -> float64 -> float64 := SFmul prec emax.
Definition div : float64 -> float64 -> float64 := SFdiv prec emax.

Definition eqb : float64 -> float64 -> bool := SFeqb.
Definition ltb : float64 -> float64 -> bool := SFltb.
Definition leb : float64 -> float64 -> bool := SFleb.
(** [x > y] is [y < x]; false as soon as one side is NaN. *)
Definition gtb (x y : float64) : bool := SFltb y x.

(** Conversion of an integer: [float64(i)], and the untyped constants
    [0], [1], [100] of the sources. *)
Definition of_int (z : Z) : float64 := binary_normalize prec emax z 0 false.

Definition zero : float64 := of_int 0.
Definition one : float64 := of_int 1.
Definition hundred : float64 := of_int 100.

Definition is_inf (x : float64) : bool :=
  match x with S754_infinity _ => true | _ => false end.

(** The float64 nearest to [(-1)^neg * m * 10^e] (ties to even). *)
Definition of_decimal (neg : bool) (m : N) (e : Z) : float64 :=
  match m with
  | N0 => S754_zero neg
  | Npos p =>
      match e with
      | Zneg k => div (S754_finite neg p 0) (S754_finite false (10 ^ k)%positive 0)
      | _ => binary_normalize prec emax
               ((if neg then Z.opp else id) (Zpos p * 10 ^ e)) 0 false
      end
  end.

(** The float64 nearest to [(-1)^neg * m * 2^e] (ties to even). *)
Definition of_binary (neg : bool) (m : N) (e : Z) : float64 :=
  match m with
  | N0 => S754_zero neg
  | Npos p => binary_normalize prec emax (if neg then Zneg p else Zpos p) e false
  end.

(** *** strconv.ParseFloat(s, 64)

    Modelled by its contract: the syntax that [readFloat] and [special]
    accept, and the nearest float64 of the number read. *)

(** [special]: "inf", "infinity" (optionally signed) and "nan", whatever
    the case. Returns the value and the number of bytes consumed. *)
Definition special (s : list ascii) : option (float64 * nat) :=
  let infinity := list_ascii_of_string "infinity" in
  let inf_of (neg : bool) (nsign : nat) (t : list ascii) :=
    let n := prefix_fold_len t infinity in
    let n := if (Nat.ltb 3 n && Nat.ltb n 8)%bool then 3%nat else n in
    if (Nat.eqb n 3 || Nat.eqb n 8)%bool
    then Some (S754_infinity neg, (nsign + n)%nat) else None in
  match s with
  | [] => None
  | c :: t =>
      if Chars.eqb c "+" then inf_of false 1%nat t
      else if Chars.eqb c "-" then inf_of true 1%nat t
      else if Chars.eqb (lower c) "i" then inf_of false 0%nat s
      else if Chars.eqb (lower c) "n" then
        if Nat.eqb (prefix_fold_len s (list_ascii_of_string "nan")) 3
        then Some (S754_nan, 3%nat) else None
      else None
  end.

(** State of the mantissa loop of [readFloat]. *)
Record mant_state := MantState {
  ms_mant : N;          (* all digits read so far, as a number *)
  ms_frac : Z;          (* digits read after the point *)
  ms_sawdot : bool;
  ms_sawdigits : bool;
  ms_underscores : bool
}.

Fixpoint read_mantissa (hex : bool) (s : list ascii) (st : mant_state)
  : mant_state * list ascii :=
  match s with
  | [] => (st, [])
  | c :: t =>
      let push (d : N) :=
        MantState (ms_mant st * (if hex then 16 else 10) + d)%N
                  (if ms_sawdot st then ms_frac st + 1 else ms_frac st)
                  (ms_sawdot st) true (ms_underscores st) in
      if Chars.eqb c "_" then
        read_mantissa hex t
          (MantState (ms_mant st) (ms_frac st) (ms_sawdot st) (ms_sawdigits st) true)
      else if Chars.eqb c "." then
        if ms_sawdot st then (st, s)
        else read_mantissa hex t
               (MantState (ms_mant st) (ms_frac st) true (ms_sawdigits st)
                          (ms_underscores st))
      else if is_digit c then read_mantissa hex t (push (digit_val c))
      else if (hex && is_hex_letter c)%bool then read_mantissa hex t (push (hex_letter_val c))
      else (st, s)
  end.

(** Digits and underscores of the exponent. *)
Fixpoint read_exp_digits (s : list ascii) (e : Z) (underscores : bool)
  : Z * bool * list ascii :=
  match s with
  | c :: t =>
      if Chars.eqb c "_" then read_exp_digits t e true
      else if is_digit c then read_exp_digits t (e * 10 + Z.of_N (digit_val c)) underscores
      else (e, underscores, s)
  | [] => (e, underscores, [])
  end.

(** The optional exponent: [None] is a syntax error, otherwise the signed
    exponent, the underscore flag and the rest of the input. *)
Definition read_exponent (hex : bool) (s : list ascii) (underscores : bool)
  : option (Z * bool * list ascii) :=
  let exp_char : ascii := if hex then "p"%char else "e"%char in
  match s with
  | c :: t =>
      if Chars.eqb (lower c) exp_char then
        match t with
        | [] => None
        | c1 :: t1 =>
            let '(esign, t2) :=
              if Chars.eqb c1 "+" then (1, t1)
              else if Chars.eqb c1 "-" then (-1, t1)
              else (1, t) in
            match t2 with
            | d :: _ =>
                if is_digit d then
                  let '(e, us, rest) := read_exp_digits t2 0 underscores in
                  Some (e * esign, us, rest)
                else None
            | [] => None
            end
        end
      else if hex then None else Some (0, underscores, s)
  | [] => if hex then None else Some (0, underscores, [])
  end.

(** [underscoreOK]: underscores only between digits, or between a base
    prefix and a digit. [saw] is the class of the last byte: 0 start,
    1 digit or prefix, 2 underscore, 3 anything else. *)
Fixpoint underscore_scan (hex : bool) (s : list ascii) (saw : nat) : bool :=
  match s with
  | [] => negb (Nat.eqb saw 2)
  | c :: t =>
      if (is_digit c || (hex && is_hex_letter c))%bool then underscore_scan hex t 1%nat
      else if Chars.eqb c "_" then
        if Nat.eqb saw 1 then underscore_scan hex t 2%nat else false
      else if Nat.eqb saw 2 then false
      else underscore_scan hex t 3%nat
  end.

Definition underscoreOK (s : list ascii) : bool :=
  let s := match s with
           | c :: t => if (Chars.eqb c "-" || Chars.eqb c "+")%bool then t else s
           | [] => s
           end in
  match s with
  | z :: b :: t =>
      if (Chars.eqb z "0" &&
          (Chars.eqb (lower b) "b" || Chars.eqb (lower b) "o" || Chars.eqb (lower b) "x"))%bool
      then underscore_scan (Chars.eqb (lower b) "x") t 1%nat
      else underscore_scan false s 0%nat
  | _ => underscore_scan false s 0%nat
  end.

(** The two errors of strconv: on [ErrSyntax] the value returned is 0, on
    [ErrRange] it is the infinity of the right sign. *)
Inductive NumError := ErrSyntax | ErrRange.

(** [readFloat] followed by the conversion; the whole input must be
    consumed. *)
Definition parse_number (s : list ascii) : float64 * option NumError :=
  let '(neg, t) :=
    match s with
    | c :: t => if Chars.eqb c "+" then (false, t)
                else if Chars.eqb c "-" then (true, t)
                else (false, s)
    | [] => (false, s)
    end in
  let '(hex, t) :=
    match t with
    | z :: x :: (_ :: _) as t' =>
        if (Chars.eqb z "0" && Chars.eqb (lower x) "x")%bool then (true, t') else (false, t)
    | _ => (false, t)
    end in
  let '(st, rest) := read_mantissa hex t (MantState 0 0 false false false) in
  if negb (ms_sawdigits st) then (zero, Some ErrSyntax)
  else
    match read_exponent hex rest (ms_underscores st) with
    | None => (zero, Some ErrSyntax)
    | Some (e, underscores, rest') =>
        if (underscores && negb (underscoreOK s))%bool then (zero, Some ErrSyntax)
        else
          match rest' with
          | _ :: _ => (zero, Some ErrSyntax)
          | [] =>
              let f := if hex then of_binary neg (ms_mant st) (e - 4 * ms_frac st)
                       else of_decimal neg (ms_mant st) (e - ms_frac st) in
              if is_inf f then (f, Some ErrRange) else (f, None)
          end
    end.

Definition ParseFloat (str : string) : float64 * option NumError :=
  let s := list_ascii_of_string str in
  match special s with
  | Some (f, n) => if Nat.eqb n (List.length s) then (f, None) else (zero, Some ErrSyntax)
  | None => parse_number s
  end.

(** *** fmt.Sprintf("%.8f", x) *)

Definition pow10_8 : Z := 100000000.

(** [x * 10^8] rounded to the nearest integer, ties to even, for the
    magnitude [m * 2^e]. *)
Definition scaled8 (m : positive) (e : Z) : Z :=
  match e with
  | Zneg k =>
      let d := Zpos (2 ^ k)%positive in
      let q := (Zpos m * pow10_8) / d in
      let r := (Zpos m * pow10_8) mod d in
      match Z.compare (2 * r) d with
      | Lt => q
      | Gt => q + 1
      | Eq => if Z.even q then q else q + 1
      end
  | _ => Zpos m * 2 ^ e * pow10_8
  end.

Definition dec (z : Z) : string := NilZero.string_of_uint (N.to_uint (Z.to_N z)).

(** Left padding with zeros up to [n] bytes. *)
Definition pad0 (n : nat) (s : string) : string :=
  string_of_list_ascii (List.repeat "0"%char (n - String.length s)) ++ s.

Definition Sprintf8 (x : float64) : string :=
  match x with
  | S754_nan => "NaN"
  | S754_infinity false => "+Inf"
  | S754_infinity true => "-Inf"
  | S754_zero s => (if s then "-" else "") ++ "0.00000000"
  | S754_finite s m e =>
      let n := scaled8 m e in
      (if s then "-" else "") ++ dec (n / pow10_8) ++ "." ++ pad0 8 (dec (n mod pow10_8))
  end.

End F64.


(* ===================================================================== *)
(** ** Errors *)
(* ===================================================================== *)

(** Go [error] values, by the way they are built: a message of
    [fmt.Errorf], a message wrapping a cause ([%w]), the error of
    [strconv.ParseFloat] on an input, an error of the exchange client, and
    a run-time panic (index out of range). *)
Inductive error :=
| errorf (msg : string)
| wrap (msg : string) (cause : error)
| errNum (input : string) (kind : F64.NumError)
| errClient (msg : string)
| errPanic (msg : string).

Inductive result (A : Type) :=
| Ok (a : A)
| Err (e : error).
Arguments Ok {A} a.
Arguments Err {A} e.

Definition is_Err {A} (r : result A) : bool :=
  match r with Err _ => true | Ok _ => false end.

(** [v, err := strconv.ParseFloat(s, 64)] followed by [if err != nil]. *)
Definition parse_checked (s : string) : result F64.float64 :=
  match F64.ParseFloat s with
  | (f, None) => Ok f
  | (_, Some k) => Err (errNum s k)
  end.

(** [v, _ := strconv.ParseFloat(s, 64)]: the error is dropped. *)
Definition parse_unchecked (s : string) : F64.float64 := fst (F64.ParseFloat s).

(* ===================================================================== *)
(** ** Domain types and constants *)
(* ===================================================================== *)

(** [uuid.UUID], by its canonical text. *)
Definition UUID : Type := string.
(** [time.Time], in milliseconds since the epoch. *)
Definition Time : Type := Z.

(** [OrderType], [OrderSide] and [OrderStatus] are Go string types: values
    that come from the exchange or from a request body are arbitrary. *)
Definition OrderType : Type := string.
Definition OrderTypeMarket : OrderType := "MARKET".
Definition OrderTypeLimit : OrderType := "LIMIT".

Definition OrderSide : Type := string.
Definition OrderSideBuy : OrderSide := "BUY".
Definition OrderSideSell : OrderSide := "SELL".

Definition OrderStatus : Type := string.
Definition OrderStatusNew : OrderStatus := "NEW".
Definition OrderStatusFilled : OrderStatus := "FILLED".
Definition OrderStatusCanceled : OrderStatus := "CANCELED".
Definition OrderStatusPartially : OrderStatus := "PARTIALLY_FILLED".

(** [TradeStatus] is only ever assigned from its four constants. *)
Inductive TradeStatus :=
| TradeStatusActive
| TradeStatusCompleted
| TradeStatusCancelled
| TradeStatusFailed.

Definition terminal (st : TradeStatus) : bool :=
  match st with TradeStatusActive => false | _ => true end.

Definition DefaultMartingale : F64.float64 := F64.one.
Definition DefaultTimeInForce : string := "GTC".
Definition MaxSafetyOrders : Z := 20.

Module Order.
Record t := mk {
  ID : UUID;
  BybitID : string;
  Symbol : string;
  Side : OrderSide;
  Type_ : OrderType;
  Quantity : string;
  Price : string;
  Status : OrderStatus;
  ExecutedQty : string;
  CreatedAt : Time;
  UpdatedAt : Time
}.
End Order.

Module CreateOrderRequest.
Record t := mk {
  Symbol : string;
  Side : OrderSide;
  Type_ : OrderType;
  Quantity : string;
  Price : string
}.
End CreateOrderRequest.

Module TradeConfig.
Record t := mk {
  Symbol : string;
  EntryVolume : string;
  DCAStepPercent : F64.float64;
  DCAVolume : string;
  DCACount : Z;
  TakeProfitPercent : F64.float64;
  Martingale : F64.float64;
  DynamicStep : bool
}.

Definition with_Martingale (m : F64.float64) (c : t) : t :=
  mk (Symbol c) (EntryVolume c) (DCAStepPercent c) (DCAVolume c) (DCACount c)
     (TakeProfitPercent c) m (DynamicStep c).
End TradeConfig.

Module Trade.
(** [EntryOrder] is a pointer that the only constructor of trades,
    [InitializeTrade], sets to the order of a successful entry and that
    nothing resets: it is a value here, and the [!= nil] tests on it are
    true. [TakeProfitOrder] is a pointer that may be nil. *)
Record t := mk {
  ID : UUID;
  Symbol : string;
  Config : TradeConfig.t;
  EntryOrder : Order.t;
  DCAOrders : list Order.t;
  TakeProfitOrder : option Order.t;
  Status : TradeStatus;
  TotalInvested : string;
  AveragePrice : string;
  CurrentPrice : string;
  CreatedAt : Time;
  UpdatedAt : Time
}.

Definition with_DCAOrders (l : list Order.t) (x : t) : t :=
  mk (ID x) (Symbol x) (Config x) (EntryOrder x) l (TakeProfitOrder x) (Status x)
     (TotalInvested x) (AveragePrice x) (CurrentPrice x) (CreatedAt x) (UpdatedAt x).
Definition with_TakeProfitOrder (o : option Order.t) (x : t) : t :=
  mk (ID x) (Symbol x) (Config x) (EntryOrder x) (DCAOrders x) o (Status x)
     (TotalInvested x) (AveragePrice x) (CurrentPrice x) (CreatedAt x) (UpdatedAt x).
Definition with_Status (s : TradeStatus) (x : t) : t :=
  mk (ID x) (Symbol x) (Config x) (EntryOrder x) (DCAOrders x) (TakeProfitOrder x) s
     (TotalInvested x) (AveragePrice x) (CurrentPrice x) (CreatedAt x) (UpdatedAt x).
Definition with_AveragePrice (p : string) (x : t) : t :=
  mk (ID x) (Symbol x) (Config x) (EntryOrder x) (DCAOrders x) (TakeProfitOrder x)
     (Status x) (TotalInvested x) p (CurrentPrice x) (CreatedAt x) (UpdatedAt x).
Definition with_UpdatedAt (u : Time) (x : t) : t :=
  mk (ID x) (Symbol x) (Config x) (EntryOrder x) (DCAOrders x) (TakeProfitOrder x)
     (Status x) (TotalInvested x) (AveragePrice x) (CurrentPrice x) (CreatedAt x) u.
End Trade.

(* ===================================================================== *)
(** ** The exchange client's wire types *)
(* ===================================================================== *)

Module ExchangeOrderRequest.
Record t := mk {
  Symbol : string;
  Side : string;
  OrderType : string;
  Qty : string;
  Price : string;
  TimeInForce : string;
  Timestamp : Z
}.
End ExchangeOrderRequest.

Module ExchangeOrderResponse.
Record t := mk {
  Symbol : string;
  OrderID : string;
  OrderLinkID : string;
  Price : string;
  Qty : string;
  ExecutedQty : string;
  Status : string;
  TimeInForce : string;
  OrderType : string;
  Side : string;
  CreatedTime : string
}.
End ExchangeOrderResponse.

Module ExchangeCancelRequest.
Record t := mk {
  Symbol : string;
  OrderID : string;
  Timestamp : Z
}.
End ExchangeCancelRequest.

(* ===================================================================== *)
(** ** crypto/sha256, crypto/hmac, encoding/hex *)
(* ===================================================================== *)

Module Sha256.
Local Open Scope N_scope.
Local Open Scope list_scope.

Definition bytes : Type := list N.

Definition bytes_of_string (s : string) : bytes :=
  List.map N_of_ascii (list_ascii_of_string s).

Definition w32 (x : N) : N := N.land x 4294967295.
Definition rotr (n x : N) : N := N.lor (N.shiftr x n) (w32 (N.shiftl x (32 - n))).
Definition lnot32 (x : N) : N := N.lxor x 4294967295.

Definition Ch (x y z : N) : N := N.lxor (N.land x y) (N.land (lnot32 x) z).
Definition Maj (x y z : N) : N :=
  N.lxor (N.lxor (N.land x y) (N.land x z)) (N.land y z).
Definition bsig0 (x : N) : N := N.lxor (N.lxor (rotr 2 x) (rotr 13 x)) (rotr 22 x).
Definition bsig1 (x : N) : N := N.lxor (N.lxor (rotr 6 x) (rotr 11 x)) (rotr 25 x).
Definition ssig0 (x : N) : N := N.lxor (N.lxor (rotr 7 x) (rotr 18 x)) (N.shiftr x 3).
Definition ssig1 (x : N) : N := N.lxor (N.lxor (rotr 17 x) (rotr 19 x)) (N.shiftr x 10).

(** The constants of FIPS 180-4 by their definition: the first 32 bits of
    the fractional parts of the cube roots (round constants) and square
    roots (initial hash value) of the first primes. *)
Definition is_prime (p : N) : bool :=
  (1 <? p) && List.forallb (fun d => negb (p mod N.of_nat d =? 0))
                (List.seq 2 (N.to_nat p - 2)).

Definition first_primes (n : nat) : list N :=
  List.firstn n (List.filter is_prime (List.map N.of_nat (List.seq 2 400))).

(** The integer cube root, bit by bit from bit [b - 1] down. *)
Fixpoint icbrt_bits (b : nat) (n r : N) : N :=
  match b with
  | O => r
  | S b' =>
      let c := r + 2 ^ N.of_nat b' in
      icbrt_bits b' n (if c * c * c <=? n then c else r)
  end.

Definition cube_root_fraction (p : N) : N := w32 (icbrt_bits 40 (p * 2 ^ 96) 0).
Definition square_root_fraction (p : N) : N := w32 (N.sqrt (p * 2 ^ 64)).

Definition K : list N := Eval vm_compute in List.map cube_root_fraction (first_primes 64).

Definition H0 : list N := Eval vm_compute in List.map square_root_fraction (first_primes 8).

Definition word_at (l : list N) (i : nat) : N := List.nth i l 0.

(** Big-endian bytes of [x], [n] of them. *)
Fixpoint be_bytes (n : nat) (x : N) : bytes :=
  match n with
  | O => []
  | S n' => N.land (N.shiftr x (8 * N.of_nat n')) 255 :: be_bytes n' x
  end.

Definition be_word (bs : bytes) : N :=
  List.fold_left (fun acc b => acc * 256 + b) bs 0.

(** Message padding: 0x80, zeros, and the bit length on 8 bytes. *)
Definition pad (msg : bytes) : bytes :=
  let len := N.of_nat (List.length msg) in
  let zeros := N.to_nat ((119 - (len mod 64)) mod 64) in
  msg ++ [128] ++ List.repeat 0 zeros ++ be_bytes 8 (8 * len).

Fixpoint words_of (n : nat) (bs : bytes) : list N :=
  match n with
  | O => []
  | S n' => be_word (List.firstn 4 bs) :: words_of n' (List.skipn 4 bs)
  end.

(** The message schedule, extended by [k] words. *)
Fixpoint extend (k : nat) (w : list N) : list N :=
  match k with
  | O => w
  | S k' =>
      let t := List.length w in
      let nw := w32 (ssig1 (word_at w (t - 2)) + word_at w (t - 7)
                     + ssig0 (word_at w (t - 15)) + word_at w (t - 16)) in
      extend k' (w ++ [nw])
  end.

Definition round (st : list N) (kw : N * N) : list N :=
  let a := word_at st 0 in let b := word_at st 1 in
  let c := word_at st 2 in let d := word_at st 3 in
  let e := word_at st 4 in let f := word_at st 5 in
  let g := word_at st 6 in let h := word_at st 7 in
  let t1 := w32 (h + bsig1 e + Ch e f g + fst kw + snd kw) in
  let t2 := w32 (bsig0 a + Maj a b c) in
  [ w32 (t1 + t2); a; b; c; w32 (d + t1); e; f; g ].

Definition compress (h : list N) (block : bytes) : list N :=
  let w := extend 48 (words_of 16 block) in
  let st := List.fold_left round (List.combine K w) h in
  List.map (fun p => w32 (fst p + snd p)) (List.combine h st).

Fixpoint blocks (n : nat) (h : list N) (bs : bytes) : list N :=
  match n with
  | O => h
  | S n' => blocks n' (compress h (List.firstn 64 bs)) (List.skipn 64 bs)
  end.

Definition sum256 (msg : bytes) : bytes :=
  let p := pad msg in
  List.concat (List.map (be_bytes 4) (blocks (List.length p / 64) H0 p)).

(** [hmac.New(sha256.New, key)], [Write(msg)], [Sum(nil)]. *)
Definition hmac (key msg : bytes) : bytes :=
  let k := if (64 <? N.of_nat (List.length key)) then sum256 key else key in
  let k := k ++ List.repeat 0 (64 - List.length k) in
  let ipad := List.map (N.lxor 0x36) k in
  let opad := List.map (N.lxor 0x5c) k in
  sum256 (opad ++ sum256 (ipad ++ msg)).

Definition hex_digit (n : N) : ascii :=
  if n <? 10 then ascii_of_N (48 + n) else ascii_of_N (87 + n).

(** [hex.EncodeToString]. *)
Definition hex (bs : bytes) : string :=
  string_of_list_ascii
    (List.concat (List.map (fun b => [hex_digit (b / 16); hex_digit (b mod 16)]) bs)).

End Sha256.

(* ===================================================================== *)
(** ** net/url: Values and its canonical encoding *)
(* ===================================================================== *)

Module Url.
Import Chars.

(** [url.Values] is a [map[string][]string]: an association list with one
    entry per key. *)
Definition Values : Type := list (string * list string).

(** [shouldEscape(c, encodeQueryComponent)]. *)
Definition shouldEscape (c : ascii) : bool :=
  if (is_lower c || is_upper c || is_digit c)%bool then false
  else if (Chars.eqb c "-" || Chars.eqb c "_" || Chars.eqb c "." || Chars.eqb c "~")%bool
       then false
       else true.

Definition upperhex (n : N) : ascii :=
  if (n <? 10)%N then ascii_of_N (48 + n) else ascii_of_N (55 + n).

Fixpoint QueryEscape (s : string) : string :=
  match s with
  | EmptyString => EmptyString
  | String c t =>
      if Chars.eqb c " " then String "+" (QueryEscape t)
      else if shouldEscape c then
        String "%" (String (upperhex (code c / 16)) (String (upperhex (code c mod 16))
          (QueryEscape t)))
      else String c (QueryEscape t)
  end.

(** [v.Set(key, value)]: replaces whatever the key held. *)
Definition Set_ (key value : string) (v : Values) : Values :=
  (key, [value]) :: List.filter (fun p => negb (String.eqb (fst p) key)) v.

Fixpoint insert_sorted (p : string * list string) (l : Values) : Values :=
  match l with
  | [] => [p]
  | q :: l' => if String.leb (fst p) (fst q) then p :: l else q :: insert_sorted p l'
  end.

(** [slices.Sort] of the keys. *)
Definition sort_keys (v : Values) : Values := List.fold_right insert_sorted [] v.

Definition encode_key (p : string * list string) : list string :=
  List.map (fun value => QueryEscape (fst p) ++ "=" ++ QueryEscape value) (snd p).

Fixpoint join_amp (l : list string) : string :=
  match l with
  | [] => ""
  | [x] => x
  | x :: l' => x ++ "&" ++ join_amp l'
  end.

(** [v.Encode()]: "k=v" pairs sorted by key, joined with "&". *)
Definition Encode (v : Values) : string :=
  join_amp (List.concat (List.map encode_key (sort_keys v))).

End Url.

(* ===================================================================== *)
(** ** internal/bybit: the request that each call sends *)
(* ===================================================================== *)

Module Bybit.

Record Client := mkClient {
  apiKey : string;
  secretKey : string;
  testnet : bool
}.

Definition getBaseURL (c : Client) : string :=
  if testnet c then "https://api-testnet.bybit.com" else "https://api.bybit.com".

(** [strconv.FormatInt(t, 10)]. *)
Definition FormatInt (z : Z) : string :=
  if (z <? 0)%Z then "-" ++ F64.dec (- z) else F64.dec z.

(** An [http.Request] as far as the client fills it. Header names are
    kept as the source writes them. *)
Record Request := mkRequest {
  req_method : string;
  req_url : string;
  req_headers : list (string * string);
  req_body : option string
}.

(** [req.Header.Set(k, v)]. *)
Definition Header_Set (k v : string) (h : list (string * string)) : list (string * string) :=
  List.filter (fun p => negb (String.eqb (fst p) k)) h ++ [(k, v)].

Definition Header_Get (k : string) (h : list (string * string)) : option string :=
  option_map snd (List.find (fun p => String.eqb (fst p) k) h).

Definition createSignature (c : Client) (queryString : string) : string :=
  Sha256.hex (Sha256.hmac (Sha256.bytes_of_string (secretKey c))
                          (Sha256.bytes_of_string queryString)).

(** The payloads that the client's callers pass as [interface{}]. *)
Inductive Payload :=
| PayloadOrder (r : ExchangeOrderRequest.t)
| PayloadCancel (r : ExchangeCancelRequest.t).

(** A decoded JSON value as [json.Unmarshal] stores it in an
    [interface{}]; arrays and objects are kept by their [%v] rendering. *)
Inductive JSONValue :=
| JNull
| JString (s : string)
| JNumber (f : F64.float64)
| JBool (b : bool)
| JOther (rendered : string).

(** encoding/json and [strconv.FormatFloat(v, 'f', -1, 64)], which the
    client calls and this development does not look into. *)
Class Encoding := {
  json_Marshal : Payload -> result string;
  json_Unmarshal_object : string -> result (list (string * JSONValue));
  FormatFloat_f : F64.float64 -> string
}.

Section Requests.
Context {E : Encoding}.

Definition structToURLValues (v : Payload) : result Url.Values :=
  match json_Marshal v with
  | Err e => Err e
  | Ok data =>
      match json_Unmarshal_object data with
      | Err e => Err e
      | Ok m =>
          Ok (List.fold_left
                (fun values kv =>
                   match snd kv with
                   | JNull => values
                   | JString s =>
                       if String.eqb s "" then values else Url.Set_ (fst kv) s values
                   | JNumber f => Url.Set_ (fst kv) (FormatFloat_f f) values
                   | JBool b => Url.Set_ (fst kv) (if b then "true" else "false") values
                   | JOther r => Url.Set_ (fst kv) r values
                   end)
                m [])
      end
  end.

(** [makeAuthenticatedRequest], up to the request handed to
    [httpClient.Do]; [timestamp] is what [time.Now().UnixMilli()]
    returned. *)
Definition makeAuthenticatedRequest (c : Client) (timestamp : Z)
    (method endpoint : string) (payload : Payload) : result Request :=
  let is_query := (String.eqb method "GET" || String.eqb method "DELETE")%bool in
  let prepared : result (option string * string) :=
    if is_query then
      match structToURLValues payload with
      | Err e => Err (wrap "failed to convert payload to query params" e)
      | Ok params => Ok (None, Url.Encode params)
      end
    else
      match json_Marshal payload with
      | Err e => Err (wrap "failed to marshal payload" e)
      | Ok jsonData => Ok (Some jsonData, jsonData)
      end in
  match prepared with
  | Err e => Err e
  | Ok (body, queryString) =>
      let signature := createSignature c (FormatInt timestamp ++ apiKey c ++ queryString) in
      let requestURL :=
        if is_query then getBaseURL c ++ endpoint ++ "?" ++ queryString
        else getBaseURL c ++ endpoint in
      let h := Header_Set "X-BAPI-API-KEY" (apiKey c) [] in
      let h := Header_Set "X-BAPI-SIGN" signature h in
      let h := Header_Set "X-BAPI-TIMESTAMP" (FormatInt timestamp) h in
      let h := Header_Set "X-BAPI-RECV-WINDOW" "5000" h in
      let h := if String.eqb method "POST"
               then Header_Set "Content-Type" "application/json" h else h in
      Ok (mkRequest method requestURL h body)
  end.

(** The request of [ExecuteOrder]: POST /v5/order/create. *)
Definition ExecuteOrder_request (c : Client) (now_req now_sign : Z)
    (req : ExchangeOrderRequest.t) : result Request :=
  let req := ExchangeOrderRequest.mk
               (ExchangeOrderRequest.Symbol req) (ExchangeOrderRequest.Side req)
               (ExchangeOrderRequest.OrderType req) (ExchangeOrderRequest.Qty req)
               (ExchangeOrderRequest.Price req) (ExchangeOrderRequest.TimeInForce req)
               now_req in
  match makeAuthenticatedRequest c now_sign "POST" "/v5/order/create" (PayloadOrder req) with
  | Err e => Err (wrap "failed to create order" e)
  | Ok r => Ok r
  end.

(** The request of [TerminateOrder]: POST /v5/order/cancel. *)
Definition TerminateOrder_request (c : Client) (now_req now_sign : Z)
    (req : ExchangeCancelRequest.t) : result Request :=
  let req := ExchangeCancelRequest.mk
               (ExchangeCancelRequest.Symbol req) (ExchangeCancelRequest.OrderID req)
               now_req in
  match makeAuthenticatedRequest c now_sign "POST" "/v5/order/cancel" (PayloadCancel req) with
  | Err e => Err (wrap "failed to cancel order" e)
  | Ok r => Ok r
  end.
End Requests.

(** The query parameters of [FetchOrderInfo]. *)
Definition FetchOrderInfo_params (timestamp : Z) (symbol orderID : string) : Url.Values :=
  Url.Set_ "timestamp" (FormatInt timestamp)
    (Url.Set_ "orderId" orderID (Url.Set_ "symbol" symbol [])).

(** The request of [FetchOrderInfo]: GET /v5/order/realtime, built and
    signed by hand, not through [makeAuthenticatedRequest]. *)
Definition FetchOrderInfo_request (c : Client) (timestamp : Z)
    (symbol orderID : string) : Request :=
  let params := FetchOrderInfo_params timestamp symbol orderID in
  let endpoint := "/v5/order/realtime?" ++ Url.Encode params in
  let signature := createSignature c (Url.Encode params) in
  let endpoint := endpoint ++ "&signature=" ++ signature in
  let h := Header_Set "X-BAPI-API-KEY" (apiKey c) [] in
  let h := Header_Set "X-BAPI-SIGN" signature h in
  let h := Header_Set "X-BAPI-TIMESTAMP" (FormatInt timestamp) h in
  mkRequest "GET" (getBaseURL c ++ endpoint) h None.

(** The signature that the signing scheme of [makeAuthenticatedRequest]
    gives a payload. *)
Definition scheme_signature (c : Client) (timestamp : Z) (payload : string) : string :=
  createSignature c (FormatInt timestamp ++ apiKey c ++ payload).

End Bybit.

(* ===================================================================== *)
(** ** The exchange as the services see it *)
(* ===================================================================== *)

(** The three methods of the exchange client (the seam that the
    repository's own [MockClient] fills), together with the two ambient
    effects of the services, [uuid.New()] and [time.Now()]. Each is a
    function of an explicit world. *)
Class Exchange := {
  World : Type;
  client_ExecuteOrder :
    ExchangeOrderRequest.t -> World -> result ExchangeOrderResponse.t * World;
  client_TerminateOrder : ExchangeCancelRequest.t -> World -> option error * World;
  client_FetchOrderInfo :
    string -> string -> World -> result ExchangeOrderResponse.t * World;
  uuid_New : World -> UUID * World;
  time_Now : World -> Time * World
}.

(** Computations in a world. *)
Definition M `{Exchange} (A : Type) : Type := World -> A * World.

Definition ret `{Exchange} {A : Type} (a : A) : M A := fun w => (a, w).

Definition bind `{Exchange} {A B : Type} (m : M A) (k : A -> M B) : M B :=
  fun w => let r := m w in k (fst r) (snd r).

Notation "'let*' x ':=' m 'in' k" := (bind m (fun x => k))
  (at level 10, x pattern, m at level 100, k at level 200).

(** The registry of the trade service: the trades by id and the reverse
    index from exchange order id to trade id. The mutex is left out: calls
    are taken one at a time. A [*domain.Trade] held by the registry is the
    entry of [trades] at its key, and a mutation through the pointer is a
    write at that key. *)
Record TradeService := mkTradeService {
  trades : gmap UUID Trade.t;
  orderIndex : gmap string UUID
}.

Definition NewTradeManager : TradeService := mkTradeService ∅ ∅.

Section Service.
Context {X : Exchange}.

(** *** OrderService *)

Definition buildOrderFromResponse (resp : ExchangeOrderResponse.t) : M Order.t :=
  let* id := uuid_New in
  let* created := time_Now in
  let* updated := time_Now in
  ret (Order.mk id
         (ExchangeOrderResponse.OrderID resp)
         (ExchangeOrderResponse.Symbol resp)
         (ExchangeOrderResponse.Side resp)
         (ExchangeOrderResponse.OrderType resp)
         (ExchangeOrderResponse.Qty resp)
         (ExchangeOrderResponse.Price resp)
         (ExchangeOrderResponse.Status resp)
         (ExchangeOrderResponse.ExecutedQty resp)
         created updated).

Definition ExecuteMarketOrder (req : CreateOrderRequest.t) : M (result Order.t) :=
  let* ts := time_Now in
  let exchangeReq :=
    ExchangeOrderRequest.mk
      (CreateOrderRequest.Symbol req) (CreateOrderRequest.Side req)
      (CreateOrderRequest.Type_ req) (CreateOrderRequest.Quantity req) "" "" ts in
  let* r := client_ExecuteOrder exchangeReq in
  match r with
  | Err e => ret (Err (wrap "failed to execute market order" e))
  | Ok exchangeResp =>
      let* order := buildOrderFromResponse exchangeResp in
      ret (Ok order)
  end.

Definition calculateQuantityFromUSDT (usdtAmount price : string) : result string :=
  match parse_checked usdtAmount with
  | Err e => Err (wrap "invalid USDT amount" e)
  | Ok usdt =>
      match parse_checked price with
      | Err e => Err (wrap "invalid price" e)
      | Ok priceFloat =>
          if F64.leb priceFloat F64.zero then Err (errorf "price must be positive")
          else Ok (F64.Sprintf8 (F64.div usdt priceFloat))
      end
  end.

Definition ExecuteLimitOrder (req : CreateOrderRequest.t) : M (result Order.t) :=
  if String.eqb (CreateOrderRequest.Price req) "" then
    ret (Err (errorf "price is required for limit order"))
  else
    match calculateQuantityFromUSDT (CreateOrderRequest.Quantity req)
                                    (CreateOrderRequest.Price req) with
    | Err e => ret (Err (wrap "failed to calculate quantity" e))
    | Ok quantity =>
        let* ts := time_Now in
        let exchangeReq :=
          ExchangeOrderRequest.mk
            (CreateOrderRequest.Symbol req) (CreateOrderRequest.Side req)
            (CreateOrderRequest.Type_ req) quantity (CreateOrderRequest.Price req)
            DefaultTimeInForce ts in
        let* r := client_ExecuteOrder exchangeReq in
        match r with
        | Err e => ret (Err (wrap "failed to execute limit order" e))
        | Ok exchangeResp =>
            let* order := buildOrderFromResponse exchangeResp in
            ret (Ok order)
        end
    end.

Definition TerminateOrder (symbol orderID : string) : M (option error) :=
  let* ts := time_Now in
  let* r := client_TerminateOrder (ExchangeCancelRequest.mk symbol orderID ts) in
  match r with
  | Some e => ret (Some (wrap "failed to terminate order" e))
  | None => ret None
  end.

Definition FetchOrderStatus (symbol orderID : string) : M (result Order.t) :=
  let* r := client_FetchOrderInfo symbol orderID in
  match r with
  | Err e => ret (Err (wrap "failed to fetch order status" e))
  | Ok exchangeResp =>
      let* order := buildOrderFromResponse exchangeResp in
      ret (Ok order)
  end.

Definition ComputeTakeProfitPrice (entryPrice : string) (profitPercent : F64.float64)
    (side : OrderSide) : result string :=
  if String.eqb entryPrice "" then Err (errorf "entry price is required")
  else if F64.leb profitPercent F64.zero then Err (errorf "profit percent must be positive")
  else
    match parse_checked entryPrice with
    | Err e => Err (wrap "invalid entry price" e)
    | Ok price =>
        let tpPrice :=
          if String.eqb side OrderSideBuy
          then F64.mul price (F64.add F64.one (F64.div profitPercent F64.hundred))
          else F64.mul price (F64.sub F64.one (F64.div profitPercent F64.hundred)) in
        Ok (F64.Sprintf8 tpPrice)
    end.

Definition ComputeDCAPrice (currentPrice : string) (stepPercent : F64.float64)
    (side : OrderSide) : result string :=
  if String.eqb currentPrice "" then Err (errorf "current price is required")
  else if F64.leb stepPercent F64.zero then Err (errorf "step percent must be positive")
  else
    match parse_checked currentPrice with
    | Err e => Err (wrap "invalid current price" e)
    | Ok price =>
        let dcaPrice :=
          if String.eqb side OrderSideBuy
          then F64.mul price (F64.sub F64.one (F64.div stepPercent F64.hundred))
          else F64.mul price (F64.add F64.one (F64.div stepPercent F64.hundred)) in
        Ok (F64.Sprintf8 dcaPrice)
    end.

(** *** TradeService *)

(** The loop of [setupTakeProfitOrder] over the rungs: the running total
    goes through its 8-digit text at every turn. *)
Fixpoint totalVolume_loop (n : nat) (cfg : TradeConfig.t) (totalVolume : string) : string :=
  match n with
  | O => totalVolume
  | S n' =>
      let dcaVolume := parse_unchecked (TradeConfig.DCAVolume cfg) in
      let totalVolumeFloat := parse_unchecked totalVolume in
      let totalVolumeFloat :=
        F64.add totalVolumeFloat (F64.mul dcaVolume (TradeConfig.Martingale cfg)) in
      totalVolume_loop n' cfg (F64.Sprintf8 totalVolumeFloat)
  end.

(** The order that [setupTakeProfitOrder] asks for: a limit SELL of the
    projected total at the entry price raised by the take-profit
    percentage. *)
Definition initial_tp_request (trade : Trade.t) (entryPrice : F64.float64)
  : CreateOrderRequest.t :=
  let cfg := Trade.Config trade in
  let tpPrice :=
    F64.mul entryPrice
      (F64.add F64.one (F64.div (TradeConfig.TakeProfitPercent cfg) F64.hundred)) in
  let tpPriceStr := F64.Sprintf8 tpPrice in
  let totalVolume :=
    if F64.gtb (TradeConfig.Martingale cfg) F64.zero
    then totalVolume_loop (Z.to_nat (TradeConfig.DCACount cfg)) cfg
           (TradeConfig.EntryVolume cfg)
    else TradeConfig.EntryVolume cfg in
  CreateOrderRequest.mk (TradeConfig.Symbol cfg) OrderSideSell OrderTypeLimit
    totalVolume tpPriceStr.

Definition setupTakeProfitOrder (trade : Trade.t) : M (option error * Trade.t) :=
  match parse_checked (Order.Price (Trade.EntryOrder trade)) with
  | Err e => ret (Some (wrap "invalid entry price" e), trade)
  | Ok entryPrice =>
      let tpOrderReq := initial_tp_request trade entryPrice in
      let* r := ExecuteLimitOrder tpOrderReq in
      match r with
      | Err e => ret (Some (wrap "failed to create take profit order" e), trade)
      | Ok tpOrder => ret (None, Trade.with_TakeProfitOrder (Some tpOrder) trade)
      end
  end.

(** One turn of the loop of [setupDCAOrders] on the running price. *)
Definition next_dca_price (cfg : TradeConfig.t) (i : Z) (currentPrice : F64.float64)
  : F64.float64 :=
  if TradeConfig.DynamicStep cfg then
    let stepPercent := F64.mul (TradeConfig.DCAStepPercent cfg) (F64.of_int (i + 1)) in
    F64.mul currentPrice (F64.sub F64.one (F64.div stepPercent F64.hundred))
  else
    F64.mul currentPrice
      (F64.sub F64.one (F64.div (TradeConfig.DCAStepPercent cfg) F64.hundred)).

(** One turn of the same loop on the running volume. *)
Definition next_dca_volume (cfg : TradeConfig.t) (currentVolume : string) : string :=
  if F64.gtb (TradeConfig.Martingale cfg) F64.zero then
    F64.Sprintf8 (F64.mul (parse_unchecked currentVolume) (TradeConfig.Martingale cfg))
  else currentVolume.

(** [for i := 0; i < DCACount; i++], with [n] turns left. *)
Fixpoint setupDCAOrders_loop (n : nat) (i : Z) (currentPrice : F64.float64)
    (currentVolume : string) (trade : Trade.t) : M Trade.t :=
  match n with
  | O => ret trade
  | S n' =>
      let cfg := Trade.Config trade in
      let currentPrice := next_dca_price cfg i currentPrice in
      let dcaPriceStr := F64.Sprintf8 currentPrice in
      let currentVolume := next_dca_volume cfg currentVolume in
      let dcaOrderReq :=
        CreateOrderRequest.mk (TradeConfig.Symbol cfg) OrderSideBuy OrderTypeLimit
          currentVolume dcaPriceStr in
      let* r := ExecuteLimitOrder dcaOrderReq in
      match r with
      | Err _ => setupDCAOrders_loop n' (i + 1) currentPrice currentVolume trade
      | Ok dcaOrder =>
          setupDCAOrders_loop n' (i + 1) currentPrice currentVolume
            (Trade.with_DCAOrders (Trade.DCAOrders trade ++ [dcaOrder]) trade)
      end
  end.

Definition setupDCAOrders (trade : Trade.t) : M (option error * Trade.t) :=
  match parse_checked (Order.Price (Trade.EntryOrder trade)) with
  | Err e => ret (Some (wrap "invalid entry price" e), trade)
  | Ok entryPrice =>
      let* trade :=
        setupDCAOrders_loop (Z.to_nat (TradeConfig.DCACount (Trade.Config trade))) 0
          entryPrice (TradeConfig.DCAVolume (Trade.Config trade)) trade in
      ret (None, trade)
  end.

(** The running price at rung [k] of a loop that starts with rank [i0]
    and price [p]. *)
Fixpoint running_price (cfg : TradeConfig.t) (i0 : Z) (p : F64.float64) (k : nat)
  : F64.float64 :=
  match k with
  | O => next_dca_price cfg i0 p
  | S k' => running_price cfg (i0 + 1) (next_dca_price cfg i0 p) k'
  end.

(** The requests of the loop of [setupDCAOrders], which do not depend
    on what the exchange answers, and their placement one by one. *)
Fixpoint dca_requests (n : nat) (i : Z) (cfg : TradeConfig.t)
    (currentPrice : F64.float64) (currentVolume : string) : list CreateOrderRequest.t :=
  match n with
  | O => []
  | S n' =>
      let currentPrice := next_dca_price cfg i currentPrice in
      let currentVolume := next_dca_volume cfg currentVolume in
      CreateOrderRequest.mk (TradeConfig.Symbol cfg) OrderSideBuy OrderTypeLimit
        currentVolume (F64.Sprintf8 currentPrice)
      :: dca_requests n' (i + 1) cfg currentPrice currentVolume
  end.

Fixpoint place_dca_orders (reqs : list CreateOrderRequest.t) (trade : Trade.t)
  : M Trade.t :=
  match reqs with
  | [] => ret trade
  | req :: rest =>
      let* r := ExecuteLimitOrder req in
      match r with
      | Err _ => place_dca_orders rest trade
      | Ok dcaOrder =>
          place_dca_orders rest
            (Trade.with_DCAOrders (Trade.DCAOrders trade ++ [dcaOrder]) trade)
      end
  end.

Definition indexOrders (trade : Trade.t) (idx : gmap string UUID) : gmap string UUID :=
  let idx := <[Order.BybitID (Trade.EntryOrder trade) := Trade.ID trade]> idx in
  let idx :=
    match Trade.TakeProfitOrder trade with
    | Some tp => <[Order.BybitID tp := Trade.ID trade]> idx
    | None => idx
    end in
  List.fold_left (fun idx dcaOrder => <[Order.BybitID dcaOrder := Trade.ID trade]> idx)
    (Trade.DCAOrders trade) idx.

Definition unindexOrders (trade : Trade.t) (idx : gmap string UUID) : gmap string UUID :=
  let idx := delete (Order.BybitID (Trade.EntryOrder trade)) idx in
  let idx :=
    match Trade.TakeProfitOrder trade with
    | Some tp => delete (Order.BybitID tp) idx
    | None => idx
    end in
  List.fold_left (fun idx dcaOrder => delete (Order.BybitID dcaOrder) idx)
    (Trade.DCAOrders trade) idx.

Definition InitializeTrade (s : TradeService) (config : TradeConfig.t)
  : M (result Trade.t * TradeService) :=
  let entryOrderReq :=
    CreateOrderRequest.mk (TradeConfig.Symbol config) OrderSideBuy OrderTypeMarket
      (TradeConfig.EntryVolume config) "" in
  let* r := ExecuteMarketOrder entryOrderReq in
  match r with
  | Err e => ret (Err (wrap "failed to execute entry order" e), s)
  | Ok entryOrder =>
      let* id := uuid_New in
      let* created := time_Now in
      let* updated := time_Now in
      let trade :=
        Trade.mk id (TradeConfig.Symbol config) config entryOrder [] None
          TradeStatusActive (TradeConfig.EntryVolume config)
          (Order.Price entryOrder) (Order.Price entryOrder) created updated in
      let* r1 := setupTakeProfitOrder trade in
      let trade := snd r1 in
      let* r2 := setupDCAOrders trade in
      let trade := snd r2 in
      ret (Ok trade,
           mkTradeService (<[Trade.ID trade := trade]> (trades s))
                          (indexOrders trade (orderIndex s)))
  end.

Definition FindTradeByOrderID (s : TradeService) (orderID : string) : result Trade.t :=
  match orderIndex s !! orderID with
  | None => Err (errorf ("trade not found for order ID: " ++ orderID))
  | Some tradeID =>
      match trades s !! tradeID with
      | None => Err (errorf ("trade " ++ tradeID ++ " not found"))
      | Some trade => Ok trade
      end
  end.

(** The loop of [calculateNewAveragePrice] over the DCA orders. *)
Definition accumulate_dca (acc : F64.float64 * F64.float64) (dcaOrder : Order.t)
  : F64.float64 * F64.float64 :=
  if String.eqb (Order.Status dcaOrder) OrderStatusFilled then
    match parse_checked (Order.ExecutedQty dcaOrder) with
    | Err _ => acc
    | Ok dcaVolume =>
        match parse_checked (Order.Price dcaOrder) with
        | Err _ => acc
        | Ok dcaPrice =>
            (F64.add (fst acc) dcaVolume, F64.add (snd acc) (F64.mul dcaVolume dcaPrice))
        end
    end
  else acc.

Definition calculateNewAveragePrice (trade : Trade.t) : result (F64.float64 * string) :=
  match parse_checked (Order.Quantity (Trade.EntryOrder trade)) with
  | Err e => Err (wrap "invalid entry volume" e)
  | Ok entryVolume =>
      match parse_checked (Order.Price (Trade.EntryOrder trade)) with
      | Err e => Err (wrap "invalid entry price" e)
      | Ok entryPrice =>
          let totalVolume := F64.add F64.zero entryVolume in
          let totalCost := F64.add F64.zero (F64.mul entryVolume entryPrice) in
          let acc :=
            List.fold_left accumulate_dca (Trade.DCAOrders trade) (totalVolume, totalCost) in
          if F64.eqb (fst acc) F64.zero then Err (errorf "total volume is zero")
          else Ok (F64.div (snd acc) (fst acc), F64.Sprintf8 (fst acc))
      end
  end.

(** The first step of [updateTakeProfitOrder]: the cancellation of the
    live take profit, if any. *)
Definition cancel_take_profit (trade : Trade.t) : M (option error) :=
  match Trade.TakeProfitOrder trade with
  | Some tp => TerminateOrder (Trade.Symbol trade) (Order.BybitID tp)
  | None => ret None
  end.

(** The order that replaces the take profit: a limit SELL of the total
    volume at the new average raised by the take-profit percentage. *)
Definition replacement_request (trade : Trade.t) (newAveragePrice : F64.float64)
    (totalVolume : string) : CreateOrderRequest.t :=
  let cfg := Trade.Config trade in
  let tpPrice :=
    F64.mul newAveragePrice
      (F64.add F64.one (F64.div (TradeConfig.TakeProfitPercent cfg) F64.hundred)) in
  let tpPriceStr := F64.Sprintf8 tpPrice in
  CreateOrderRequest.mk (TradeConfig.Symbol cfg) OrderSideSell OrderTypeLimit
    totalVolume tpPriceStr.

Definition updateTakeProfitOrder (trade : Trade.t) : M (option error * Trade.t) :=
  let* _ := cancel_take_profit trade in
  match calculateNewAveragePrice trade with
  | Err e => ret (Some (wrap "failed to calculate new average price" e), trade)
  | Ok (newAveragePrice, totalVolume) =>
      let tpOrderReq := replacement_request trade newAveragePrice totalVolume in
      let* r := ExecuteLimitOrder tpOrderReq in
      match r with
      | Err e => ret (Some (wrap "failed to create new take profit order" e), trade)
      | Ok tpOrder =>
          ret (None,
               Trade.with_AveragePrice (F64.Sprintf8 newAveragePrice)
                 (Trade.with_TakeProfitOrder (Some tpOrder) trade))
      end
  end.

(** [trade.DCAOrders[dcaOrderIndex]] panics out of range; the only
    caller passes an index of the slice. *)
Definition handleDCAExecution (trade : Trade.t) (dcaOrderIndex : nat)
  : M (option error * Trade.t) :=
  match Trade.DCAOrders trade !! dcaOrderIndex with
  | None => ret (Some (errPanic "index out of range"), trade)
  | Some dcaOrder =>
      let* r := FetchOrderStatus (Order.Symbol dcaOrder) (Order.BybitID dcaOrder) in
      match r with
      | Err e => ret (Some (wrap "failed to get updated DCA order status" e), trade)
      | Ok updatedOrder =>
          let trade :=
            Trade.with_DCAOrders (<[dcaOrderIndex := updatedOrder]> (Trade.DCAOrders trade))
              trade in
          let* r := updateTakeProfitOrder trade in
          let trade := snd r in
          let* now := time_Now in
          ret (None, Trade.with_UpdatedAt now trade)
      end
  end.

(** The cancellations that follow finalization, errors dropped. *)
Fixpoint cancel_new_orders (dcaOrders : list Order.t) : M unit :=
  match dcaOrders with
  | [] => ret tt
  | dcaOrder :: rest =>
      if String.eqb (Order.Status dcaOrder) OrderStatusNew then
        let* _ := TerminateOrder (Order.Symbol dcaOrder) (Order.BybitID dcaOrder) in
        cancel_new_orders rest
      else cancel_new_orders rest
  end.

Definition finalizeTrade (s : TradeService) (tradeID : UUID) (status : TradeStatus)
  : M (option error * TradeService) :=
  match trades s !! tradeID with
  | None => ret (Some (errorf ("trade not found: " ++ tradeID)), s)
  | Some trade =>
      let* now := time_Now in
      let trade := Trade.with_UpdatedAt now (Trade.with_Status status trade) in
      let s :=
        mkTradeService (<[tradeID := trade]> (trades s))
                       (unindexOrders trade (orderIndex s)) in
      let* _ := cancel_new_orders (Trade.DCAOrders trade) in
      ret (None, s)
  end.

(** The first index of the slice whose order has the exchange id. *)
Fixpoint find_dca (orderID : string) (dcaOrders : list Order.t) (i : nat) : option nat :=
  match dcaOrders with
  | [] => None
  | dcaOrder :: rest =>
      if String.eqb (Order.BybitID dcaOrder) orderID then Some i
      else find_dca orderID rest (S i)
  end.

Definition is_take_profit (trade : Trade.t) (orderID : string) : bool :=
  match Trade.TakeProfitOrder trade with
  | Some tp => String.eqb (Order.BybitID tp) orderID
  | None => false
  end.

Definition ProcessOrderExecution (s : TradeService) (tradeID : UUID) (orderID : string)
  : M (option error * TradeService) :=
  match trades s !! tradeID with
  | None => ret (Some (errorf ("trade not found: " ++ tradeID)), s)
  | Some trade =>
      if is_take_profit trade orderID then finalizeTrade s tradeID TradeStatusCompleted
      else
        match find_dca orderID (Trade.DCAOrders trade) 0 with
        | Some i =>
            let* r := handleDCAExecution trade i in
            ret (fst r, mkTradeService (<[tradeID := snd r]> (trades s)) (orderIndex s))
        | None =>
            ret (Some (errorf ("order " ++ orderID ++ " not found in trade " ++ tradeID)), s)
        end
  end.

Definition GetTrade (s : TradeService) (tradeID : UUID) : result Trade.t :=
  match trades s !! tradeID with
  | None => Err (errorf ("trade not found: " ++ tradeID))
  | Some trade => Ok trade
  end.

Definition CloseTrade (s : TradeService) (tradeID : UUID) (reason : string)
  : M (option error * TradeService) :=
  match trades s !! tradeID with
  | None => ret (Some (errorf ("trade not found: " ++ tradeID)), s)
  | Some _ => finalizeTrade s tradeID TradeStatusCancelled
  end.

(** What [updateTakeProfitOrder] and [handleDCAExecution] leave alone. *)
Definition same_identity (a b : Trade.t) : Prop :=
  Trade.ID a = Trade.ID b /\ Trade.Symbol a = Trade.Symbol b
  /\ Trade.Config a = Trade.Config b /\ Trade.EntryOrder a = Trade.EntryOrder b
  /\ Trade.Status a = Trade.Status b /\ Trade.TotalInvested a = Trade.TotalInvested b
  /\ Trade.CurrentPrice a = Trade.CurrentPrice b /\ Trade.CreatedAt a = Trade.CreatedAt b.

(** *** TradeHandler.InitializeTrade *)

Inductive Body :=
| BodyError (message : string)
| BodyTrade (trade : Trade.t).

Record Response := mkResponse {
  StatusCode : Z;
  ResponseBody : Body
}.

(** [bound] is what [bindJSON] made of the request body. *)
Definition Handler_InitializeTrade (s : TradeService) (bound : result TradeConfig.t)
  : M (Response * TradeService) :=
  match bound with
  | Err _ => ret (mkResponse 400 (BodyError "Invalid JSON"), s)
  | Ok config =>
      if (String.eqb (TradeConfig.Symbol config) ""
          || String.eqb (TradeConfig.EntryVolume config) ""
          || String.eqb (TradeConfig.DCAVolume config) "")%bool
      then ret (mkResponse 400
                  (BodyError "Symbol, entry volume and DCA volume are required"), s)
      else if ((TradeConfig.DCACount config <=? 0)%Z
               || F64.leb (TradeConfig.DCAStepPercent config) F64.zero
               || F64.leb (TradeConfig.TakeProfitPercent config) F64.zero)%bool
      then ret (mkResponse 400
                  (BodyError "DCA count, step percent and take profit percent must be positive"),
                s)
      else
        let config :=
          if F64.leb (TradeConfig.Martingale config) F64.zero
          then TradeConfig.with_Martingale DefaultMartingale config
          else config in
        let* r := InitializeTrade s config in
        match fst r with
        | Err _ => ret (mkResponse 500 (BodyError "Failed to initialize trade"), snd r)
        | Ok trade => ret (mkResponse 201 (BodyTrade trade), snd r)
        end
  end.

End Service.

(* ===================================================================== *)
(** ** A scripted exchange *)
(* ===================================================================== *)

(** An exchange in the manner of the repository's [MockClient]: it accepts
    or rejects [ExecuteOrder] calls by their rank, gives accepted orders the
    ids "ord-0", "ord-1", ..., fills market orders at [market_price], reports
    for [FetchOrderInfo] what [reports] holds for the id, and records the
    calls it receives. The clock advances by one at each reading. *)
Module Mock.

Inductive Call :=
| CallExecute (r : ExchangeOrderRequest.t)
| CallCancel (r : ExchangeCancelRequest.t)
| CallFetch (symbol orderID : string).

Record world := mk {
  clock : Z;
  fresh : N;
  market_price : string;
  reject_execute : list nat;
  executes : nat;
  reject_cancel : bool;
  reports : list ExchangeOrderResponse.t;
  calls : list Call
}.

Definition log (c : Call) (w : world) : world :=
  mk (clock w) (fresh w) (market_price w) (reject_execute w) (executes w)
     (reject_cancel w) (reports w) (calls w ++ [c]).

Definition name (prefix : string) (n : N) : string :=
  prefix ++ NilZero.string_of_uint (N.to_uint n).

Definition ExecuteOrder (req : ExchangeOrderRequest.t) (w : world)
  : result ExchangeOrderResponse.t * world :=
  let w := log (CallExecute req) w in
  let rank := executes w in
  let w := mk (clock w) (fresh w) (market_price w) (reject_execute w) (S rank)
              (reject_cancel w) (reports w) (calls w) in
  if List.existsb (Nat.eqb rank) (reject_execute w) then
    (Err (errClient "bybit API error: status 400"), w)
  else
    let market := String.eqb (ExchangeOrderRequest.Price req) "" in
    let resp :=
      ExchangeOrderResponse.mk
        (ExchangeOrderRequest.Symbol req)
        (name "ord-" (fresh w))
        ""
        (if market then market_price w else ExchangeOrderRequest.Price req)
        (ExchangeOrderRequest.Qty req)
        (if market then ExchangeOrderRequest.Qty req else "0")
        (if market then "FILLED" else "NEW")
        (ExchangeOrderRequest.TimeInForce req)
        (ExchangeOrderRequest.OrderType req)
        (ExchangeOrderRequest.Side req)
        "" in
    (Ok resp,
     mk (clock w) (fresh w + 1) (market_price w) (reject_execute w) (executes w)
        (reject_cancel w) (reports w) (calls w)).

Definition TerminateOrder (req : ExchangeCancelRequest.t) (w : world)
  : option error * world :=
  let w := log (CallCancel req) w in
  if reject_cancel w then (Some (errClient "bybit API error: status 400"), w)
  else (None, w).

Definition FetchOrderInfo (symbol orderID : string) (w : world)
  : result ExchangeOrderResponse.t * world :=
  let w := log (CallFetch symbol orderID) w in
  match List.find (fun r => String.eqb (ExchangeOrderResponse.OrderID r) orderID)
                  (reports w) with
  | Some r => (Ok r, w)
  | None => (Err (errClient "order not found"), w)
  end.

Definition uuid (w : world) : UUID * world :=
  (name "uuid-" (fresh w),
   mk (clock w) (fresh w + 1) (market_price w) (reject_execute w) (executes w)
      (reject_cancel w) (reports w) (calls w)).

Definition now (w : world) : Time * world :=
  (clock w,
   mk (clock w + 1) (fresh w) (market_price w) (reject_execute w) (executes w)
      (reject_cancel w) (reports w) (calls w)).

Definition exchange : Exchange :=
  {| World := world;
     client_ExecuteOrder := ExecuteOrder;
     client_TerminateOrder := TerminateOrder;
     client_FetchOrderInfo := FetchOrderInfo;
     uuid_New := uuid;
     time_Now := now |}.

(** A fresh world: market price [p], rejected [ExecuteOrder] ranks
    [rej], reports [reps]. *)
Definition start (p : string) (rej : list nat) (reps : list ExchangeOrderResponse.t)
  : world :=
  mk 1700000000000 0 p rej 0 false reps [].

End Mock.

(* ===================================================================== *)
(** ** The specification's formulas, in its own words *)
(* ===================================================================== *)

Module Spec.

(** [1 + pct/100] and [1 - pct/100]. *)
Definition up (pct : F64.float64) : F64.float64 :=
  F64.add F64.one (F64.div pct F64.hundred).
Definition down (pct : F64.float64) : F64.float64 :=
  F64.sub F64.one (F64.div pct F64.hundred).

(** The geometric ladder: [prev * (1 - step/100)], [k] times from [p]. *)
Definition geometric (step p : F64.float64) (k : nat) : F64.float64 :=
  Nat.iter k (fun prev => F64.mul prev (down step)) p.

(** The dynamic ladder as the specification words it: the running price
    of rung [i] (from 0) is [prev * (1 - i*step/100)]. *)
Fixpoint dynamic_as_claimed (step p : F64.float64) (i : nat) : F64.float64 :=
  let prev := match i with O => p | S j => dynamic_as_claimed step p j end in
  F64.mul prev (down (F64.mul step (F64.of_int (Z.of_nat i)))).

(** The dynamic ladder with the step scaled by the rung's rank from 1:
    the running price of rung [i] (from 0) is [prev * (1 - (i+1)*step/100)].
    [dynamic_from] starts the ranks at [i0 + 1]. *)
Fixpoint dynamic_from (step : F64.float64) (i0 : Z) (p : F64.float64) (i : nat)
  : F64.float64 :=
  let prev := match i with O => p | S j => dynamic_from step i0 p j end in
  F64.mul prev (down (F64.mul step (F64.of_int (i0 + Z.of_nat i + 1)))).

Definition dynamic_scaled (step p : F64.float64) (i : nat) : F64.float64 :=
  dynamic_from step 0 p i.

(** The other reading of the claim: rung [i] is [i * step] percent below
    the entry price. *)
Definition offset_from_entry (step p : F64.float64) (i : Z) : F64.float64 :=
  F64.mul p (down (F64.mul step (F64.of_int i))).

(** The price of rung [i] as the specification claims it. *)
Definition claimed_dca_price (cfg : TradeConfig.t) (p : F64.float64) (i : nat) : string :=
  F64.Sprintf8
    (if TradeConfig.DynamicStep cfg
     then dynamic_as_claimed (TradeConfig.DCAStepPercent cfg) p i
     else geometric (TradeConfig.DCAStepPercent cfg) p (S i)).

(** The price of rung [i] with the dynamic step scaled by [i+1]. *)
Definition ladder_dca_price (cfg : TradeConfig.t) (p : F64.float64) (i : nat) : string :=
  F64.Sprintf8
    (if TradeConfig.DynamicStep cfg
     then dynamic_scaled (TradeConfig.DCAStepPercent cfg) p i
     else geometric (TradeConfig.DCAStepPercent cfg) p (S i)).

(** The projected total in closed form:
    [entry_volume + dca_count * (dca_volume * m)], to 8 digits. *)
Definition projected_total_closed (cfg : TradeConfig.t) : string :=
  F64.Sprintf8
    (F64.add (parse_unchecked (TradeConfig.EntryVolume cfg))
       (F64.mul (F64.of_int (TradeConfig.DCACount cfg))
          (F64.mul (parse_unchecked (TradeConfig.DCAVolume cfg))
                   (TradeConfig.Martingale cfg)))).

(** The projected total as a running sum that is put to 8 digits after
    each rung. *)
Definition projected_total_running (cfg : TradeConfig.t) : string :=
  Nat.iter (Z.to_nat (TradeConfig.DCACount cfg))
    (fun total =>
       F64.Sprintf8
         (F64.add (parse_unchecked total)
            (F64.mul (parse_unchecked (TradeConfig.DCAVolume cfg))
                     (TradeConfig.Martingale cfg))))
    (TradeConfig.EntryVolume cfg).

(** The legs of the weighted average: every DCA order whose status is
    FILLED, with its executed quantity and price (0 where the text does
    not parse). *)
Definition filled_legs (dcaOrders : list Order.t) : list (F64.float64 * F64.float64) :=
  List.map (fun o => (parse_unchecked (Order.ExecutedQty o), parse_unchecked (Order.Price o)))
    (List.filter (fun o => String.eqb (Order.Status o) OrderStatusFilled) dcaOrders).

(** The legs that count: FILLED, and both texts parse. *)
Definition parsed_legs (dcaOrders : list Order.t) : list (F64.float64 * F64.float64) :=
  List.map (fun o => (parse_unchecked (Order.ExecutedQty o), parse_unchecked (Order.Price o)))
    (List.filter
       (fun o => String.eqb (Order.Status o) OrderStatusFilled
                 && negb (is_Err (parse_checked (Order.ExecutedQty o)))
                 && negb (is_Err (parse_checked (Order.Price o))))%bool
       dcaOrders).

(** [entry_qty + sum of qty_i], summed from the left. *)
Definition total_volume (entry_qty : F64.float64) (legs : list (F64.float64 * F64.float64))
  : F64.float64 :=
  List.fold_left (fun acc leg => F64.add acc (fst leg)) legs (F64.add F64.zero entry_qty).

(** [entry_qty * entry_price + sum of qty_i * price_i], summed from the
    left. *)
Definition total_cost (entry_qty entry_price : F64.float64)
    (legs : list (F64.float64 * F64.float64)) : F64.float64 :=
  List.fold_left (fun acc leg => F64.add acc (F64.mul (fst leg) (snd leg))) legs
    (F64.add F64.zero (F64.mul entry_qty entry_price)).

Definition weighted_average (entry_qty entry_price : F64.float64)
    (legs : list (F64.float64 * F64.float64)) : F64.float64 :=
  F64.div (total_cost entry_qty entry_price legs) (total_volume entry_qty legs).

(** The average price of a trade as the specification claims it: over
    the entry (quantity parsed from [Quantity]) and all FILLED DCA
    orders, to 8 digits. *)
Definition claimed_average_price (trade : Trade.t) : string :=
  F64.Sprintf8
    (weighted_average
       (parse_unchecked (Order.Quantity (Trade.EntryOrder trade)))
       (parse_unchecked (Order.Price (Trade.EntryOrder trade)))
       (filled_legs (Trade.DCAOrders trade))).

(** The same over the legs that count. *)
Definition average_price_of (trade : Trade.t) : string :=
  F64.Sprintf8
    (weighted_average
       (parse_unchecked (Order.Quantity (Trade.EntryOrder trade)))
       (parse_unchecked (Order.Price (Trade.EntryOrder trade)))
       (parsed_legs (Trade.DCAOrders trade))).

(** A price text in units of [10^-8], when it parses to a finite number. *)
Definition units8 (price : string) : option Z :=
  match parse_checked price with
  | Ok (S754_finite s m e) => Some ((if s then Z.opp else id) (F64.scaled8 m e))
  | Ok (S754_zero _) => Some 0
  | _ => None
  end.

(** Two price texts differ by at most one unit of the 8th digit. *)
Definition within_rounding (a b : string) : Prop :=
  match units8 a, units8 b with
  | Some x, Some y => Z.abs (x - y) <= 1
  | _, _ => False
  end.

(** Every order that the trade holds is mapped to the trade's id. *)
Definition indexed (idx : gmap string UUID) (trade : Trade.t) : Prop :=
  idx !! Order.BybitID (Trade.EntryOrder trade) = Some (Trade.ID trade)
  /\ (forall tp, Trade.TakeProfitOrder trade = Some tp ->
                idx !! Order.BybitID tp = Some (Trade.ID trade))
  /\ (forall o, In o (Trade.DCAOrders trade) ->
               idx !! Order.BybitID o = Some (Trade.ID trade)).

End Spec.

(* ===================================================================== *)
(** ** Scenarios on the scripted exchange *)
(* ===================================================================== *)

Module Scenario.

(** Scenario 1 of the specification: entry 100 USDT, three DCA orders of
    50 USDT one percent apart, take profit at two percent. *)
Definition config : TradeConfig.t :=
  TradeConfig.mk "SOLUSDT" "100" (F64.of_int 1) "50" 3 (F64.of_int 2) F64.one false.

(** What the exchange reports of the first DCA order once it has filled:
    50 executed at 99. *)
Definition first_dca_filled : ExchangeOrderResponse.t :=
  ExchangeOrderResponse.mk "SOLUSDT" "ord-5" "" "99.00000000" "0.50505051" "50" "FILLED"
    "GTC" "LIMIT" "BUY" "".

Definition tradeID : UUID := "uuid-2".

(** Initialization; [rej] lists the [ExecuteOrder] calls that the
    exchange rejects (0 is the entry, 1 the take profit, 2 to 4 the DCA
    orders, 5 the first replacement of the take profit). *)
Definition init (cfg : TradeConfig.t) (rej : list nat) :=
  @InitializeTrade Mock.exchange NewTradeManager cfg
    (Mock.start "100.00000000" rej [first_dca_filled]).

Definition after_init (cfg : TradeConfig.t) (rej : list nat) : TradeService :=
  snd (fst (init cfg rej)).
Definition world_after_init (cfg : TradeConfig.t) (rej : list nat) : Mock.world :=
  snd (init cfg rej).

(** Then the first DCA order fills. *)
Definition dca_fill (rej : list nat) :=
  @ProcessOrderExecution Mock.exchange (after_init config rej) tradeID "ord-5"
    (world_after_init config rej).

(** Then the take profit placed at initialization fills. *)
Definition tp_fill :=
  @ProcessOrderExecution Mock.exchange (after_init config []) tradeID "ord-3"
    (world_after_init config []).

(** The prices of the limit BUY orders that the exchange received. *)
Definition buy_prices (w : Mock.world) : list string :=
  List.concat
    (List.map
       (fun c => match c with
                 | Mock.CallExecute r =>
                     if (String.eqb (ExchangeOrderRequest.Side r) OrderSideBuy
                         && String.eqb (ExchangeOrderRequest.OrderType r) OrderTypeLimit)%bool
                     then [ExchangeOrderRequest.Price r] else []
                 | _ => []
                 end)
       (Mock.calls w)).

Definition dynamic_config : TradeConfig.t :=
  TradeConfig.mk "SOLUSDT" "100" (F64.of_int 1) "50" 3 (F64.of_int 2) F64.one true.

(** A configuration whose DCA volume has a ninth decimal. *)
Definition fine_config : TradeConfig.t :=
  TradeConfig.mk "SOLUSDT" "1" (F64.of_int 1) "1.000000004" 3 (F64.of_int 2) F64.one false.

(** A configuration with 21 safety orders. *)
Definition wide_config : TradeConfig.t :=
  TradeConfig.mk "SOLUSDT" "100" (F64.of_int 1) "50" 21 (F64.of_int 2) F64.one false.

(** A configuration with no safety order. *)
Definition bare_config : TradeConfig.t :=
  TradeConfig.mk "SOLUSDT" "100" (F64.of_int 1) "50" 0 (F64.of_int 2) F64.one false.

(** A world where nothing has happened yet. *)
Definition fresh_world : Mock.world := Mock.start "100.00000000" [] [first_dca_filled].

Definition client : Bybit.Client := Bybit.mkClient "key" "secret" false.

(** Values to fall back on where a lookup could miss. *)
Definition no_order : Order.t := Order.mk "" "" "" "" "" "" "" "" "" 0 0.
Definition no_trade : Trade.t :=
  Trade.mk "" "" (TradeConfig.mk "" "" F64.zero "" 0 F64.zero F64.zero false)
    no_order [] None TradeStatusActive "" "" "" 0 0.

Definition registered (s : TradeService) : Trade.t :=
  match trades s !! tradeID with Some t => t | None => no_trade end.

(** The registry and the trade after initialization, and the world then. *)
Definition s0 : TradeService := after_init config [].
Definition trade0 : Trade.t := registered s0.
Definition w0 (rej : list nat) : Mock.world := world_after_init config rej.

(** The first DCA order, as placed and as the exchange reports it. *)
Definition dca0 : Order.t :=
  match Trade.DCAOrders trade0 !! 0%nat with Some o => o | None => no_order end.
Definition fetched (rej : list nat) :=
  @FetchOrderStatus Mock.exchange (Order.Symbol dca0) (Order.BybitID dca0) (w0 rej).
Definition updated0 : Order.t :=
  match fst (fetched []) with Ok o => o | Err _ => no_order end.

(** The trade once the report has overwritten the order, and the world. *)
Definition trade1 : Trade.t :=
  Trade.with_DCAOrders (<[0%nat := updated0]> (Trade.DCAOrders trade0)) trade0.
Definition w1 (rej : list nat) : Mock.world := snd (fetched rej).

(** The registry, the trade and the world once the take profit has
    filled. *)
Definition s_done : TradeService := snd (fst tp_fill).
Definition trade_done : Trade.t := registered s_done.
Definition w_done : Mock.world := snd tp_fill.

(** A trade with an entry of 5 at a price that is no number. *)
Definition unpriced_trade : Trade.t :=
  Trade.mk "uuid-0" "SOLUSDT" config
    (Order.mk "uuid-1" "ord-0" "SOLUSDT" "BUY" "MARKET" "5" "abc" "FILLED" "5" 0 0)
    [] None TradeStatusActive "100" "abc" "abc" 0 0.

(** The trade of [fine_config] before its take profit is set up. *)
Definition fine_trade : Trade.t :=
  Trade.mk "uuid-2" "SOLUSDT" fine_config
    (Order.mk "uuid-1" "ord-0" "SOLUSDT" "BUY" "MARKET" "1" "100.00000000" "FILLED" "1" 0 0)
    [] None TradeStatusActive "1" "100.00000000" "100.00000000" 0 0.

End Scenario.

(* ===================================================================== *)
(** ** The claims that fail, as the specification states them *)
(* ===================================================================== *)

Module Claims.

(** Terminal immutability: on a trade whose status is terminal,
    [ProcessOrderExecution] and [CloseTrade] leave the trade as it is. *)
Definition terminal_immutability `{Exchange} (s : TradeService) (tradeID : UUID)
    (trade : Trade.t) (orderID reason : string) (w : World) : Prop :=
  trades s !! tradeID = Some trade ->
  terminal (Trade.Status trade) = true ->
  trades (snd (fst (ProcessOrderExecution s tradeID orderID w))) !! tradeID = Some trade
  /\ trades (snd (fst (CloseTrade s tradeID reason w))) !! tradeID = Some trade.

(** A failure to place the replacement take profit makes
    [ProcessOrderExecution] return an error. *)
Definition placement_failure_surfaced `{Exchange} (s : TradeService) (tradeID : UUID)
    (orderID : string) (w : World) (t1 : Trade.t) (w1 : World) : Prop :=
  forall avg vol,
    calculateNewAveragePrice t1 = Ok (avg, vol) ->
    is_Err (fst (ExecuteLimitOrder (replacement_request t1 avg vol)
                   (snd (cancel_take_profit t1 w1)))) = true ->
    fst (fst (ProcessOrderExecution s tradeID orderID w)) <> None.

(** The prices of the DCA grid that the exchange received are the
    claimed ones. *)
Definition grid_as_claimed (cfg : TradeConfig.t) (entryPrice : F64.float64)
    (prices : list string) : Prop :=
  forall (i : nat) (p : string),
    prices !! i = Some p -> p = Spec.claimed_dca_price cfg entryPrice i.

(** The other reading: rung [i] (counted from [first]) is [i * step]
    percent below the entry price. *)
Definition grid_offset_from_entry (cfg : TradeConfig.t) (entryPrice : F64.float64)
    (first : Z) (prices : list string) : Prop :=
  forall (i : nat) (p : string),
    prices !! i = Some p ->
    p = F64.Sprintf8 (Spec.offset_from_entry (TradeConfig.DCAStepPercent cfg) entryPrice
                        (first + Z.of_nat i)).

(** The quantity of the initial take profit is the closed form. *)
Definition initial_quantity_closed (trade : Trade.t) (entryPrice : F64.float64) : Prop :=
  CreateOrderRequest.Quantity (initial_tp_request trade entryPrice) =
  Spec.projected_total_closed (Trade.Config trade).

(** After a DCA fill is processed, the average price is the weighted
    average over the entry and the FILLED DCA orders. *)
Definition average_after_fill `{Exchange} (s : TradeService) (tradeID : UUID)
    (orderID : string) (w : World) : Prop :=
  fst (fst (ProcessOrderExecution s tradeID orderID w)) = None ->
  forall trade',
    trades (snd (fst (ProcessOrderExecution s tradeID orderID w))) !! tradeID = Some trade' ->
    Trade.AveragePrice trade' = Spec.claimed_average_price trade'.

(** R1: the take-profit price, then the DCA price of it, is the price one
    started from, up to 8-digit rounding. *)
Definition round_trip_R1 (p : string) (pct : F64.float64) : Prop :=
  exists tp d,
    ComputeTakeProfitPrice p pct OrderSideBuy = Ok tp
    /\ ComputeDCAPrice tp pct OrderSideBuy = Ok d
    /\ Spec.within_rounding d p.

(** A [dca_count] outside 1..MaxSafetyOrders is rejected before any
    exchange call. *)
Definition dca_count_bounded `{Exchange} (s : TradeService) (config : TradeConfig.t)
    (w : World) : Prop :=
  (TradeConfig.DCACount config <= 0 \/ TradeConfig.DCACount config > MaxSafetyOrders)%Z ->
  StatusCode (fst (fst (Handler_InitializeTrade s (Ok config) w))) = 400%Z
  /\ snd (Handler_InitializeTrade s (Ok config) w) = w.

(** [calculateNewAveragePrice] fails exactly when the total volume is
    zero. *)
Definition error_iff_zero_volume (trade : Trade.t) : Prop :=
  is_Err (calculateNewAveragePrice trade) = true <->
  F64.eqb
    (Spec.total_volume (parse_unchecked (Order.Quantity (Trade.EntryOrder trade)))
       (Spec.parsed_legs (Trade.DCAOrders trade)))
    F64.zero = true.

End Claims.

(* ===================================================================== *)
(** ** The error values of the application *)
(* ===================================================================== *)

Module AppErrors.

Definition ErrorType : Type := string.
Definition ErrorTypeValidation : ErrorType := "validation".
Definition ErrorTypeDomain : ErrorType := "domain".
Definition ErrorTypeExternal : ErrorType := "external".
Definition ErrorTypeInternal : ErrorType := "internal".
Definition ErrorTypeNotFound : ErrorType := "not_found".

(** [Details] is a map of texts in every constructor; nil is the empty
    list. *)
Record AppError := mk {
  Type_ : ErrorType;
  Code : string;
  Message : string;
  Details : list (string * string)
}.

Definition Error (e : AppError) : string := Message e.

Definition ValidationError (field message : string) : AppError :=
  mk ErrorTypeValidation "VALIDATION_ERROR"
     ("validation failed for field '" ++ field ++ "': " ++ message)
     [("field", field)].

Definition DomainError (message code : string) : AppError :=
  mk ErrorTypeDomain code message [].

Definition ExternalError (service message : string) : AppError :=
  mk ErrorTypeExternal "EXTERNAL_SERVICE_ERROR"
     ("external service '" ++ service ++ "' error: " ++ message)
     [("service", service)].

Definition InternalError (message : string) : AppError :=
  mk ErrorTypeInternal "INTERNAL_ERROR" message [].

Definition NotFoundError (resource identifier : string) : AppError :=
  mk ErrorTypeNotFound "NOT_FOUND"
     (resource ++ " with identifier '" ++ identifier ++ "' not found")
     [("resource", resource); ("identifier", identifier)].

Definition GetHTTPStatus (e : AppError) : Z :=
  if String.eqb (Type_ e) ErrorTypeValidation then 400
  else if String.eqb (Type_ e) ErrorTypeDomain then 422
  else if String.eqb (Type_ e) ErrorTypeExternal then 502
  else if String.eqb (Type_ e) ErrorTypeInternal then 500
  else if String.eqb (Type_ e) ErrorTypeNotFound then 404
  else 500.

(** The errors that the five constructors build. *)
Inductive built : AppError -> Prop :=
| built_validation field message : built (ValidationError field message)
| built_domain message code : built (DomainError message code)
| built_external service message : built (ExternalError service message)
| built_internal message : built (InternalError message)
| built_not_found resource identifier : built (NotFoundError resource identifier).

End AppErrors.

(* ===================================================================== *)
(** ** The exchange client over HTTP *)
(* ===================================================================== *)

Module Wire.

(** What the client reads of an [http.Response]: the status code and the
    body, read to its end. *)
Record HttpResponse := mkHttpResponse {
  http_StatusCode : Z;
  http_Body : string
}.

(** [httpClient.Do], the clock and the decoding of the two response
    shapes ([result] and [result.list]) by encoding/json.
    [http.NewRequestWithContext] does not fail on the methods and URLs
    that this client writes. *)
Class Transport := {
  Net : Type;
  Do : Bybit.Request -> Net -> result HttpResponse * Net;
  UnixMilli : Net -> Z * Net;
  decode_result : string -> result ExchangeOrderResponse.t;
  decode_result_list : string -> result (list ExchangeOrderResponse.t)
}.

Definition api_error (resp : HttpResponse) : error :=
  errorf ("bybit API error: status " ++ Bybit.FormatInt (http_StatusCode resp)
          ++ ", body: " ++ http_Body resp).

Section Calls.
Context {T : Transport} {E : Bybit.Encoding}.

Definition ExecuteOrder (c : Bybit.Client) (req : ExchangeOrderRequest.t) (n : Net)
  : result ExchangeOrderResponse.t * Net :=
  let t1 := UnixMilli n in
  let t2 := UnixMilli (snd t1) in
  match Bybit.ExecuteOrder_request c (fst t1) (fst t2) req with
  | Err e => (Err e, snd t2)
  | Ok r =>
      let d := Do r (snd t2) in
      match fst d with
      | Err e => (Err (wrap "failed to create order" e), snd d)
      | Ok resp =>
          if (http_StatusCode resp =? 200)%Z then
            match decode_result (http_Body resp) with
            | Err e => (Err (wrap "failed to decode order response" e), snd d)
            | Ok result => (Ok result, snd d)
            end
          else (Err (api_error resp), snd d)
      end
  end.

Definition TerminateOrder (c : Bybit.Client) (req : ExchangeCancelRequest.t) (n : Net)
  : option error * Net :=
  let t1 := UnixMilli n in
  let t2 := UnixMilli (snd t1) in
  match Bybit.TerminateOrder_request c (fst t1) (fst t2) req with
  | Err e => (Some e, snd t2)
  | Ok r =>
      let d := Do r (snd t2) in
      match fst d with
      | Err e => (Some (wrap "failed to cancel order" e), snd d)
      | Ok resp =>
          if (http_StatusCode resp =? 200)%Z then (None, snd d)
          else (Some (api_error resp), snd d)
      end
  end.

Definition FetchOrderInfo (c : Bybit.Client) (symbol orderID : string) (n : Net)
  : result ExchangeOrderResponse.t * Net :=
  let t := UnixMilli n in
  let d := Do (Bybit.FetchOrderInfo_request c (fst t) symbol orderID) (snd t) in
  match fst d with
  | Err e => (Err (wrap "failed to execute request" e), snd d)
  | Ok resp =>
      if (http_StatusCode resp =? 200)%Z then
        match decode_result_list (http_Body resp) with
        | Err e => (Err (wrap "failed to decode order response" e), snd d)
        | Ok [] => (Err (errorf "order not found"), snd d)
        | Ok (first :: _) => (Ok first, snd d)
        end
      else (Err (api_error resp), snd d)
  end.

End Calls.

End Wire.

(* ===================================================================== *)
(** ** The other handlers of the trade controller *)
(* ===================================================================== *)

Definition OrderStatusBybitFilled : string := "Filled".

(** What a handler writes: [sendError], [sendMessage] (always 200), or a
    trade with its status code. *)
Inductive Reply :=
| ReplyError (status : Z) (message : string)
| ReplyMessage (message : string)
| ReplyTrade (status : Z) (trade : Trade.t).

Definition reply_status (r : Reply) : Z :=
  match r with
  | ReplyError status _ => status
  | ReplyMessage _ => 200
  | ReplyTrade status _ => status
  end.

(** The body of a webhook call once bound, by its short keys e, s, i, X,
    S, o; each is a text, and a key that the body leaves out is the empty
    text. *)
Record WebhookData := mkWebhookData {
  wh_EventType : string;
  wh_Symbol : string;
  wh_OrderID : string;
  wh_Status : string;
  wh_Side : string;
  wh_Type : string
}.

(** The entry order of a trade is set when the trade is made and is
    never nil afterwards. *)
Definition determineOrderType (trade : Trade.t) (orderID : string) : string :=
  if String.eqb (Order.BybitID (Trade.EntryOrder trade)) orderID then "entry"
  else if is_take_profit trade orderID then "take_profit"
  else if List.existsb (fun dcaOrder => String.eqb (Order.BybitID dcaOrder) orderID)
            (Trade.DCAOrders trade)
       then "dca"
       else "unknown".

Section Handlers.
Context {X : Exchange}.
(** [uuid.Parse] of the path parameter. *)
Variable uuid_Parse : string -> result UUID.

Definition Handler_GetTrade (s : TradeService) (tradeIDStr : string) : Reply :=
  if String.eqb tradeIDStr "" then ReplyError 400 "Trade ID is required"
  else
    match uuid_Parse tradeIDStr with
    | Err _ => ReplyError 400 "Invalid trade ID format"
    | Ok tradeID =>
        match GetTrade s tradeID with
        | Err _ => ReplyError 404 "Trade not found"
        | Ok trade => ReplyTrade 200 trade
        end
    end.

(** [bound] is what [bindJSON] made of the body: its [order_id]. *)
Definition Handler_ProcessOrderExecution (s : TradeService) (tradeIDStr : string)
    (bound : result string) : M (Reply * TradeService) :=
  if String.eqb tradeIDStr "" then ret (ReplyError 400 "Trade ID is required", s)
  else
    match uuid_Parse tradeIDStr with
    | Err _ => ret (ReplyError 400 "Invalid trade ID format", s)
    | Ok tradeID =>
        match bound with
        | Err _ => ret (ReplyError 400 "Invalid JSON", s)
        | Ok orderID =>
            if String.eqb orderID "" then ret (ReplyError 400 "Order ID is required", s)
            else
              let* r := ProcessOrderExecution s tradeID orderID in
              match fst r with
              | Some _ => ret (ReplyError 500 "Failed to process order execution", snd r)
              | None => ret (ReplyMessage "Order execution processed successfully", snd r)
              end
        end
    end.

(** [bound] is what [bindJSON] made of the body: its [reason]. *)
Definition Handler_CloseTrade (s : TradeService) (tradeIDStr : string)
    (bound : result string) : M (Reply * TradeService) :=
  if String.eqb tradeIDStr "" then ret (ReplyError 400 "Trade ID is required", s)
  else
    match uuid_Parse tradeIDStr with
    | Err _ => ret (ReplyError 400 "Invalid trade ID format", s)
    | Ok tradeID =>
        match bound with
        | Err _ => ret (ReplyError 400 "Invalid JSON", s)
        | Ok given =>
            let reason := if String.eqb given "" then "Manual close" else given in
            let* r := CloseTrade s tradeID reason in
            match fst r with
            | Some _ => ret (ReplyError 500 "Failed to close trade", snd r)
            | None => ret (ReplyMessage "Trade closed successfully", snd r)
            end
        end
    end.

(** [bound] is what [bindJSON] made of the body: an error when the body
    is no JSON or holds, under one of the six keys, a value that is no
    text. *)
Definition WebhookOrderUpdate (s : TradeService) (bound : result WebhookData)
  : M (Reply * TradeService) :=
  match bound with
  | Err _ => ret (ReplyError 400 "Invalid JSON", s)
  | Ok webhookData =>
      if String.eqb (wh_Status webhookData) OrderStatusBybitFilled then
        match FindTradeByOrderID s (wh_OrderID webhookData) with
        | Err _ => ret (ReplyMessage "Order not found", s)
        | Ok trade =>
            let orderType := determineOrderType trade (wh_OrderID webhookData) in
            if String.eqb orderType "entry" then ret (ReplyMessage "Webhook processed", s)
            else
              let* r := ProcessOrderExecution s (Trade.ID trade) (wh_OrderID webhookData) in
              ret (ReplyMessage "Webhook processed", snd r)
        end
      else ret (ReplyMessage "Webhook processed", s)
  end.

End Handlers.

(* ===================================================================== *)
(** ** Notions for the properties of the rest of the code *)
(* ===================================================================== *)

Module Notions.

(** The exchange ids of the orders that a trade holds. *)
Definition held_ids (trade : Trade.t) : list string :=
  Order.BybitID (Trade.EntryOrder trade)
  :: match Trade.TakeProfitOrder trade with
     | Some tp => [Order.BybitID tp]
     | None => []
     end
  ++ List.map Order.BybitID (Trade.DCAOrders trade).

(** The volume of rung [i] (from 0): the martingale step applied [i+1]
    times to the DCA volume. *)
Definition ladder_dca_volume (cfg : TradeConfig.t) (i : nat) : string :=
  Nat.iter (S i) (next_dca_volume cfg) (TradeConfig.DCAVolume cfg).

(** The order ids of the cancellations in a record of calls. *)
Definition cancelled_ids (calls : list Mock.Call) : list string :=
  List.concat
    (List.map (fun c => match c with
                        | Mock.CallCancel r => [ExchangeCancelRequest.OrderID r]
                        | _ => []
                        end)
       calls).

(** The DCA orders that finalization asks the exchange to cancel. *)
Definition new_ids (dcaOrders : list Order.t) : list string :=
  List.map Order.BybitID
    (List.filter (fun o => String.eqb (Order.Status o) OrderStatusNew) dcaOrders).

(** The bytes that need no escaping in a query, with the two that
    escaping introduces. *)
Definition query_safe (c : ascii) : bool :=
  (Chars.is_lower c || Chars.is_upper c || Chars.is_digit c
   || Chars.eqb c "-" || Chars.eqb c "_" || Chars.eqb c "." || Chars.eqb c "~"
   || Chars.eqb c "+" || Chars.eqb c "%")%bool.

Definition lower_hex (c : ascii) : bool :=
  (Chars.is_digit c || Chars.between 97 102 c)%bool.

(** The entries of a decoded object that [structToURLValues] keeps, as
    query parameters. *)
Definition kept_entry `{Bybit.Encoding} (kv : string * Bybit.JSONValue)
  : list (string * list string) :=
  match snd kv with
  | Bybit.JNull => []
  | Bybit.JString s => if String.eqb s "" then [] else [(fst kv, [s])]
  | Bybit.JNumber f => [(fst kv, [Bybit.FormatFloat_f f])]
  | Bybit.JBool b => [(fst kv, [if b then "true" else "false"])]
  | Bybit.JOther r => [(fst kv, [r])]
  end.

(** The loop of [structToURLValues] over the entries of the decoded
    object, in the order in which the map hands them out. *)
Definition values_of `{Bybit.Encoding} (m : list (string * Bybit.JSONValue)) : Url.Values :=
  List.fold_left
    (fun values kv =>
       match snd kv with
       | Bybit.JNull => values
       | Bybit.JString s =>
           if String.eqb s "" then values else Url.Set_ (fst kv) s values
       | Bybit.JNumber f => Url.Set_ (fst kv) (Bybit.FormatFloat_f f) values
       | Bybit.JBool b => Url.Set_ (fst kv) (if b then "true" else "false") values
       | Bybit.JOther r => Url.Set_ (fst kv) r values
       end)
    m [].

End Notions.

(* ===================================================================== *)
(** ** The registry over the calls of the service *)
(* ===================================================================== *)

(** Every trade is stored under its own id. *)
Definition keyed_by_id (s : TradeService) : Prop :=
  forall k t, trades s !! k = Some t -> Trade.ID t = k.

(** Every entry of the reverse index names a registered trade. *)
Definition index_names_trades (s : TradeService) : Prop :=
  forall o id, orderIndex s !! o = Some id -> is_Some (trades s !! id).

Section Registry.
Context {X : Exchange}.

(** One call of a method of the service that writes to the registry. *)
Inductive step : TradeService -> TradeService -> Prop :=
| step_InitializeTrade s config w :
    step s (snd (fst (InitializeTrade s config w)))
| step_ProcessOrderExecution s tradeID orderID w :
    step s (snd (fst (ProcessOrderExecution s tradeID orderID w)))
| step_CloseTrade s tradeID reason w :
    step s (snd (fst (CloseTrade s tradeID reason w))).

(** The registries that calls can lead to from [NewTradeManager]. *)
Inductive reachable : TradeService -> Prop :=
| reachable_new : reachable NewTradeManager
| reachable_step s s' : reachable s -> step s s' -> reachable s'.

End Registry.

(* ===================================================================== *)
(** ** The order controller *)
(* ===================================================================== *)

(** What a handler of the order controller writes: an error, a message
    (200), an order with its status code, or the answer of a price
    computation (200) with the fields of the request and the price. *)
Inductive OrderReply :=
| OrderReplyError (status : Z) (message : string)
| OrderReplyMessage (message : string)
| OrderReplyOrder (status : Z) (order : Order.t)
| OrderReplyPrice (price : string) (percent : F64.float64) (side : OrderSide)
    (computed : string).

Definition order_reply_status (r : OrderReply) : Z :=
  match r with
  | OrderReplyError status _ => status
  | OrderReplyMessage _ => 200
  | OrderReplyOrder status _ => status
  | OrderReplyPrice _ _ _ _ => 200
  end.

(** The body of the two price computations. *)
Record ComputeRequest := mkComputeRequest {
  cr_Price : string;
  cr_Percent : F64.float64;
  cr_Side : OrderSide
}.

Section OrderHandlers.
Context {X : Exchange}.

Definition with_Type (t : OrderType) (req : CreateOrderRequest.t) : CreateOrderRequest.t :=
  CreateOrderRequest.mk (CreateOrderRequest.Symbol req) (CreateOrderRequest.Side req) t
    (CreateOrderRequest.Quantity req) (CreateOrderRequest.Price req).

Definition Handler_ExecuteMarketOrder (bound : result CreateOrderRequest.t) : M OrderReply :=
  match bound with
  | Err _ => ret (OrderReplyError 400 "Invalid JSON")
  | Ok req =>
      let req := with_Type OrderTypeMarket req in
      if (String.eqb (CreateOrderRequest.Symbol req) ""
          || String.eqb (CreateOrderRequest.Quantity req) "")%bool
      then ret (OrderReplyError 400 "Symbol and quantity are required")
      else
        let* r := ExecuteMarketOrder req in
        match r with
        | Err _ => ret (OrderReplyError 500 "Failed to execute market order")
        | Ok order => ret (OrderReplyOrder 201 order)
        end
  end.




End OrderHandlers.

Definition Handler_ComputeTakeProfit (bound : result ComputeRequest) : OrderReply :=
  match bound with
  | Err _ => OrderReplyError 400 "Invalid JSON"
  | Ok req =>
      if (String.eqb (cr_Price req) "" || F64.leb (cr_Percent req) F64.zero
          || String.eqb (cr_Side req) "")%bool
      then OrderReplyError 400 "All fields are required"
      else
        match ComputeTakeProfitPrice (cr_Price req) (cr_Percent req) (cr_Side req) with
        | Err _ => OrderReplyError 500 "Failed to compute take profit price"
        | Ok tpPrice => OrderReplyPrice (cr_Price req) (cr_Percent req) (cr_Side req) tpPrice
        end
  end.

Definition Handler_ComputeDCAPrice (bound : result ComputeRequest) : OrderReply :=
  match bound with
  | Err _ => OrderReplyError 400 "Invalid JSON"
  | Ok req =>
      if (String.eqb (cr_Price req) "" || F64.leb (cr_Percent req) F64.zero
          || String.eqb (cr_Side req) "")%bool
      then OrderReplyError 400 "All fields are required"
      else
        match ComputeDCAPrice (cr_Price req) (cr_Percent req) (cr_Side req) with
        | Err _ => OrderReplyError 500 "Failed to compute DCA price"
        | Ok dcaPrice => OrderReplyPrice (cr_Price req) (cr_Percent req) (cr_Side req) dcaPrice
        end
  end.

(* ===================================================================== *)
(** ** The environment of the configuration *)
(* ===================================================================== *)

Module Config.

Record BaseConfig := mkBaseConfig {
  Version : string;
  Environment : string;
  ServiceID : string;
  LogLevel : string;
  LogFormat : string
}.

Section Environment.
(** [strings.ToLower], which this development does not look into. *)
Variable ToLower : string -> string.

Definition IsLocal (c : BaseConfig) : bool := String.eqb (ToLower (Environment c)) "local".

Definition IsProduction (c : BaseConfig) : bool :=
  let env := ToLower (Environment c) in
  (String.eqb env "production" || String.eqb env "prod")%bool.

Definition IsDevelopment (c : BaseConfig) : bool :=
  let env := ToLower (Environment c) in
  (String.eqb env "development" || String.eqb env "dev" || String.eqb env "local")%bool.

End Environment.

End Config.

(* ===================================================================== *)
(** ** The router *)
(* ===================================================================== *)

Module Router.

(** The handlers that the routes name; [Health] is the closure of
    [setupRoutes]. *)
Inductive Target :=
| Health
| OrderExecuteMarketOrder | OrderExecuteLimitOrder | OrderTerminateOrder
| OrderFetchOrderStatus | OrderComputeTakeProfit | OrderComputeDCAPrice
| TradeInitializeTrade | TradeGetAllTrades | TradeProcessOrderExecution
| TradeCloseTrade | TradeGetTrade | TradeWebhookOrderUpdate.

(** [strings.Contains(s, substr)]. *)
Fixpoint Contains (s substr : string) : bool :=
  (String.prefix substr s
   || match s with
      | EmptyString => false
      | String _ t => Contains t substr
      end)%bool.

(** [strings.Count(s, substr)] for a [substr] that is not empty:
    occurrences that do not overlap, from the left; [skip] bytes of an
    occurrence just counted are still to pass. *)
Fixpoint Count_from (skip : nat) (s substr : string) : nat :=
  match s with
  | EmptyString => O
  | String _ t =>
      match skip with
      | S k => Count_from k t substr
      | O =>
          if String.prefix substr s
          then S (Count_from (String.length substr - 1) t substr)
          else Count_from O t substr
      end
  end.

Definition Count (s substr : string) : nat := Count_from O s substr.

Definition group : string := "([^/]+)".

(** The parameter names of [patternToRegex]; ["param" + string(rune('0' + i))]
    is one byte as long as [i] is below 80. *)
Definition param_names (pattern : string) : list string :=
  let groupCount := Count pattern group in
  if (Contains pattern "/api/orders/" && Nat.eqb groupCount 2)%bool
  then ["symbol"; "orderId"]
  else if (Contains pattern "/api/trades/" && Nat.eqb groupCount 1)%bool
  then ["tradeId"]
  else if (Contains pattern "/api/trades/" && Nat.eqb groupCount 2)%bool
  then ["tradeId"; "action"]
  else List.map (fun i => "param" ++ String (ascii_of_nat (48 + i)) "")
         (List.seq 0 groupCount).

(** A compiled pattern, for the patterns that [setupRoutes] writes: text
    without operators of regexp, and the group [([^/]+)]. *)
Inductive Token :=
| Char (c : ascii)
| Group.

Fixpoint compile_from (skip : nat) (pattern : string) : list Token :=
  match pattern with
  | EmptyString => []
  | String c t =>
      match skip with
      | S k => compile_from k t
      | O =>
          if String.prefix group pattern
          then Group :: compile_from (String.length group - 1) t
          else Char c :: compile_from O t
      end
  end.

(** [regexp.MustCompile("^" + pattern + "$")]. *)
Definition compile (pattern : string) : list Token := compile_from O pattern.

(** The bytes that a group takes, the longest run first; [taken] is what
    it holds so far and [rest] what follows the group. *)
Fixpoint take_group (rest : string -> option (list string)) (taken path : string)
  : option (list string) :=
  let stop :=
    if String.eqb taken "" then None else option_map (cons taken) (rest path) in
  match path with
  | EmptyString => stop
  | String c t =>
      if Ascii.eqb c "/" then stop
      else
        match take_group rest (taken ++ String c "") t with
        | Some groups => Some groups
        | None => stop
        end
  end.

(** [FindStringSubmatch] without its first entry: the texts of the
    groups when the whole path matches, [None] (nil) when it does not. *)
Fixpoint submatches (pattern : list Token) (path : string) : option (list string) :=
  match pattern with
  | [] => if String.eqb path "" then Some [] else None
  | Char c :: pattern' =>
      match path with
      | EmptyString => None
      | String c' t => if Ascii.eqb c c' then submatches pattern' t else None
      end
  | Group :: pattern' => take_group (submatches pattern') "" path
  end.

Record route := mkRoute {
  method : string;
  pattern : list Token;
  handler : Target;
  params : list string
}.

Definition addRoute (method pattern : string) (handler : Target) (routes : list route)
  : list route :=
  (routes ++ [mkRoute method (compile pattern) handler (param_names pattern)])%list.

Definition setupRoutes : list route :=
  let r := addRoute "GET" "/health" Health [] in
  let r := addRoute "POST" "/api/orders/market" OrderExecuteMarketOrder r in
  let r := addRoute "POST" "/api/orders/limit" OrderExecuteLimitOrder r in
  let r := addRoute "DELETE" "/api/orders/([^/]+)/([^/]+)" OrderTerminateOrder r in
  let r := addRoute "GET" "/api/orders/([^/]+)/([^/]+)" OrderFetchOrderStatus r in
  let r := addRoute "POST" "/api/orders/calculate-tp" OrderComputeTakeProfit r in
  let r := addRoute "POST" "/api/orders/calculate-dca" OrderComputeDCAPrice r in
  let r := addRoute "POST" "/api/trades" TradeInitializeTrade r in
  let r := addRoute "GET" "/api/trades" TradeGetAllTrades r in
  let r := addRoute "POST" "/api/trades/([^/]+)/order-filled" TradeProcessOrderExecution r in
  let r := addRoute "POST" "/api/trades/([^/]+)/close" TradeCloseTrade r in
  let r := addRoute "GET" "/api/trades/([^/]+)" TradeGetTrade r in
  addRoute "POST" "/api/webhook/order-update" TradeWebhookOrderUpdate r.

(** What [Handler] does with a request: 204 for OPTIONS, the handler of
    the first route that matches with the user values it sets, or 404. *)
Inductive Outcome :=
| NoContent
| Routed (handler : Target) (values : list (string * string))
| NotFound.

Fixpoint dispatch (routes : list route) (method path : string) : Outcome :=
  match routes with
  | [] => NotFound
  | route :: rest =>
      if String.eqb (Router.method route) method then
        match submatches (pattern route) path with
        | Some matches => Routed (handler route) (List.combine (params route) matches)
        | None => dispatch rest method path
        end
      else dispatch rest method path
  end.

Definition Handler (method path : string) : Outcome :=
  if String.eqb method "OPTIONS" then NoContent
  else dispatch setupRoutes method path.

(** A text that a group can hold: not empty, without a slash. *)
Definition segment (s : string) : Prop :=
  s <> "" /\ ~ In "/"%char (list_ascii_of_string s).

End Router.

(* ===================================================================== *)
(** ** Sample data *)
(* ===================================================================== *)

Module Samples.

(** [strconv.FormatFloat(v, 'f', -1, 64)] on whole numbers: the decimal
    digits of the value. *)
Definition FormatFloat_whole (f : F64.float64) : string :=
  match f with
  | S754_zero s => if s then "-0" else "0"
  | S754_infinity s => if s then "-Inf" else "+Inf"
  | S754_nan => "NaN"
  | S754_finite s m e =>
      (if s then "-" else "")
      ++ F64.dec (if (0 <=? e)%Z then Zpos m * 2 ^ e else Zpos m / 2 ^ (- e))
  end.

Definition quote : string := String (ascii_of_nat 34) "".

Definition text_field (key value : string) : string :=
  quote ++ key ++ quote ++ ":" ++ quote ++ value ++ quote.

Definition optional_field (key value : string) : string :=
  if String.eqb value "" then "" else "," ++ text_field key value.

Definition timestamp_field (t : Z) : string :=
  "," ++ quote ++ "timestamp" ++ quote ++ ":" ++ Bybit.FormatInt t.

(** [json.Marshal] of the two payloads, for texts that JSON writes as
    they are. *)
Definition marshal (p : Bybit.Payload) : result string :=
  match p with
  | Bybit.PayloadOrder r =>
      Ok ("{" ++ text_field "symbol" (ExchangeOrderRequest.Symbol r)
          ++ "," ++ text_field "side" (ExchangeOrderRequest.Side r)
          ++ "," ++ text_field "orderType" (ExchangeOrderRequest.OrderType r)
          ++ optional_field "qty" (ExchangeOrderRequest.Qty r)
          ++ optional_field "price" (ExchangeOrderRequest.Price r)
          ++ optional_field "timeInForce" (ExchangeOrderRequest.TimeInForce r)
          ++ timestamp_field (ExchangeOrderRequest.Timestamp r) ++ "}")
  | Bybit.PayloadCancel r =>
      Ok ("{" ++ text_field "symbol" (ExchangeCancelRequest.Symbol r)
          ++ optional_field "orderId" (ExchangeCancelRequest.OrderID r)
          ++ timestamp_field (ExchangeCancelRequest.Timestamp r) ++ "}")
  end.

(** An encoding to run the request builders on; decoding, which neither
    POST needs, is left out. *)
Definition encoding : Bybit.Encoding :=
  {| Bybit.json_Marshal := marshal;
     Bybit.json_Unmarshal_object := fun _ => Err (errorf "decoding is left out");
     Bybit.FormatFloat_f := FormatFloat_whole |}.

(** The decoded object of a cancellation, in two orders of its entries. *)
Definition cancel_object : list (string * Bybit.JSONValue) :=
  [("symbol", Bybit.JString "SOLUSDT"); ("orderId", Bybit.JString "ord-5");
   ("timestamp", Bybit.JNumber (F64.of_int 1700000000000))].

Definition cancel_object_reordered : list (string * Bybit.JSONValue) :=
  [("timestamp", Bybit.JNumber (F64.of_int 1700000000000));
   ("symbol", Bybit.JString "SOLUSDT"); ("orderId", Bybit.JString "ord-5")].

(** [uuid.Parse] on canonical texts, which are their own value here. *)
Definition uuid_Parse (s : string) : result UUID := Ok s.

(** A world whose exchange refuses the first order it receives, and one
    whose exchange knows no order. *)
Definition refusing_world : Mock.world := Mock.start "100.00000000" [0%nat] [].
Definition forgetful_world : Mock.world := Mock.start "100.00000000" [] [].

Definition market_request : CreateOrderRequest.t :=
  CreateOrderRequest.mk "SOLUSDT" OrderSideBuy OrderTypeLimit "100" "".

Definition limit_request : CreateOrderRequest.t :=
  CreateOrderRequest.mk "SOLUSDT" OrderSideBuy OrderTypeLimit "50" "99".

End Samples.

(* ===================================================================== *)
(** ** Proofs *)
(* ===================================================================== *)

(** Unfolding of the sequencing of computations. *)
Ltac run := unfold bind, ret; cbn [fst snd].

(** Facts of the scenarios, by evaluation. *)
Ltac evaluated := vm_compute; reflexivity.

(** *** The library models against known values *)

Example ParseFloat_values :
  F64.ParseFloat "0.1" = (S754_finite false 7205759403792794 (-56), None)
  /\ F64.ParseFloat "1e23" = (S754_finite false 5960464477539062 24, None)
  /\ F64.ParseFloat "100.00000000" = (F64.of_int 100, None)
  /\ F64.ParseFloat "-0" = (S754_zero true, None)
  /\ F64.ParseFloat "0x1.8p1" = (F64.of_int 3, None)
  /\ F64.ParseFloat "1_000" = (F64.of_int 1000, None)
  /\ F64.ParseFloat "+Infinity" = (S754_infinity false, None)
  /\ F64.ParseFloat "nan" = (S754_nan, None)
  /\ F64.ParseFloat "1e-400" = (S754_zero false, None)
  /\ F64.ParseFloat "-1e400" = (S754_infinity true, Some F64.ErrRange)
  /\ F64.ParseFloat "" = (F64.zero, Some F64.ErrSyntax)
  /\ F64.ParseFloat "abc" = (F64.zero, Some F64.ErrSyntax)
  /\ F64.ParseFloat "1e" = (F64.zero, Some F64.ErrSyntax)
  /\ F64.ParseFloat "_1" = (F64.zero, Some F64.ErrSyntax)
  /\ F64.ParseFloat "1 " = (F64.zero, Some F64.ErrSyntax).
Proof. repeat (split; [evaluated|]). evaluated. Qed.

Example Sprintf8_values :
  F64.Sprintf8 (F64.div (F64.of_int 299) (F64.of_int 3)) = "99.66666667"
  /\ F64.Sprintf8 (F64.div (F64.of_int 1) (F64.of_int 8)) = "0.12500000"
  /\ F64.Sprintf8 (parse_unchecked "2.5e-9") = "0.00000000"
  /\ F64.Sprintf8 (parse_unchecked "-1e-10") = "-0.00000000"
  /\ F64.Sprintf8 (parse_unchecked "123456789012345678") = "123456789012345680.00000000"
  /\ F64.Sprintf8 (F64.div F64.one F64.zero) = "+Inf"
  /\ F64.Sprintf8 (F64.div F64.zero F64.zero) = "NaN".
Proof. repeat (split; [evaluated|]). evaluated. Qed.

Example sha256_values :
  Sha256.hex (Sha256.sum256 (Sha256.bytes_of_string "abc")) =
    "ba7816bf8f01cfea414140de5dae2223b00361a396177a9cb410ff61f20015ad"
  /\ Sha256.hex (Sha256.hmac (Sha256.bytes_of_string "Jefe")
                   (Sha256.bytes_of_string "what do ya want for nothing?")) =
     "5bdcc146bf60754e6a042426089575c75a003f089d2739839dec58b964ec3843".
Proof. split; evaluated. Qed.

Example Encode_values :
  Url.QueryEscape "a b&c/~d" = "a+b%26c%2F~d"
  /\ Url.Encode (Url.Set_ "b" "2" (Url.Set_ "a" "1" (Url.Set_ "b" "0" []))) = "a=1&b=2".
Proof. split; evaluated. Qed.

(** *** Parsing and formatting *)

Lemma parse_checked_unchecked (s : string) (f : F64.float64) :
  parse_checked s = Ok f -> parse_unchecked s = f.
Proof.
  unfold parse_checked, parse_unchecked.
  destruct (F64.ParseFloat s) as [g [k|]]; simpl; congruence.
Qed.

Lemma parse_checked_is_Err (s : string) :
  is_Err (parse_checked s) = false -> parse_checked s = Ok (parse_unchecked s).
Proof.
  unfold parse_checked, parse_unchecked.
  destruct (F64.ParseFloat s) as [g [k|]]; simpl; congruence.
Qed.

Lemma append_nonempty (a b : string) : b <> "" -> a ++ b <> "".
Proof.
  intros Hb Hab. destruct a; simpl in Hab; [contradiction | discriminate].
Qed.

Lemma Sprintf8_nonempty (x : F64.float64) : F64.Sprintf8 x <> "".
Proof.
  destruct x as [s | s | | s m e]; simpl.
  - apply append_nonempty. discriminate.
  - destruct s; discriminate.
  - discriminate.
  - apply append_nonempty, append_nonempty. discriminate.
Qed.

(** The loop of [calculateNewAveragePrice] adds up the legs that count. *)
Lemma fold_accumulate_dca (l : list Order.t) (v c : F64.float64) :
  List.fold_left accumulate_dca l (v, c) =
  (List.fold_left (fun acc leg => F64.add acc (fst leg)) (Spec.parsed_legs l) v,
   List.fold_left (fun acc leg => F64.add acc (F64.mul (fst leg) (snd leg)))
     (Spec.parsed_legs l) c).
Proof.
  revert v c. induction l as [|o l IH]; intros v c; [reflexivity|].
  cbn [List.fold_left]. unfold Spec.parsed_legs. cbn [List.filter].
  unfold accumulate_dca at 2.
  destruct (String.eqb (Order.Status o) OrderStatusFilled); cbn [andb fst snd].
  - destruct (parse_checked (Order.ExecutedQty o)) as [q|e] eqn:Hq; cbn [is_Err negb andb].
    + destruct (parse_checked (Order.Price o)) as [p|e] eqn:Hp; cbn [is_Err negb andb].
      * cbn [List.map List.fold_left fst snd].
        rewrite (parse_checked_unchecked _ _ Hq), (parse_checked_unchecked _ _ Hp).
        apply IH.
      * apply IH.
    + apply IH.
  - apply IH.
Qed.

Lemma calculateNewAveragePrice_unfold (trade : Trade.t) (q p : F64.float64) :
  parse_checked (Order.Quantity (Trade.EntryOrder trade)) = Ok q ->
  parse_checked (Order.Price (Trade.EntryOrder trade)) = Ok p ->
  calculateNewAveragePrice trade =
  let legs := Spec.parsed_legs (Trade.DCAOrders trade) in
  if F64.eqb (Spec.total_volume q legs) F64.zero then Err (errorf "total volume is zero")
  else Ok (Spec.weighted_average q p legs, F64.Sprintf8 (Spec.total_volume q legs)).
Proof.
  intros Hq Hp. unfold calculateNewAveragePrice. rewrite Hq, Hp.
  rewrite fold_accumulate_dca. cbn [fst snd]. reflexivity.
Qed.

Lemma parsed_legs_app (l1 l2 : list Order.t) :
  Spec.parsed_legs (l1 ++ l2)%list = (Spec.parsed_legs l1 ++ Spec.parsed_legs l2)%list.
Proof.
  unfold Spec.parsed_legs. rewrite List.filter_app, List.map_app. reflexivity.
Qed.

Lemma parsed_legs_malformed (o : Order.t) (l : list Order.t) :
  is_Err (parse_checked (Order.ExecutedQty o)) = true
  \/ is_Err (parse_checked (Order.Price o)) = true ->
  Spec.parsed_legs (o :: l) = Spec.parsed_legs l.
Proof.
  intros H. unfold Spec.parsed_legs. cbn [List.filter].
  destruct H as [H|H]; rewrite H; cbn [negb andb];
    rewrite ?andb_false_r; reflexivity.
Qed.

Lemma calculateNewAveragePrice_Ok (trade : Trade.t) (avg : F64.float64) (vol : string) :
  calculateNewAveragePrice trade = Ok (avg, vol) ->
  let qty := parse_unchecked (Order.Quantity (Trade.EntryOrder trade)) in
  let price := parse_unchecked (Order.Price (Trade.EntryOrder trade)) in
  let legs := Spec.parsed_legs (Trade.DCAOrders trade) in
  avg = Spec.weighted_average qty price legs
  /\ vol = F64.Sprintf8 (Spec.total_volume qty legs).
Proof.
  intros Hc.
  destruct (parse_checked (Order.Quantity (Trade.EntryOrder trade))) as [q|e] eqn:Hq;
    [|unfold calculateNewAveragePrice in Hc; rewrite Hq in Hc; discriminate].
  destruct (parse_checked (Order.Price (Trade.EntryOrder trade))) as [p|e] eqn:Hp;
    [|unfold calculateNewAveragePrice in Hc; rewrite Hq, Hp in Hc; discriminate].
  rewrite (calculateNewAveragePrice_unfold trade q p Hq Hp) in Hc. cbv zeta in Hc |- *.
  rewrite (parse_checked_unchecked _ _ Hq), (parse_checked_unchecked _ _ Hp).
  destruct (F64.eqb _ _); [discriminate|]. injection Hc as <- <-. auto.
Qed.

(** C10. [calculateNewAveragePrice] returns an error exactly when the
    entry order's quantity or price does not parse, or the accumulated
    total volume is zero; otherwise it returns the quotient of total cost
    by total volume, with the volume to 8 digits. A DCA order whose
    executed quantity or price does not parse adds nothing: leaving it out
    of the slice changes no result. *)
Theorem calculateNewAveragePrice_outcome (trade : Trade.t) :
  let entry := Trade.EntryOrder trade in
  let qty := parse_unchecked (Order.Quantity entry) in
  let price := parse_unchecked (Order.Price entry) in
  let legs := Spec.parsed_legs (Trade.DCAOrders trade) in
  (is_Err (calculateNewAveragePrice trade) = true <->
     is_Err (parse_checked (Order.Quantity entry)) = true
     \/ is_Err (parse_checked (Order.Price entry)) = true
     \/ F64.eqb (Spec.total_volume qty legs) F64.zero = true)
  /\ (is_Err (calculateNewAveragePrice trade) = false <->
        calculateNewAveragePrice trade =
        Ok (F64.div (Spec.total_cost qty price legs) (Spec.total_volume qty legs),
            F64.Sprintf8 (Spec.total_volume qty legs)))
  /\ (forall l1 o l2,
        Trade.DCAOrders trade = (l1 ++ o :: l2)%list ->
        is_Err (parse_checked (Order.ExecutedQty o)) = true
        \/ is_Err (parse_checked (Order.Price o)) = true ->
        calculateNewAveragePrice trade =
        calculateNewAveragePrice (Trade.with_DCAOrders (l1 ++ l2)%list trade)).
Proof.
  intros entry qty price legs.
  destruct (parse_checked (Order.Quantity entry)) as [q|eq] eqn:Hq.
  - destruct (parse_checked (Order.Price entry)) as [p|ep] eqn:Hp.
    + pose proof (calculateNewAveragePrice_unfold trade q p Hq Hp) as Hc.
      pose proof (parse_checked_unchecked _ _ Hq) as Hq'.
      pose proof (parse_checked_unchecked _ _ Hp) as Hp'.
      fold qty in Hq'. fold price in Hp'. subst q p.
      cbv zeta in Hc. fold legs in Hc.
      repeat split.
      * rewrite Hc. destruct (F64.eqb (Spec.total_volume qty legs) F64.zero); simpl; auto.
      * rewrite Hc. intros [H|[H|H]]; try discriminate H. rewrite H. reflexivity.
      * rewrite Hc. destruct (F64.eqb (Spec.total_volume qty legs) F64.zero);
          simpl; [discriminate | reflexivity].
      * intros H. rewrite H. reflexivity.
      * intros l1 o l2 Hl Hbad.
        rewrite Hc.
        rewrite (calculateNewAveragePrice_unfold (Trade.with_DCAOrders (l1 ++ l2)%list trade)
                   qty price Hq Hp).
        cbv zeta. cbn [Trade.DCAOrders Trade.with_DCAOrders].
        subst legs. rewrite Hl, !parsed_legs_app, (parsed_legs_malformed o l2 Hbad).
        reflexivity.
    + assert (Hc : forall t, Trade.EntryOrder t = entry ->
                             calculateNewAveragePrice t = Err (wrap "invalid entry price" ep)).
      { intros t Ht. unfold calculateNewAveragePrice. rewrite Ht, Hq, Hp. reflexivity. }
      repeat split.
      * intros _. right. left. reflexivity.
      * intros _. rewrite (Hc trade eq_refl). reflexivity.
      * rewrite (Hc trade eq_refl). discriminate.
      * rewrite (Hc trade eq_refl). discriminate.
      * intros l1 o l2 _ _. rewrite !Hc; reflexivity.
  - assert (Hc : forall t, Trade.EntryOrder t = entry ->
                           calculateNewAveragePrice t = Err (wrap "invalid entry volume" eq)).
    { intros t Ht. unfold calculateNewAveragePrice. rewrite Ht, Hq. reflexivity. }
    repeat split.
    + intros _. left. reflexivity.
    + intros _. rewrite (Hc trade eq_refl). reflexivity.
    + rewrite (Hc trade eq_refl). discriminate.
    + rewrite (Hc trade eq_refl). discriminate.
    + intros l1 o l2 _ _. rewrite !Hc; reflexivity.
Qed.

Section Proofs.
Context {X : Exchange}.

Lemma updateTakeProfitOrder_unfold (trade : Trade.t) (w : World) :
  updateTakeProfitOrder trade w =
  let w1 := snd (cancel_take_profit trade w) in
  match calculateNewAveragePrice trade with
  | Err e => (Some (wrap "failed to calculate new average price" e), trade, w1)
  | Ok (avg, vol) =>
      let r := ExecuteLimitOrder (replacement_request trade avg vol) w1 in
      match fst r with
      | Err e => (Some (wrap "failed to create new take profit order" e), trade, snd r)
      | Ok tpOrder =>
          (None,
           Trade.with_AveragePrice (F64.Sprintf8 avg)
             (Trade.with_TakeProfitOrder (Some tpOrder) trade),
           snd r)
      end
  end.
Proof.
  unfold updateTakeProfitOrder. run.
  destruct (calculateNewAveragePrice trade) as [[avg vol]|e]; [|reflexivity].
  run. destruct (fst (ExecuteLimitOrder _ _)); reflexivity.
Qed.

Lemma handleDCAExecution_unfold (trade : Trade.t) (i : nat) (o : Order.t) (w : World) :
  Trade.DCAOrders trade !! i = Some o ->
  handleDCAExecution trade i w =
  let r := FetchOrderStatus (Order.Symbol o) (Order.BybitID o) w in
  match fst r with
  | Err e => (Some (wrap "failed to get updated DCA order status" e), trade, snd r)
  | Ok updated =>
      let t1 := Trade.with_DCAOrders (<[i := updated]> (Trade.DCAOrders trade)) trade in
      let r2 := updateTakeProfitOrder t1 (snd r) in
      let r3 := time_Now (snd r2) in
      (None, Trade.with_UpdatedAt (fst r3) (snd (fst r2)), snd r3)
  end.
Proof.
  intros Ho. unfold handleDCAExecution. rewrite Ho. run.
  destruct (fst (FetchOrderStatus _ _ _)); reflexivity.
Qed.

Lemma updateTakeProfitOrder_identity (trade : Trade.t) (w : World) :
  same_identity (snd (fst (updateTakeProfitOrder trade w))) trade
  /\ Trade.DCAOrders (snd (fst (updateTakeProfitOrder trade w))) = Trade.DCAOrders trade
  /\ Trade.UpdatedAt (snd (fst (updateTakeProfitOrder trade w))) = Trade.UpdatedAt trade.
Proof.
  rewrite updateTakeProfitOrder_unfold. cbv zeta.
  destruct (calculateNewAveragePrice trade) as [[avg vol]|e];
    [destruct (fst (ExecuteLimitOrder _ _))|]; unfold same_identity; cbn; auto 10.
Qed.

Lemma handleDCAExecution_identity (trade : Trade.t) (i : nat) (w : World) :
  same_identity (snd (fst (handleDCAExecution trade i w))) trade.
Proof.
  destruct (Trade.DCAOrders trade !! i) as [o|] eqn:Ho.
  - rewrite (handleDCAExecution_unfold trade i o w Ho). cbv zeta.
    destruct (fst (FetchOrderStatus _ _ _)) as [updated|e].
    + cbn [fst snd].
      destruct (updateTakeProfitOrder_identity
                  (Trade.with_DCAOrders (<[i:=updated]> (Trade.DCAOrders trade)) trade)
                  (snd (FetchOrderStatus (Order.Symbol o) (Order.BybitID o) w)))
        as [H _].
      unfold same_identity in *. cbn in *. exact H.
    + unfold same_identity; cbn; auto 10.
  - unfold handleDCAExecution. rewrite Ho. unfold same_identity; cbn; auto 10.
Qed.

Lemma find_dca_lookup (orderID : string) (l : list Order.t) (k i : nat) :
  find_dca orderID l k = Some i ->
  (k <= i)%nat /\ exists o, l !! (i - k)%nat = Some o /\ Order.BybitID o = orderID.
Proof.
  revert k. induction l as [|o l IH]; intros k H; [discriminate|].
  cbn [find_dca] in H.
  destruct (String.eqb (Order.BybitID o) orderID) eqn:E.
  - injection H as <-. split; [lia|]. exists o. rewrite Nat.sub_diag.
    split; [reflexivity | apply String.eqb_eq, E].
  - destruct (IH _ H) as [Hk [o' [Ho' Hid]]]. split; [lia|].
    exists o'. split; [|exact Hid].
    replace (i - k)%nat with (S (i - S k)) by lia. exact Ho'.
Qed.

Lemma cancel_new_orders_unit (l : list Order.t) (w : World) :
  fst (cancel_new_orders l w) = tt.
Proof. destruct (fst (cancel_new_orders l w)). reflexivity. Qed.

Lemma finalizeTrade_registered (s : TradeService) (tradeID : UUID) (trade : Trade.t)
    (status : TradeStatus) (w : World) :
  trades s !! tradeID = Some trade ->
  fst (fst (finalizeTrade s tradeID status w)) = None
  /\ trades (snd (fst (finalizeTrade s tradeID status w))) !! tradeID =
     Some (Trade.with_UpdatedAt (fst (time_Now w)) (Trade.with_Status status trade))
  /\ orderIndex (snd (fst (finalizeTrade s tradeID status w))) =
     unindexOrders trade (orderIndex s).
Proof.
  intros H. unfold finalizeTrade. rewrite H. run.
  split; [reflexivity|]. split; [apply lookup_insert_eq | reflexivity].
Qed.

Lemma ProcessOrderExecution_dca (s : TradeService) (tradeID : UUID) (trade : Trade.t)
    (orderID : string) (i : nat) (w : World) :
  trades s !! tradeID = Some trade ->
  is_take_profit trade orderID = false ->
  find_dca orderID (Trade.DCAOrders trade) 0 = Some i ->
  ProcessOrderExecution s tradeID orderID w =
  let r := handleDCAExecution trade i w in
  (fst (fst r), mkTradeService (<[tradeID := snd (fst r)]> (trades s)) (orderIndex s), snd r).
Proof.
  intros Ht Htp Hi. unfold ProcessOrderExecution. rewrite Ht, Htp, Hi. reflexivity.
Qed.

(** C2. Whatever the status of a registered trade, terminal or not:
    [CloseTrade] succeeds and rewrites status (CANCELLED) and [UpdatedAt],
    nothing else; a fill of the take profit does the same with COMPLETED;
    and the processing of any other order id keeps the identity of the
    trade (id, symbol, config, entry order, status, total invested, current
    price, creation time). *)
Theorem finalization_ignores_status (s : TradeService) (tradeID : UUID) (trade : Trade.t)
    (orderID reason : string) (w : World) :
  trades s !! tradeID = Some trade ->
  (fst (fst (CloseTrade s tradeID reason w)) = None
   /\ trades (snd (fst (CloseTrade s tradeID reason w))) !! tradeID =
      Some (Trade.with_UpdatedAt (fst (time_Now w))
              (Trade.with_Status TradeStatusCancelled trade)))
  /\ (is_take_profit trade orderID = true ->
      fst (fst (ProcessOrderExecution s tradeID orderID w)) = None
      /\ trades (snd (fst (ProcessOrderExecution s tradeID orderID w))) !! tradeID =
         Some (Trade.with_UpdatedAt (fst (time_Now w))
                 (Trade.with_Status TradeStatusCompleted trade)))
  /\ (is_take_profit trade orderID = false ->
      exists trade',
        trades (snd (fst (ProcessOrderExecution s tradeID orderID w))) !! tradeID = Some trade'
        /\ same_identity trade' trade).
Proof.
  intros Ht. split; [|split].
  - unfold CloseTrade. rewrite Ht.
    destruct (finalizeTrade_registered s tradeID trade TradeStatusCancelled w Ht) as (H1 & H2 & _).
    auto.
  - intros Htp. unfold ProcessOrderExecution. rewrite Ht, Htp.
    destruct (finalizeTrade_registered s tradeID trade TradeStatusCompleted w Ht) as (H1 & H2 & _).
    auto.
  - intros Htp.
    destruct (find_dca orderID (Trade.DCAOrders trade) 0) as [i|] eqn:Hi.
    + rewrite (ProcessOrderExecution_dca s tradeID trade orderID i w Ht Htp Hi).
      cbv zeta. cbn [fst snd trades].
      eexists. split; [apply lookup_insert_eq | apply handleDCAExecution_identity].
    + unfold ProcessOrderExecution. rewrite Ht, Htp, Hi. cbn [ret fst snd].
      exists trade. split; [exact Ht|]. unfold same_identity. auto 10.
Qed.

(** C3. When a DCA fill is handled and the order's state is fetched,
    [ProcessOrderExecution] returns nil, whatever the cancellation of the
    old take profit and the placement of the new one return. The
    replacement is attempted in the world that the cancellation leaves. If
    the placement fails, [updateTakeProfitOrder] returns the wrapped error
    and the registered trade keeps its take profit and average price (only
    the DCA order and [UpdatedAt] are rewritten); if it succeeds, the trade
    gets the new take profit and the new average price. *)
Theorem replacement_failure_is_dropped (s : TradeService) (tradeID : UUID)
    (trade : Trade.t) (orderID : string) (i : nat) (o updated : Order.t) (w : World) :
  trades s !! tradeID = Some trade ->
  is_take_profit trade orderID = false ->
  find_dca orderID (Trade.DCAOrders trade) 0 = Some i ->
  Trade.DCAOrders trade !! i = Some o ->
  fst (FetchOrderStatus (Order.Symbol o) (Order.BybitID o) w) = Ok updated ->
  let t1 := Trade.with_DCAOrders (<[i := updated]> (Trade.DCAOrders trade)) trade in
  let w1 := snd (FetchOrderStatus (Order.Symbol o) (Order.BybitID o) w) in
  let result := ProcessOrderExecution s tradeID orderID w in
  fst (fst result) = None
  /\ forall (avg : F64.float64) (vol : string),
       calculateNewAveragePrice t1 = Ok (avg, vol) ->
       let placed :=
         ExecuteLimitOrder (replacement_request t1 avg vol)
           (snd (cancel_take_profit t1 w1)) in
       match fst placed with
       | Err e =>
           fst (fst (updateTakeProfitOrder t1 w1)) =
             Some (wrap "failed to create new take profit order" e)
           /\ trades (snd (fst result)) !! tradeID =
              Some (Trade.with_UpdatedAt (fst (time_Now (snd placed))) t1)
       | Ok tpOrder =>
           fst (fst (updateTakeProfitOrder t1 w1)) = None
           /\ trades (snd (fst result)) !! tradeID =
              Some (Trade.with_UpdatedAt (fst (time_Now (snd placed)))
                      (Trade.with_AveragePrice (F64.Sprintf8 avg)
                         (Trade.with_TakeProfitOrder (Some tpOrder) t1)))
       end.
Proof.
  intros Ht Htp Hi Ho Hf t1 w1 result.
  assert (Hr : result =
               (None,
                mkTradeService
                  (<[tradeID := Trade.with_UpdatedAt
                                  (fst (time_Now (snd (updateTakeProfitOrder t1 w1))))
                                  (snd (fst (updateTakeProfitOrder t1 w1)))]> (trades s))
                  (orderIndex s),
                snd (time_Now (snd (updateTakeProfitOrder t1 w1))))).
  { unfold result.
    rewrite (ProcessOrderExecution_dca s tradeID trade orderID i w Ht Htp Hi).
    cbv zeta. rewrite (handleDCAExecution_unfold trade i o w Ho). cbv zeta. rewrite Hf.
    reflexivity. }
  split; [rewrite Hr; reflexivity|].
  intros avg vol Hc placed. rewrite Hr. cbn [fst snd trades].
  rewrite lookup_insert_eq, updateTakeProfitOrder_unfold. cbv zeta. rewrite Hc.
  fold placed. destruct (fst placed); split; reflexivity.
Qed.

(** C7. When a DCA fill is handled and the order's state is fetched, the
    fill is reported as processed (nil) and the registered trade has the
    fetched order in place of the old one, whatever becomes of the take
    profit. If the average is computed and the replacement of the take
    profit is placed, the trade's average price is the weighted average, to
    8 digits, over the entry order (quantity parsed from [Quantity]) and
    the DCA orders that are FILLED and whose executed quantity and price
    both parse, and the trade holds the new take profit. If the average
    cannot be computed, or the exchange does not place the replacement, the
    trade keeps the average price and the take profit it had. *)
Theorem average_price_after_replacement (s : TradeService) (tradeID : UUID)
    (trade : Trade.t) (orderID : string) (i : nat) (o updated : Order.t) (w : World) :
  trades s !! tradeID = Some trade ->
  is_take_profit trade orderID = false ->
  find_dca orderID (Trade.DCAOrders trade) 0 = Some i ->
  Trade.DCAOrders trade !! i = Some o ->
  fst (FetchOrderStatus (Order.Symbol o) (Order.BybitID o) w) = Ok updated ->
  let t1 := Trade.with_DCAOrders (<[i := updated]> (Trade.DCAOrders trade)) trade in
  let w1 := snd (FetchOrderStatus (Order.Symbol o) (Order.BybitID o) w) in
  exists trade',
    trades (snd (fst (ProcessOrderExecution s tradeID orderID w))) !! tradeID = Some trade'
    /\ fst (fst (ProcessOrderExecution s tradeID orderID w)) = None
    /\ Trade.DCAOrders trade' = <[i := updated]> (Trade.DCAOrders trade)
    /\ Trade.EntryOrder trade' = Trade.EntryOrder trade
    /\ (fst (fst (updateTakeProfitOrder t1 w1)) = None ->
        Trade.AveragePrice trade' = Spec.average_price_of trade')
    /\ (is_Err (calculateNewAveragePrice t1) = true ->
        Trade.AveragePrice trade' = Trade.AveragePrice trade
        /\ Trade.TakeProfitOrder trade' = Trade.TakeProfitOrder trade)
    /\ (forall avg vol, calculateNewAveragePrice t1 = Ok (avg, vol) ->
        match fst (ExecuteLimitOrder (replacement_request t1 avg vol)
                     (snd (cancel_take_profit t1 w1))) with
        | Err _ =>
            Trade.AveragePrice trade' = Trade.AveragePrice trade
            /\ Trade.TakeProfitOrder trade' = Trade.TakeProfitOrder trade
        | Ok tpOrder =>
            Trade.AveragePrice trade' = Spec.average_price_of trade'
            /\ Trade.TakeProfitOrder trade' = Some tpOrder
        end).
Proof.
  intros Ht Htp Hi Ho Hf t1 w1.
  rewrite (ProcessOrderExecution_dca s tradeID trade orderID i w Ht Htp Hi).
  cbv zeta. cbn [fst snd trades].
  eexists. split; [apply lookup_insert_eq|].
  rewrite (handleDCAExecution_unfold trade i o w Ho). cbv zeta. rewrite Hf.
  cbn [fst snd]. fold t1. fold w1.
  split; [reflexivity|].
  rewrite updateTakeProfitOrder_unfold. cbv zeta.
  destruct (calculateNewAveragePrice t1) as [[avg vol]|e] eqn:Hc.
  - destruct (calculateNewAveragePrice_Ok t1 avg vol Hc) as [Havg _].
    assert (A : forall tp,
              F64.Sprintf8 avg =
              Spec.average_price_of
                (Trade.with_UpdatedAt tp.1
                   (Trade.with_AveragePrice (F64.Sprintf8 avg)
                      (Trade.with_TakeProfitOrder (Some tp.2) t1)))).
    { intros tp. unfold Spec.average_price_of. cbn. rewrite Havg. reflexivity. }
    destruct (fst (ExecuteLimitOrder (replacement_request t1 avg vol)
                     (snd (cancel_take_profit t1 w1)))) as [tp|e] eqn:Hp.
    + cbn [fst snd]. split; [reflexivity|]. split; [reflexivity|].
      split; [intros _; apply (A (_, tp))|]. split; [discriminate|].
      intros avg' vol' E. injection E as <- <-. rewrite Hp.
      split; [apply (A (_, tp)) | reflexivity].
    + cbn [fst snd]. split; [reflexivity|]. split; [reflexivity|].
      split; [discriminate|]. split; [discriminate|].
      intros avg' vol' E. injection E as <- <-. rewrite Hp. split; reflexivity.
  - cbn [fst snd]. split; [reflexivity|]. split; [reflexivity|].
    split; [discriminate|]. split; [intros _; split; reflexivity|].
    intros avg vol E. discriminate E.
Qed.

Lemma setupDCAOrders_loop_requests (n : nat) (i : Z) (p : F64.float64) (v : string)
    (trade : Trade.t) (w : World) :
  setupDCAOrders_loop n i p v trade w =
  place_dca_orders (dca_requests n i (Trade.Config trade) p v) trade w.
Proof.
  revert i p v trade w. induction n as [|n IH]; intros i p v trade w; [reflexivity|].
  cbn [setupDCAOrders_loop dca_requests place_dca_orders]. run.
  destruct (fst (ExecuteLimitOrder _ _)); rewrite IH; reflexivity.
Qed.

Lemma dca_requests_length (n : nat) (i : Z) (cfg : TradeConfig.t) (p : F64.float64)
    (v : string) :
  List.length (dca_requests n i cfg p v) = n.
Proof.
  revert i p v. induction n as [|n IH]; intros i p v; [reflexivity|].
  cbn [dca_requests List.length]. rewrite IH. reflexivity.
Qed.

Lemma dca_requests_price (n : nat) (i0 : Z) (cfg : TradeConfig.t) (p : F64.float64)
    (v : string) (k : nat) :
  (k < n)%nat ->
  exists r, dca_requests n i0 cfg p v !! k = Some r
            /\ CreateOrderRequest.Price r = F64.Sprintf8 (running_price cfg i0 p k).
Proof.
  revert i0 p v k. induction n as [|n IH]; intros i0 p v k Hk; [lia|].
  cbn [dca_requests]. destruct k as [|k].
  - eexists. split; reflexivity.
  - cbn [running_price]. apply IH. lia.
Qed.

Lemma running_price_geometric (cfg : TradeConfig.t) (i0 : Z) (p : F64.float64) (k : nat) :
  TradeConfig.DynamicStep cfg = false ->
  running_price cfg i0 p k = Spec.geometric (TradeConfig.DCAStepPercent cfg) p (S k).
Proof.
  intros Hd. revert i0 p. induction k as [|k IH]; intros i0 p.
  - cbn [running_price]. unfold next_dca_price. rewrite Hd. reflexivity.
  - cbn [running_price]. rewrite IH. unfold Spec.geometric.
    rewrite (Nat.iter_succ_r (S k)). unfold next_dca_price. rewrite Hd. reflexivity.
Qed.

Lemma dynamic_from_shift (step : F64.float64) (i0 : Z) (p : F64.float64) (k : nat) :
  Spec.dynamic_from step (i0 + 1)
    (F64.mul p (Spec.down (F64.mul step (F64.of_int (i0 + 1))))) k =
  Spec.dynamic_from step i0 p (S k).
Proof.
  induction k as [|k IH].
  - cbn [Spec.dynamic_from].
    replace (i0 + 1 + Z.of_nat 0 + 1) with (i0 + Z.of_nat 1 + 1) by lia.
    replace (i0 + Z.of_nat 0 + 1) with (i0 + 1) by lia. reflexivity.
  - cbn [Spec.dynamic_from] in IH |- *. rewrite IH.
    replace (i0 + 1 + Z.of_nat (S k) + 1) with (i0 + Z.of_nat (S (S k)) + 1) by lia.
    reflexivity.
Qed.

Lemma running_price_dynamic (cfg : TradeConfig.t) (i0 : Z) (p : F64.float64) (k : nat) :
  TradeConfig.DynamicStep cfg = true ->
  running_price cfg i0 p k = Spec.dynamic_from (TradeConfig.DCAStepPercent cfg) i0 p k.
Proof.
  intros Hd. revert i0 p. induction k as [|k IH]; intros i0 p.
  - cbn [running_price Spec.dynamic_from]. unfold next_dca_price. rewrite Hd.
    replace (i0 + Z.of_nat 0 + 1) with (i0 + 1) by lia. reflexivity.
  - cbn [running_price]. rewrite IH. unfold next_dca_price. rewrite Hd.
    apply dynamic_from_shift.
Qed.

(** C4. The [i]-th request of the DCA grid (from 0) has the price, to 8
    digits: without dynamic step, of the geometric ladder
    [prev * (1 - step/100)] applied [i+1] times to the entry price; with
    dynamic step, of the running price updated at each rung [k = 0..i] as
    [prev * (1 - (k+1)*step/100)]. [setupDCAOrders] places exactly these
    requests, one per rung. *)
Theorem dca_grid_prices (trade : Trade.t) (entryPrice : F64.float64) (w : World) :
  parse_checked (Order.Price (Trade.EntryOrder trade)) = Ok entryPrice ->
  let cfg := Trade.Config trade in
  let reqs :=
    dca_requests (Z.to_nat (TradeConfig.DCACount cfg)) 0 cfg entryPrice
      (TradeConfig.DCAVolume cfg) in
  setupDCAOrders trade w =
    (None, fst (place_dca_orders reqs trade w), snd (place_dca_orders reqs trade w))
  /\ List.length reqs = Z.to_nat (TradeConfig.DCACount cfg)
  /\ forall i : nat, (i < Z.to_nat (TradeConfig.DCACount cfg))%nat ->
       exists r, reqs !! i = Some r
                 /\ CreateOrderRequest.Price r = Spec.ladder_dca_price cfg entryPrice i.
Proof.
  intros Hp cfg reqs. split; [|split].
  - unfold setupDCAOrders. rewrite Hp. run. rewrite setupDCAOrders_loop_requests. reflexivity.
  - apply dca_requests_length.
  - intros i Hi.
    destruct (dca_requests_price _ 0 cfg entryPrice (TradeConfig.DCAVolume cfg) i Hi)
      as [r [Hr Hprice]].
    exists r. split; [exact Hr|]. rewrite Hprice. unfold Spec.ladder_dca_price.
    destruct (TradeConfig.DynamicStep cfg) eqn:Hd.
    + rewrite (running_price_dynamic cfg 0 entryPrice i Hd). reflexivity.
    + rewrite (running_price_geometric cfg 0 entryPrice i Hd). reflexivity.
Qed.

Lemma totalVolume_loop_iter (n : nat) (cfg : TradeConfig.t) (v : string) :
  totalVolume_loop n cfg v =
  Nat.iter n
    (fun total =>
       F64.Sprintf8
         (F64.add (parse_unchecked total)
            (F64.mul (parse_unchecked (TradeConfig.DCAVolume cfg))
                     (TradeConfig.Martingale cfg))))
    v.
Proof.
  revert v. induction n as [|n IH]; intros v; [reflexivity|].
  cbn [totalVolume_loop]. rewrite IH, Nat.iter_succ_r. reflexivity.
Qed.

(** C6. With a parsed entry price and a martingale above zero,
    [setupTakeProfitOrder] asks for a limit SELL at
    [entry_price * (1 + take_profit_percent/100)] to 8 digits, of a quantity
    that is the running total started at [entry_volume] to which
    [dca_volume * m] is added [dca_count] times, the total being put to 8
    digits after each addition. For scenario 1 the price is 102.00000000 and
    the quantity 250.00000000. *)
Theorem initial_take_profit_request (trade : Trade.t) (entryPrice : F64.float64)
    (w : World) :
  parse_checked (Order.Price (Trade.EntryOrder trade)) = Ok entryPrice ->
  F64.gtb (TradeConfig.Martingale (Trade.Config trade)) F64.zero = true ->
  let cfg := Trade.Config trade in
  let req := initial_tp_request trade entryPrice in
  CreateOrderRequest.Side req = OrderSideSell
  /\ CreateOrderRequest.Type_ req = OrderTypeLimit
  /\ CreateOrderRequest.Price req =
     F64.Sprintf8 (F64.mul entryPrice (Spec.up (TradeConfig.TakeProfitPercent cfg)))
  /\ CreateOrderRequest.Quantity req = Spec.projected_total_running cfg
  /\ setupTakeProfitOrder trade w =
     match fst (ExecuteLimitOrder req w) with
     | Err e => (Some (wrap "failed to create take profit order" e), trade,
                 snd (ExecuteLimitOrder req w))
     | Ok tpOrder => (None, Trade.with_TakeProfitOrder (Some tpOrder) trade,
                      snd (ExecuteLimitOrder req w))
     end
  /\ initial_tp_request Scenario.trade0 (parse_unchecked "100.00000000") =
     CreateOrderRequest.mk "SOLUSDT" OrderSideSell OrderTypeLimit
       "250.00000000" "102.00000000".
Proof.
  intros Hp Hm cfg req.
  split; [reflexivity|]. split; [reflexivity|]. split; [reflexivity|].
  split; [|split].
  - unfold req, initial_tp_request. cbn [CreateOrderRequest.Quantity]. rewrite Hm.
    apply totalVolume_loop_iter.
  - unfold setupTakeProfitOrder. rewrite Hp. run. fold req.
    destruct (fst (ExecuteLimitOrder req w)); reflexivity.
  - vm_compute. reflexivity.
Qed.

(** C9. [InitializeTrade] of the handler answers 400 to a configuration
    whose [dca_count] is zero or less, leaving registry and world as they
    were (no exchange call); and it hands every otherwise valid
    configuration whose [dca_count] is above zero, however large, to the
    trade service: the answer is 201 or 500, never a validation error. *)
Theorem dca_count_validation (s : TradeService) (config : TradeConfig.t) (w : World) :
  ((TradeConfig.DCACount config <= 0)%Z ->
   exists message,
     Handler_InitializeTrade s (Ok config) w = (mkResponse 400 (BodyError message), s, w))
  /\ ((0 < TradeConfig.DCACount config)%Z ->
      TradeConfig.Symbol config <> "" ->
      TradeConfig.EntryVolume config <> "" ->
      TradeConfig.DCAVolume config <> "" ->
      F64.leb (TradeConfig.DCAStepPercent config) F64.zero = false ->
      F64.leb (TradeConfig.TakeProfitPercent config) F64.zero = false ->
      let config' :=
        if F64.leb (TradeConfig.Martingale config) F64.zero
        then TradeConfig.with_Martingale DefaultMartingale config else config in
      StatusCode (fst (fst (Handler_InitializeTrade s (Ok config) w))) =
        (if is_Err (fst (fst (InitializeTrade s config' w))) then 500 else 201)%Z
      /\ snd (Handler_InitializeTrade s (Ok config) w) = snd (InitializeTrade s config' w)).
Proof.
  split.
  - intros Hc. unfold Handler_InitializeTrade.
    destruct (_ || _ || _)%bool; [eexists; reflexivity|].
    apply Z.leb_le in Hc. rewrite Hc. cbn [orb]. eexists; reflexivity.
  - intros Hc Hs He Hd Hstep Htp config'. unfold Handler_InitializeTrade.
    apply String.eqb_neq in Hs, He, Hd. rewrite Hs, He, Hd, Hstep, Htp.
    apply Z.leb_gt in Hc. rewrite Hc. cbn [orb]. fold config'. run.
    destruct (fst (fst (InitializeTrade s config' w))); split; reflexivity.
Qed.

End Proofs.

(** C8. For side BUY, a non-empty price text that parses to [x] and a
    percentage above zero: the take-profit price is [x * (1 + pct/100)] to 8
    digits, and the DCA price of that text is its parsed value times
    [1 - pct/100], to 8 digits. *)
Theorem tp_then_dca_composition (p : string) (pct x : F64.float64) :
  p <> "" ->
  F64.leb pct F64.zero = false ->
  parse_checked p = Ok x ->
  let tp := F64.Sprintf8 (F64.mul x (Spec.up pct)) in
  ComputeTakeProfitPrice p pct OrderSideBuy = Ok tp
  /\ ComputeDCAPrice tp pct OrderSideBuy =
     match parse_checked tp with
     | Ok y => Ok (F64.Sprintf8 (F64.mul y (Spec.down pct)))
     | Err e => Err (wrap "invalid current price" e)
     end.
Proof.
  intros Hne Hpct Hx tp. split.
  - unfold ComputeTakeProfitPrice. apply String.eqb_neq in Hne. rewrite Hne, Hpct, Hx.
    reflexivity.
  - unfold ComputeDCAPrice.
    assert (Htp : String.eqb tp "" = false) by apply String.eqb_neq, Sprintf8_nonempty.
    rewrite Htp, Hpct. destruct (parse_checked tp); reflexivity.
Qed.

(** *** The reverse index *)

Lemma fold_insert_lookup (id : UUID) (l : list Order.t) (idx : gmap string UUID)
    (k : string) :
  idx !! k = Some id \/ (exists o, In o l /\ Order.BybitID o = k) ->
  List.fold_left (fun idx o => <[Order.BybitID o := id]> idx) l idx !! k = Some id.
Proof.
  revert idx. induction l as [|a l IH]; intros idx H; cbn [List.fold_left].
  - destruct H as [H | (o & [] & _)]. exact H.
  - apply IH. destruct (decide (Order.BybitID a = k)) as [E|N].
    + left. rewrite E. apply lookup_insert_eq.
    + destruct H as [H | (o & [Ho|Ho] & Hk)].
      * left. rewrite lookup_insert_ne by exact N. exact H.
      * subst o. contradiction.
      * right. exists o. auto.
Qed.

(** [indexOrders] maps every order of the trade to the trade. *)
Lemma indexOrders_indexed (trade : Trade.t) (idx : gmap string UUID) :
  Spec.indexed (indexOrders trade idx) trade.
Proof.
  unfold Spec.indexed, indexOrders. repeat split.
  - apply fold_insert_lookup. left.
    destruct (Trade.TakeProfitOrder trade) as [tp|].
    + destruct (decide (Order.BybitID tp = Order.BybitID (Trade.EntryOrder trade))) as [E|N].
      * rewrite E. apply lookup_insert_eq.
      * rewrite lookup_insert_ne by exact N. apply lookup_insert_eq.
    + apply lookup_insert_eq.
  - intros tp Htp. rewrite Htp. apply fold_insert_lookup. left. apply lookup_insert_eq.
  - intros o Ho. apply fold_insert_lookup. right. exists o. auto.
Qed.

Section Index.
Context {X : Exchange}.

(** Initialization registers the trade with all its orders indexed. *)
Lemma InitializeTrade_indexed (s : TradeService) (config : TradeConfig.t) (w : World)
    (trade : Trade.t) :
  fst (fst (InitializeTrade s config w)) = Ok trade ->
  trades (snd (fst (InitializeTrade s config w))) !! Trade.ID trade = Some trade
  /\ Spec.indexed (orderIndex (snd (fst (InitializeTrade s config w)))) trade.
Proof.
  unfold InitializeTrade, bind, ret. cbn [fst snd].
  destruct (fst (ExecuteMarketOrder _ w)) as [entryOrder|e]; cbn [fst snd]; [|discriminate].
  intros H. injection H as <-. split; [apply lookup_insert_eq | apply indexOrders_indexed].
Qed.

(** The handling of a DCA fill leaves the reverse index as it was. *)
Lemma ProcessOrderExecution_dca_index (s : TradeService) (tradeID : UUID)
    (trade : Trade.t) (orderID : string) (w : World) :
  trades s !! tradeID = Some trade ->
  is_take_profit trade orderID = false ->
  orderIndex (snd (fst (ProcessOrderExecution s tradeID orderID w))) = orderIndex s.
Proof.
  intros Ht Htp. unfold ProcessOrderExecution. rewrite Ht, Htp.
  destruct (find_dca orderID (Trade.DCAOrders trade) 0); reflexivity.
Qed.
End Index.

(** C1. On the scripted exchange, after the initialization of scenario 1
    and the fill of the first DCA order: the processing succeeds, the
    trade's take profit has been replaced (exchange id ord-3 before, ord-12
    after), and the reverse index does not hold the new id, still holds the
    old one, and [FindTradeByOrderID] misses the new take profit. *)
Theorem replaced_take_profit_not_indexed :
  let s := snd (fst (Scenario.dca_fill [])) in
  let trade := Scenario.registered s in
  fst (fst (Scenario.dca_fill [])) = None
  /\ trades s !! Scenario.tradeID = Some trade
  /\ option_map Order.BybitID (Trade.TakeProfitOrder Scenario.trade0) = Some "ord-3"
  /\ option_map Order.BybitID (Trade.TakeProfitOrder trade) = Some "ord-12"
  /\ orderIndex s !! "ord-12" = None
  /\ orderIndex s !! "ord-3" = Some Scenario.tradeID
  /\ is_Err (FindTradeByOrderID s "ord-12") = true
  /\ ~ Spec.indexed (orderIndex s) trade.
Proof.
  cbv zeta.
  do 7 (split; [vm_compute; reflexivity|]).
  intros (_ & Htp & _).
  specialize (Htp (match Trade.TakeProfitOrder
                           (Scenario.registered (snd (fst (Scenario.dca_fill [])))) with
                   | Some tp => tp | None => Scenario.no_order end)).
  vm_compute in Htp. specialize (Htp eq_refl). discriminate Htp.
Qed.

(** *** Request signing *)

Section Signing.
Context {E : Bybit.Encoding}.

(** [makeAuthenticatedRequest] signs [timestamp + api_key + payload]. *)
Lemma makeAuthenticatedRequest_signature (c : Bybit.Client) (timestamp : Z)
    (method endpoint : string) (payload : Bybit.Payload) (r : Bybit.Request) :
  Bybit.makeAuthenticatedRequest c timestamp method endpoint payload = Ok r ->
  exists q,
    Bybit.Header_Get "X-BAPI-SIGN" (Bybit.req_headers r) =
      Some (Bybit.scheme_signature c timestamp q)
    /\ if (String.eqb method "GET" || String.eqb method "DELETE")%bool
       then exists params, Bybit.structToURLValues payload = Ok params
                           /\ q = Url.Encode params
       else Bybit.json_Marshal payload = Ok q /\ Bybit.req_body r = Some q.
Proof.
  unfold Bybit.makeAuthenticatedRequest.
  destruct (String.eqb method "GET" || String.eqb method "DELETE")%bool.
  - destruct (Bybit.structToURLValues payload) as [params|e]; [|discriminate].
    intros H. injection H as <-. exists (Url.Encode params). split.
    + destruct (String.eqb method "POST"); reflexivity.
    + exists params. auto.
  - destruct (Bybit.json_Marshal payload) as [q|e]; [|discriminate].
    intros H. injection H as <-. exists q. split.
    + destruct (String.eqb method "POST"); reflexivity.
    + auto.
Qed.
End Signing.

(** [FetchOrderInfo] signs the encoded query alone. *)
Lemma FetchOrderInfo_signature (c : Bybit.Client) (timestamp : Z) (symbol orderID : string) :
  Bybit.Header_Get "X-BAPI-SIGN"
    (Bybit.req_headers (Bybit.FetchOrderInfo_request c timestamp symbol orderID)) =
  Some (Bybit.createSignature c
          (Url.Encode (Bybit.FetchOrderInfo_params timestamp symbol orderID))).
Proof. reflexivity. Qed.

(** C5. For the client of the scenarios, [FetchOrderInfo] puts in
    X-BAPI-SIGN the HMAC-SHA256 of the encoded query alone, which is not the
    HMAC-SHA256 of timestamp, api key and query that the signing scheme
    gives. *)
Theorem FetchOrderInfo_signs_query_only :
  let c := Scenario.client in
  let timestamp := 1700000000000 in
  let payload := Url.Encode (Bybit.FetchOrderInfo_params timestamp "SOLUSDT" "ord-5") in
  let sent :=
    Bybit.Header_Get "X-BAPI-SIGN"
      (Bybit.req_headers (Bybit.FetchOrderInfo_request c timestamp "SOLUSDT" "ord-5")) in
  payload = "orderId=ord-5&symbol=SOLUSDT&timestamp=1700000000000"
  /\ sent = Some (Bybit.createSignature c payload)
  /\ sent = Some "b02bba5b928baacab06b316bb11a556c49ae68402757b0af5c7754cb7249478f"
  /\ Bybit.scheme_signature c timestamp payload =
     "ee82b344bcc038d1a05d014d1265dd3475926148e0e5919f1dc62a30927984dc"
  /\ sent <> Some (Bybit.scheme_signature c timestamp payload).
Proof.
  cbv zeta.
  do 4 (split; [evaluated|]).
  intros H. vm_compute in H. discriminate H.
Qed.

(** *** The scenarios of the specification on the scripted exchange *)

(** Scenario 1: the trade is ACTIVE, the grid is 99, 98.01, 97.0299, the take
    profit is at 102, and five orders are indexed. *)
Example scenario_initialization :
  Trade.Status Scenario.trade0 = TradeStatusActive
  /\ List.map Order.Price (Trade.DCAOrders Scenario.trade0) =
     ["99.00000000"; "98.01000000"; "97.02990000"]
  /\ option_map Order.Price (Trade.TakeProfitOrder Scenario.trade0) = Some "102.00000000"
  /\ size (orderIndex Scenario.s0) = 5%nat
  /\ Trade.AveragePrice Scenario.trade0 = "100.00000000".
Proof. repeat (split; [evaluated|]). evaluated. Qed.

(** Scenario 2: the first DCA order fills with 50 at 99; the average becomes
    99.66666667 and the new take profit is at 101.66. *)
Example scenario_dca_fill :
  let trade := Scenario.registered (snd (fst (Scenario.dca_fill []))) in
  Trade.AveragePrice trade = "99.66666667"
  /\ option_map Order.Price (Trade.TakeProfitOrder trade) = Some "101.66000000".
Proof. split; evaluated. Qed.

(** Scenario 3: the take profit fills; the trade is COMPLETED, none of its
    orders is indexed and the three DCA orders are cancelled. *)
Example scenario_tp_fill :
  Trade.Status Scenario.trade_done = TradeStatusCompleted
  /\ size (orderIndex Scenario.s_done) = 0%nat
  /\ List.length (List.filter (fun c => match c with Mock.CallCancel _ => true | _ => false end)
                     (Mock.calls Scenario.w_done)) = 3%nat.
Proof. repeat (split; [evaluated|]). evaluated. Qed.

(** Scenario 6: the exchange rejects the second DCA order only; the trade is
    registered with the other two and four orders are indexed. *)
Example scenario_rung_rejected :
  let s := Scenario.after_init Scenario.config [3%nat] in
  List.map Order.Price (Trade.DCAOrders (Scenario.registered s)) =
    ["99.00000000"; "97.02990000"]
  /\ Trade.Status (Scenario.registered s) = TradeStatusActive
  /\ size (orderIndex s) = 4%nat.
Proof. repeat (split; [evaluated|]). evaluated. Qed.

(** *** Counterexamples on the scripted exchange *)

(** C2, counterexample: the trade of scenario 1 is COMPLETED once its take
    profit has filled; [CloseTrade] then makes it CANCELLED. *)
Lemma completed_trade_is_cancelled :
  ~ @Claims.terminal_immutability Mock.exchange Scenario.s_done Scenario.tradeID
      Scenario.trade_done "ord-5" "manual" Scenario.w_done.
Proof.
  unfold Claims.terminal_immutability. intros H.
  destruct H as [_ H]; [evaluated | evaluated |].
  apply (f_equal (option_map Trade.Status)) in H. vm_compute in H. discriminate H.
Qed.

(** C3, counterexample: the exchange rejects the replacement of the take
    profit (its sixth order), and [ProcessOrderExecution] returns nil. *)
Lemma rejected_replacement_returns_nil :
  ~ @Claims.placement_failure_surfaced Mock.exchange Scenario.s0 Scenario.tradeID "ord-5"
      (Scenario.w0 [5%nat]) Scenario.trade1 (Scenario.w1 [5%nat]).
Proof.
  unfold Claims.placement_failure_surfaced. intros H.
  apply (H (match calculateNewAveragePrice Scenario.trade1 with
            | Ok (avg, _) => avg | Err _ => F64.zero end)
           (match calculateNewAveragePrice Scenario.trade1 with
            | Ok (_, vol) => vol | Err _ => "" end)); evaluated.
Qed.

(** C4, counterexample: with dynamic step, one percent and entry price 100,
    the grid is 99, 97.02, 94.1094, which is neither the running formula with
    ranks from 0 nor an offset of [i * step] from the entry price. *)
Lemma dynamic_grid_counterexample :
  let prices := Scenario.buy_prices (Scenario.world_after_init Scenario.dynamic_config []) in
  prices = ["99.00000000"; "97.02000000"; "94.10940000"]
  /\ ~ Claims.grid_as_claimed Scenario.dynamic_config (F64.of_int 100) prices
  /\ ~ Claims.grid_offset_from_entry Scenario.dynamic_config (F64.of_int 100) 0 prices
  /\ ~ Claims.grid_offset_from_entry Scenario.dynamic_config (F64.of_int 100) 1 prices.
Proof.
  cbv zeta.
  assert (E : Scenario.buy_prices (Scenario.world_after_init Scenario.dynamic_config []) =
              ["99.00000000"; "97.02000000"; "94.10940000"]) by evaluated.
  rewrite E. split; [reflexivity|]. split; [|split]; intros H.
  - specialize (H 0%nat "99.00000000" eq_refl). vm_compute in H. discriminate H.
  - specialize (H 0%nat "99.00000000" eq_refl). vm_compute in H. discriminate H.
  - specialize (H 1%nat "97.02000000" eq_refl). vm_compute in H. discriminate H.
Qed.

(** C6, counterexample: with entry volume 1 and three DCA orders of
    1.000000004 the quantity asked is 4.00000000, the closed form gives
    4.00000001. *)
Lemma running_total_loses_digits :
  CreateOrderRequest.Quantity (initial_tp_request Scenario.fine_trade (F64.of_int 100)) =
    "4.00000000"
  /\ Spec.projected_total_closed Scenario.fine_config = "4.00000001"
  /\ ~ Claims.initial_quantity_closed Scenario.fine_trade (F64.of_int 100).
Proof.
  split; [evaluated|]. split; [evaluated|].
  unfold Claims.initial_quantity_closed. intros H. vm_compute in H. discriminate H.
Qed.

(** C7, counterexample: the first DCA order fills, the exchange rejects the
    replacement of the take profit; the fill is processed and the average
    price stays 100.00000000 where the weighted average is 99.66666667. *)
Lemma stale_average_after_rejected_replacement :
  ~ @Claims.average_after_fill Mock.exchange Scenario.s0 Scenario.tradeID "ord-5"
      (Scenario.w0 [5%nat]).
Proof.
  unfold Claims.average_after_fill. intros H.
  assert (E : fst (fst (@ProcessOrderExecution Mock.exchange Scenario.s0 Scenario.tradeID
                          "ord-5" (Scenario.w0 [5%nat]))) = None) by evaluated.
  specialize (H E (Scenario.registered (snd (fst (Scenario.dca_fill [5%nat]))))).
  assert (A : Trade.AveragePrice (Scenario.registered (snd (fst (Scenario.dca_fill [5%nat]))))
              = "100.00000000") by evaluated.
  assert (B : Spec.claimed_average_price
                (Scenario.registered (snd (fst (Scenario.dca_fill [5%nat]))))
              = "99.66666667") by evaluated.
  rewrite A, B in H. discriminate H. evaluated.
Qed.

(** C8, counterexample: from 100 at two percent the take-profit price is
    102.00000000 and the DCA price of it 99.96000000. *)
Lemma round_trip_falls_short :
  ComputeTakeProfitPrice "100" (F64.of_int 2) OrderSideBuy = Ok "102.00000000"
  /\ ComputeDCAPrice "102.00000000" (F64.of_int 2) OrderSideBuy = Ok "99.96000000"
  /\ ~ Claims.round_trip_R1 "100" (F64.of_int 2).
Proof.
  split; [evaluated|]. split; [evaluated|].
  intros (tp & d & Htp & Hd & Hr).
  assert (E : ComputeTakeProfitPrice "100" (F64.of_int 2) OrderSideBuy = Ok "102.00000000")
    by evaluated.
  rewrite E in Htp. injection Htp as <-.
  assert (E' : ComputeDCAPrice "102.00000000" (F64.of_int 2) OrderSideBuy = Ok "99.96000000")
    by evaluated.
  rewrite E' in Hd. injection Hd as <-.
  vm_compute in Hr. apply Hr. reflexivity.
Qed.

(** C9, counterexample: a configuration with 21 safety orders is answered
    201. *)
Lemma twenty_one_orders_accepted :
  ~ @Claims.dca_count_bounded Mock.exchange NewTradeManager Scenario.wide_config
      Scenario.fresh_world.
Proof.
  unfold Claims.dca_count_bounded. intros H.
  destruct H as [H _]; [right; evaluated|]. vm_compute in H. discriminate H.
Qed.

(** C10, counterexample: an entry of 5 at a price that is no number is an
    error, with a total volume of 5. *)
Lemma unparsed_entry_price_is_an_error :
  ~ Claims.error_iff_zero_volume Scenario.unpriced_trade.
Proof.
  unfold Claims.error_iff_zero_volume. intros [H _].
  assert (E : is_Err (calculateNewAveragePrice Scenario.unpriced_trade) = true) by evaluated.
  specialize (H E). vm_compute in H. discriminate H.
Qed.

(** *** The theorems at work on the scripted exchange *)

(** C2 at the trade of scenario 1. *)
Lemma finalization_ignores_status_witness :
  trades Scenario.s0 !! Scenario.tradeID = Some Scenario.trade0
  /\ ((fst (fst (@CloseTrade Mock.exchange Scenario.s0 Scenario.tradeID "manual"
                  (Scenario.w0 []))) = None
       /\ trades (snd (fst (@CloseTrade Mock.exchange Scenario.s0 Scenario.tradeID "manual"
                              (Scenario.w0 [])))) !! Scenario.tradeID =
          Some (Trade.with_UpdatedAt (fst (Mock.now (Scenario.w0 [])))
                  (Trade.with_Status TradeStatusCancelled Scenario.trade0)))
      /\ (is_take_profit Scenario.trade0 "ord-5" = true ->
          fst (fst (@ProcessOrderExecution Mock.exchange Scenario.s0 Scenario.tradeID "ord-5"
                      (Scenario.w0 []))) = None
          /\ trades (snd (fst (@ProcessOrderExecution Mock.exchange Scenario.s0
                                 Scenario.tradeID "ord-5" (Scenario.w0 []))))
               !! Scenario.tradeID =
             Some (Trade.with_UpdatedAt (fst (Mock.now (Scenario.w0 [])))
                     (Trade.with_Status TradeStatusCompleted Scenario.trade0)))
      /\ (is_take_profit Scenario.trade0 "ord-5" = false ->
          exists trade',
            trades (snd (fst (@ProcessOrderExecution Mock.exchange Scenario.s0
                                Scenario.tradeID "ord-5" (Scenario.w0 []))))
              !! Scenario.tradeID = Some trade'
            /\ same_identity trade' Scenario.trade0)).
Proof.
  assert (H : trades Scenario.s0 !! Scenario.tradeID = Some Scenario.trade0) by evaluated.
  split; [exact H|].
  exact (@finalization_ignores_status Mock.exchange Scenario.s0 Scenario.tradeID
           Scenario.trade0 "ord-5" "manual" (Scenario.w0 []) H).
Defined.

(** C3 where the exchange rejects the replacement of the take profit. *)
Lemma replacement_failure_is_dropped_witness :
  trades Scenario.s0 !! Scenario.tradeID = Some Scenario.trade0
  /\ is_take_profit Scenario.trade0 "ord-5" = false
  /\ find_dca "ord-5" (Trade.DCAOrders Scenario.trade0) 0 = Some 0%nat
  /\ Trade.DCAOrders Scenario.trade0 !! 0%nat = Some Scenario.dca0
  /\ fst (@FetchOrderStatus Mock.exchange (Order.Symbol Scenario.dca0)
            (Order.BybitID Scenario.dca0) (Scenario.w0 [5%nat])) = Ok Scenario.updated0
  /\ fst (fst (@ProcessOrderExecution Mock.exchange Scenario.s0 Scenario.tradeID "ord-5"
                 (Scenario.w0 [5%nat]))) = None.
Proof.
  assert (H1 : trades Scenario.s0 !! Scenario.tradeID = Some Scenario.trade0) by evaluated.
  assert (H2 : is_take_profit Scenario.trade0 "ord-5" = false) by evaluated.
  assert (H3 : find_dca "ord-5" (Trade.DCAOrders Scenario.trade0) 0 = Some 0%nat)
    by evaluated.
  assert (H4 : Trade.DCAOrders Scenario.trade0 !! 0%nat = Some Scenario.dca0) by evaluated.
  assert (H5 : fst (@FetchOrderStatus Mock.exchange (Order.Symbol Scenario.dca0)
                      (Order.BybitID Scenario.dca0) (Scenario.w0 [5%nat])) =
               Ok Scenario.updated0) by evaluated.
  repeat (split; [assumption|]).
  exact (proj1 (@replacement_failure_is_dropped Mock.exchange Scenario.s0 Scenario.tradeID
                  Scenario.trade0 "ord-5" 0%nat Scenario.dca0 Scenario.updated0
                  (Scenario.w0 [5%nat]) H1 H2 H3 H4 H5)).
Defined.

(** C4 at the third rung of scenario 1. *)
Lemma dca_grid_prices_witness :
  parse_checked (Order.Price (Trade.EntryOrder Scenario.trade0)) = Ok (F64.of_int 100)
  /\ exists r,
       dca_requests 3 0 Scenario.config (F64.of_int 100) "50" !! 2%nat = Some r
       /\ CreateOrderRequest.Price r =
          Spec.ladder_dca_price Scenario.config (F64.of_int 100) 2.
Proof.
  assert (H : parse_checked (Order.Price (Trade.EntryOrder Scenario.trade0)) =
              Ok (F64.of_int 100)) by evaluated.
  split; [exact H|].
  assert (L : (2 < Z.to_nat (TradeConfig.DCACount (Trade.Config Scenario.trade0)))%nat)
    by (vm_compute; lia).
  exact (proj2 (proj2 (@dca_grid_prices Mock.exchange Scenario.trade0 (F64.of_int 100)
                         Scenario.fresh_world H)) 2%nat L).
Defined.

(** C6 at the trade of scenario 1. *)
Lemma initial_take_profit_request_witness :
  parse_checked (Order.Price (Trade.EntryOrder Scenario.trade0)) = Ok (F64.of_int 100)
  /\ F64.gtb (TradeConfig.Martingale (Trade.Config Scenario.trade0)) F64.zero = true
  /\ CreateOrderRequest.Quantity (initial_tp_request Scenario.trade0 (F64.of_int 100)) =
     Spec.projected_total_running (Trade.Config Scenario.trade0).
Proof.
  assert (H : parse_checked (Order.Price (Trade.EntryOrder Scenario.trade0)) =
              Ok (F64.of_int 100)) by evaluated.
  assert (M : F64.gtb (TradeConfig.Martingale (Trade.Config Scenario.trade0)) F64.zero = true)
    by evaluated.
  split; [exact H|]. split; [exact M|].
  exact (proj1 (proj2 (proj2 (proj2
           (@initial_take_profit_request Mock.exchange Scenario.trade0 (F64.of_int 100)
              Scenario.fresh_world H M))))).
Defined.

(** C7 at the first DCA fill of scenario 1. *)
Lemma average_price_after_replacement_witness :
  trades Scenario.s0 !! Scenario.tradeID = Some Scenario.trade0
  /\ is_take_profit Scenario.trade0 "ord-5" = false
  /\ find_dca "ord-5" (Trade.DCAOrders Scenario.trade0) 0 = Some 0%nat
  /\ Trade.DCAOrders Scenario.trade0 !! 0%nat = Some Scenario.dca0
  /\ fst (@FetchOrderStatus Mock.exchange (Order.Symbol Scenario.dca0)
            (Order.BybitID Scenario.dca0) (Scenario.w0 [])) = Ok Scenario.updated0
  /\ fst (fst (@updateTakeProfitOrder Mock.exchange
                 (Trade.with_DCAOrders
                    (<[0%nat := Scenario.updated0]> (Trade.DCAOrders Scenario.trade0))
                    Scenario.trade0)
                 (snd (@FetchOrderStatus Mock.exchange (Order.Symbol Scenario.dca0)
                         (Order.BybitID Scenario.dca0) (Scenario.w0 []))))) = None
  /\ exists trade',
       trades (snd (fst (@ProcessOrderExecution Mock.exchange Scenario.s0 Scenario.tradeID
                           "ord-5" (Scenario.w0 [])))) !! Scenario.tradeID = Some trade'
       /\ Trade.DCAOrders trade' =
          <[0%nat := Scenario.updated0]> (Trade.DCAOrders Scenario.trade0)
       /\ Trade.EntryOrder trade' = Trade.EntryOrder Scenario.trade0
       /\ Trade.AveragePrice trade' = Spec.average_price_of trade'.
Proof.
  assert (H1 : trades Scenario.s0 !! Scenario.tradeID = Some Scenario.trade0) by evaluated.
  assert (H2 : is_take_profit Scenario.trade0 "ord-5" = false) by evaluated.
  assert (H3 : find_dca "ord-5" (Trade.DCAOrders Scenario.trade0) 0 = Some 0%nat)
    by evaluated.
  assert (H4 : Trade.DCAOrders Scenario.trade0 !! 0%nat = Some Scenario.dca0) by evaluated.
  assert (H5 : fst (@FetchOrderStatus Mock.exchange (Order.Symbol Scenario.dca0)
                      (Order.BybitID Scenario.dca0) (Scenario.w0 [])) =
               Ok Scenario.updated0) by evaluated.
  assert (H6 : fst (fst (@updateTakeProfitOrder Mock.exchange
                 (Trade.with_DCAOrders
                    (<[0%nat := Scenario.updated0]> (Trade.DCAOrders Scenario.trade0))
                    Scenario.trade0)
                 (snd (@FetchOrderStatus Mock.exchange (Order.Symbol Scenario.dca0)
                         (Order.BybitID Scenario.dca0) (Scenario.w0 []))))) = None)
    by evaluated.
  split; [exact H1|]. split; [exact H2|]. split; [exact H3|]. split; [exact H4|].
  split; [exact H5|]. split; [exact H6|].
  destruct (@average_price_after_replacement Mock.exchange Scenario.s0 Scenario.tradeID
              Scenario.trade0 "ord-5" 0%nat Scenario.dca0 Scenario.updated0 (Scenario.w0 [])
              H1 H2 H3 H4 H5)
    as (trade' & T1 & _ & T2 & T3 & T4 & _).
  exists trade'. split; [exact T1|]. split; [exact T2|]. split; [exact T3|].
  exact (T4 H6).
Defined.

(** C8 from 100 at two percent. *)
Lemma tp_then_dca_composition_witness :
  "100" <> ""
  /\ F64.leb (F64.of_int 2) F64.zero = false
  /\ parse_checked "100" = Ok (F64.of_int 100)
  /\ ComputeTakeProfitPrice "100" (F64.of_int 2) OrderSideBuy =
     Ok (F64.Sprintf8 (F64.mul (F64.of_int 100) (Spec.up (F64.of_int 2)))).
Proof.
  assert (H1 : "100" <> "") by discriminate.
  assert (H2 : F64.leb (F64.of_int 2) F64.zero = false) by evaluated.
  assert (H3 : parse_checked "100" = Ok (F64.of_int 100)) by evaluated.
  repeat (split; [assumption|]).
  exact (proj1 (tp_then_dca_composition "100" (F64.of_int 2) (F64.of_int 100) H1 H2 H3)).
Defined.

(** C9 at a configuration with no safety order. *)
Lemma dca_count_validation_witness :
  (TradeConfig.DCACount Scenario.bare_config <= 0)%Z
  /\ exists message,
       @Handler_InitializeTrade Mock.exchange NewTradeManager (Ok Scenario.bare_config)
         Scenario.fresh_world =
       (mkResponse 400 (BodyError message), NewTradeManager, Scenario.fresh_world).
Proof.
  assert (H : (TradeConfig.DCACount Scenario.bare_config <= 0)%Z) by (vm_compute; discriminate).
  split; [exact H|].
  exact (proj1 (@dca_count_validation Mock.exchange NewTradeManager Scenario.bare_config
                  Scenario.fresh_world) H).
Defined.

(* ===================================================================== *)
(** ** Further properties of the code *)
(* ===================================================================== *)

(** *** The reverse index at finalization *)

Lemma fold_delete_lookup_in (l : list Order.t) (idx : gmap string UUID) (k : string) :
  idx !! k = None \/ In k (List.map Order.BybitID l) ->
  List.fold_left (fun idx o => delete (Order.BybitID o) idx) l idx !! k = None.
Proof.
  revert idx. induction l as [|a l IH]; intros idx H; cbn [List.fold_left].
  - destruct H as [H | []]. exact H.
  - apply IH. destruct (decide (Order.BybitID a = k)) as [E|N].
    + left. rewrite E. apply lookup_delete_eq.
    + destruct H as [H | [H|H]].
      * left. rewrite lookup_delete_ne by exact N. exact H.
      * contradiction.
      * right. exact H.
Qed.

Lemma fold_delete_lookup_out (l : list Order.t) (idx : gmap string UUID) (k : string) :
  ~ In k (List.map Order.BybitID l) ->
  List.fold_left (fun idx o => delete (Order.BybitID o) idx) l idx !! k = idx !! k.
Proof.
  revert idx. induction l as [|a l IH]; intros idx H; cbn [List.fold_left]; [reflexivity|].
  cbn [List.map In] in H. rewrite IH by tauto. apply lookup_delete_ne. tauto.
Qed.

Lemma unindexOrders_held (trade : Trade.t) (idx : gmap string UUID) (k : string) :
  In k (Notions.held_ids trade) -> unindexOrders trade idx !! k = None.
Proof.
  unfold Notions.held_ids, unindexOrders. intros [H|H].
  - apply fold_delete_lookup_in. left. subst k.
    destruct (Trade.TakeProfitOrder trade) as [tp|]; [|apply lookup_delete_eq].
    destruct (decide (Order.BybitID tp = Order.BybitID (Trade.EntryOrder trade))) as [E|N].
    + rewrite E. apply lookup_delete_eq.
    + rewrite lookup_delete_ne by exact N. apply lookup_delete_eq.
  - apply in_app_or in H. destruct H as [H|H].
    + destruct (Trade.TakeProfitOrder trade) as [tp|]; [|destruct H].
      destruct H as [H|[]]. subst k. apply fold_delete_lookup_in. left.
      apply lookup_delete_eq.
    + apply fold_delete_lookup_in. right. exact H.
Qed.

Lemma unindexOrders_other (trade : Trade.t) (idx : gmap string UUID) (k : string) :
  ~ In k (Notions.held_ids trade) -> unindexOrders trade idx !! k = idx !! k.
Proof.
  unfold Notions.held_ids, unindexOrders. intros H. cbn [In] in H.
  rewrite fold_delete_lookup_out.
  - destruct (Trade.TakeProfitOrder trade) as [tp|].
    + rewrite !lookup_delete_ne; [reflexivity| |]; intros E; apply H.
      * left. exact E.
      * right. apply in_or_app. left. left. exact E.
    + apply lookup_delete_ne. intros E. apply H. left. exact E.
  - intros Hin. apply H. right. apply in_or_app. right. exact Hin.
Qed.

Section MoreService.
Context {X : Exchange}.

(** X1. Finalization of a registered trade, by [CloseTrade] or by the fill
    of its take profit, takes every order id that the trade holds out of
    the reverse index, so that [FindTradeByOrderID] misses each of them,
    and leaves the entry of every other order id as it was. *)
Theorem finalization_unindexes_held_orders (s : TradeService) (tradeID : UUID)
    (trade : Trade.t) (status : TradeStatus) (reason : string) (w : World) :
  trades s !! tradeID = Some trade ->
  let closed := snd (fst (CloseTrade s tradeID reason w)) in
  let finalized := snd (fst (finalizeTrade s tradeID status w)) in
  (forall k, In k (Notions.held_ids trade) ->
     orderIndex closed !! k = None /\ is_Err (FindTradeByOrderID closed k) = true
     /\ orderIndex finalized !! k = None)
  /\ (forall k, ~ In k (Notions.held_ids trade) ->
        orderIndex closed !! k = orderIndex s !! k
        /\ orderIndex finalized !! k = orderIndex s !! k).
Proof.
  intros Ht closed finalized.
  assert (Hc : orderIndex closed = unindexOrders trade (orderIndex s)).
  { unfold closed, CloseTrade. rewrite Ht.
    apply (finalizeTrade_registered s tradeID trade TradeStatusCancelled w Ht). }
  assert (Hf : orderIndex finalized = unindexOrders trade (orderIndex s)).
  { apply (finalizeTrade_registered s tradeID trade status w Ht). }
  clearbody closed finalized.
  split; intros k Hk.
  - assert (Hn : unindexOrders trade (orderIndex s) !! k = None)
      by (apply unindexOrders_held; exact Hk).
    split; [rewrite Hc; exact Hn|]. split; [|rewrite Hf; exact Hn].
    unfold FindTradeByOrderID. unfold UUID in *. rewrite Hc, Hn. reflexivity.
  - rewrite Hc, Hf. split; apply unindexOrders_other; exact Hk.
Qed.

(** X2. When [InitializeTrade] succeeds, the trade it returns is the one
    registered under its id, and [FindTradeByOrderID] finds that trade by
    the exchange id of each order it holds: the entry, the take profit if
    one was placed, and every DCA order that was placed. *)
Theorem initialized_trade_is_found_by_its_orders (s : TradeService)
    (config : TradeConfig.t) (w : World) (trade : Trade.t) :
  fst (fst (InitializeTrade s config w)) = Ok trade ->
  let s' := snd (fst (InitializeTrade s config w)) in
  GetTrade s' (Trade.ID trade) = Ok trade
  /\ forall k, In k (Notions.held_ids trade) -> FindTradeByOrderID s' k = Ok trade.
Proof.
  intros H s'. destruct (InitializeTrade_indexed s config w trade H) as [Hreg Hidx].
  fold s' in Hreg, Hidx. clearbody s'. split.
  - unfold GetTrade. rewrite Hreg. reflexivity.
  - intros k Hk.
    assert (Hl : orderIndex s' !! k = Some (Trade.ID trade)).
    { destruct Hidx as (He & Htp & Hd). unfold Notions.held_ids in Hk.
      destruct Hk as [Hk|Hk]; [subst k; exact He|].
      apply in_app_or in Hk. destruct Hk as [Hk|Hk].
      - destruct (Trade.TakeProfitOrder trade) as [tp|] eqn:E; [|destruct Hk].
        destruct Hk as [Hk|[]]. subst k. apply Htp. reflexivity.
      - apply in_map_iff in Hk. destruct Hk as (o & Ho & Hin). subst k.
        apply Hd. exact Hin. }
    unfold FindTradeByOrderID. unfold UUID in *. rewrite Hl, Hreg. reflexivity.
Qed.

(** X3. When the exchange rejects the entry order, [InitializeTrade]
    returns that error wrapped twice, registers nothing, indexes nothing,
    and makes no other call: the world is the one that the rejected call
    left. *)
Theorem rejected_entry_registers_nothing (s : TradeService) (config : TradeConfig.t)
    (w : World) (e : error) :
  let entry :=
    ExchangeOrderRequest.mk (TradeConfig.Symbol config) OrderSideBuy OrderTypeMarket
      (TradeConfig.EntryVolume config) "" "" (fst (time_Now w)) in
  fst (client_ExecuteOrder entry (snd (time_Now w))) = Err e ->
  InitializeTrade s config w =
  (Err (wrap "failed to execute entry order" (wrap "failed to execute market order" e)),
   s, snd (client_ExecuteOrder entry (snd (time_Now w)))).
Proof.
  intros entry H. unfold InitializeTrade, ExecuteMarketOrder. run.
  cbn [CreateOrderRequest.Symbol CreateOrderRequest.Side CreateOrderRequest.Type_
       CreateOrderRequest.Quantity].
  fold entry.
  destruct (client_ExecuteOrder entry (snd (time_Now w))) as [r w'].
  cbn [fst snd] in *. subst r. reflexivity.
Qed.

Lemma place_dca_orders_keeps (reqs : list CreateOrderRequest.t) (trade : Trade.t)
    (w : World) :
  let trade' := fst (place_dca_orders reqs trade w) in
  Trade.ID trade' = Trade.ID trade /\ Trade.Symbol trade' = Trade.Symbol trade
  /\ Trade.Config trade' = Trade.Config trade
  /\ Trade.EntryOrder trade' = Trade.EntryOrder trade
  /\ Trade.TakeProfitOrder trade' = Trade.TakeProfitOrder trade
  /\ Trade.Status trade' = Trade.Status trade
  /\ Trade.TotalInvested trade' = Trade.TotalInvested trade
  /\ Trade.AveragePrice trade' = Trade.AveragePrice trade
  /\ Trade.CurrentPrice trade' = Trade.CurrentPrice trade
  /\ (List.length (Trade.DCAOrders trade')
      <= List.length (Trade.DCAOrders trade) + List.length reqs)%nat.
Proof.
  revert trade w. induction reqs as [|req reqs IH]; intros trade w.
  - cbn. repeat split; lia.
  - cbn [place_dca_orders]. run.
    destruct (fst (ExecuteLimitOrder req w)) as [dcaOrder|e].
    + specialize (IH (Trade.with_DCAOrders (Trade.DCAOrders trade ++ [dcaOrder]) trade)
                     (snd (ExecuteLimitOrder req w))).
      cbv zeta in *. cbn [Trade.with_DCAOrders Trade.ID Trade.Symbol Trade.Config
        Trade.EntryOrder Trade.TakeProfitOrder Trade.Status Trade.TotalInvested
        Trade.AveragePrice Trade.CurrentPrice Trade.DCAOrders] in IH.
      rewrite List.length_app in IH. cbn [List.length] in *.
      destruct IH as (?&?&?&?&?&?&?&?&?&?). repeat split; try assumption. lia.
    + specialize (IH trade (snd (ExecuteLimitOrder req w))). cbv zeta in *.
      cbn [List.length]. destruct IH as (?&?&?&?&?&?&?&?&?&?).
      repeat split; try assumption. lia.
Qed.

(** X4. Once the exchange has accepted the entry order, [InitializeTrade]
    cannot fail, whatever becomes of the take profit and of the DCA orders:
    it returns a trade that is ACTIVE, holds the configuration and the
    entry order, has the entry price as average and current price and the
    entry volume as total invested, and carries at most [DCACount] DCA
    orders. *)
Theorem accepted_entry_always_yields_a_trade (s : TradeService) (config : TradeConfig.t)
    (w : World) (entryOrder : Order.t) :
  fst (ExecuteMarketOrder
         (CreateOrderRequest.mk (TradeConfig.Symbol config) OrderSideBuy OrderTypeMarket
            (TradeConfig.EntryVolume config) "") w) = Ok entryOrder ->
  exists trade,
    fst (fst (InitializeTrade s config w)) = Ok trade
    /\ Trade.Status trade = TradeStatusActive
    /\ Trade.Config trade = config
    /\ Trade.Symbol trade = TradeConfig.Symbol config
    /\ Trade.EntryOrder trade = entryOrder
    /\ Trade.AveragePrice trade = Order.Price entryOrder
    /\ Trade.CurrentPrice trade = Order.Price entryOrder
    /\ Trade.TotalInvested trade = TradeConfig.EntryVolume config
    /\ (List.length (Trade.DCAOrders trade) <= Z.to_nat (TradeConfig.DCACount config))%nat.
Proof.
  intros H. unfold InitializeTrade. run. rewrite H. run.
  eexists. split; [reflexivity|].
  match goal with
  | |- context [setupTakeProfitOrder ?t ?w0] =>
      set (t0 := t); set (r1 := setupTakeProfitOrder t0 w0)
  end.
  assert (H1 : Trade.ID (snd (fst r1)) = Trade.ID t0
               /\ Trade.Symbol (snd (fst r1)) = Trade.Symbol t0
               /\ Trade.Config (snd (fst r1)) = Trade.Config t0
               /\ Trade.EntryOrder (snd (fst r1)) = Trade.EntryOrder t0
               /\ Trade.Status (snd (fst r1)) = Trade.Status t0
               /\ Trade.TotalInvested (snd (fst r1)) = Trade.TotalInvested t0
               /\ Trade.AveragePrice (snd (fst r1)) = Trade.AveragePrice t0
               /\ Trade.CurrentPrice (snd (fst r1)) = Trade.CurrentPrice t0
               /\ Trade.DCAOrders (snd (fst r1)) = Trade.DCAOrders t0).
  { unfold r1, setupTakeProfitOrder.
    destruct (parse_checked (Order.Price (Trade.EntryOrder t0))); [|cbn; auto 10].
    run. destruct (fst (ExecuteLimitOrder _ _)); cbn; auto 10. }
  destruct H1 as (I1 & I2 & I3 & I4 & I5 & I6 & I7 & I8 & I9).
  set (t1 := snd (fst r1)) in *. set (w1 := snd r1).
  assert (H2 : let t2 := snd (fst (setupDCAOrders t1 w1)) in
               Trade.Symbol t2 = Trade.Symbol t1
               /\ Trade.Config t2 = Trade.Config t1
               /\ Trade.EntryOrder t2 = Trade.EntryOrder t1
               /\ Trade.Status t2 = Trade.Status t1
               /\ Trade.TotalInvested t2 = Trade.TotalInvested t1
               /\ Trade.AveragePrice t2 = Trade.AveragePrice t1
               /\ Trade.CurrentPrice t2 = Trade.CurrentPrice t1
               /\ (List.length (Trade.DCAOrders t2)
                   <= List.length (Trade.DCAOrders t1)
                      + Z.to_nat (TradeConfig.DCACount (Trade.Config t1)))%nat).
  { unfold setupDCAOrders.
    destruct (parse_checked (Order.Price (Trade.EntryOrder t1))) as [p|e0].
    - run. rewrite setupDCAOrders_loop_requests.
      match goal with
      | |- context [place_dca_orders ?reqs t1 w1] =>
          pose proof (place_dca_orders_keeps reqs t1 w1) as K;
          assert (L : List.length reqs = Z.to_nat (TradeConfig.DCACount (Trade.Config t1)))
            by apply dca_requests_length
      end.
      cbv zeta in K. rewrite L in K. cbv zeta.
      destruct K as (?&?&?&?&?&?&?&?&?&?). repeat split; assumption.
    - cbn. repeat split; lia. }
  cbv zeta in H2. destruct H2 as (J2 & J3 & J4 & J5 & J6 & J7 & J8 & J9).
  rewrite J2, J3, J4, J5, J6, J7, J8, I2, I3, I4, I5, I6, I7, I8.
  rewrite I3, I9 in J9. cbn in J9 |- *. repeat split. exact J9.
Qed.

Lemma find_dca_none (orderID : string) (l : list Order.t) (k : nat) :
  find_dca orderID l k = None <-> ~ In orderID (List.map Order.BybitID l).
Proof.
  revert k. induction l as [|o l IH]; intros k; cbn [find_dca List.map In]; [tauto|].
  destruct (String.eqb (Order.BybitID o) orderID) eqn:E.
  - apply String.eqb_eq in E. split; [discriminate | tauto].
  - apply String.eqb_neq in E. rewrite IH. tauto.
Qed.

(** X5. [ProcessOrderExecution] with a trade id that is not registered,
    or with an order id that is neither the trade's take profit nor one of
    its DCA orders (the id of the entry order is such an id), returns an
    error and changes nothing: the registry and the world are as before,
    so no exchange call is made. *)
Theorem unknown_order_changes_nothing (s : TradeService) (tradeID : UUID)
    (orderID : string) (w : World) :
  (trades s !! tradeID = None
   \/ exists trade, trades s !! tradeID = Some trade
        /\ is_take_profit trade orderID = false
        /\ ~ In orderID (List.map Order.BybitID (Trade.DCAOrders trade))) ->
  fst (fst (ProcessOrderExecution s tradeID orderID w)) <> None
  /\ snd (fst (ProcessOrderExecution s tradeID orderID w)) = s
  /\ snd (ProcessOrderExecution s tradeID orderID w) = w.
Proof.
  unfold ProcessOrderExecution. intros [H | (trade & Ht & Htp & Hd)].
  - rewrite H. cbn. repeat split. discriminate.
  - rewrite Ht, Htp. apply (find_dca_none orderID _ 0%nat) in Hd. rewrite Hd.
    cbn. repeat split. discriminate.
Qed.

(** X6. When the handling of a DCA fill cannot fetch the state of the
    order, [ProcessOrderExecution] returns the error of the exchange,
    wrapped twice, and the trade stays as it was: the take profit is
    neither cancelled nor replaced, the world is the one that the fetch
    left, and the reverse index is untouched. *)
Theorem failed_fetch_leaves_the_trade (s : TradeService) (tradeID : UUID)
    (trade : Trade.t) (orderID : string) (i : nat) (o : Order.t) (e : error) (w : World) :
  trades s !! tradeID = Some trade ->
  is_take_profit trade orderID = false ->
  find_dca orderID (Trade.DCAOrders trade) 0 = Some i ->
  Trade.DCAOrders trade !! i = Some o ->
  fst (client_FetchOrderInfo (Order.Symbol o) (Order.BybitID o) w) = Err e ->
  let r := ProcessOrderExecution s tradeID orderID w in
  fst (fst r) =
    Some (wrap "failed to get updated DCA order status"
            (wrap "failed to fetch order status" e))
  /\ trades (snd (fst r)) !! tradeID = Some trade
  /\ orderIndex (snd (fst r)) = orderIndex s
  /\ snd r = snd (client_FetchOrderInfo (Order.Symbol o) (Order.BybitID o) w).
Proof.
  intros Ht Htp Hi Ho He.
  rewrite (ProcessOrderExecution_dca s tradeID trade orderID i w Ht Htp Hi).
  rewrite (handleDCAExecution_unfold trade i o w Ho). cbv zeta.
  assert (Hf : FetchOrderStatus (Order.Symbol o) (Order.BybitID o) w =
               (Err (wrap "failed to fetch order status" e),
                snd (client_FetchOrderInfo (Order.Symbol o) (Order.BybitID o) w))).
  { unfold FetchOrderStatus. run.
    destruct (client_FetchOrderInfo (Order.Symbol o) (Order.BybitID o) w) as [r w'].
    cbn [fst snd] in *. subst r. reflexivity. }
  rewrite Hf. cbn [fst snd trades orderIndex].
  split; [reflexivity|]. split; [apply lookup_insert_eq|]. split; reflexivity.
Qed.

End MoreService.

(** *** The registry over the calls of the service *)

Lemma fold_insert_lookup_inv (id : UUID) (l : list Order.t) (idx : gmap string UUID)
    (k : string) (v : UUID) :
  List.fold_left (fun idx o => <[Order.BybitID o := id]> idx) l idx !! k = Some v ->
  v = id \/ idx !! k = Some v.
Proof.
  revert idx. induction l as [|a l IH]; intros idx H; cbn [List.fold_left] in H.
  - right. exact H.
  - destruct (IH _ H) as [E|E]; [left; exact E|].
    destruct (decide (Order.BybitID a = k)) as [D|D].
    + rewrite D, lookup_insert_eq in E. left. congruence.
    + rewrite lookup_insert_ne in E by exact D. right. exact E.
Qed.

Lemma indexOrders_lookup_inv (trade : Trade.t) (idx : gmap string UUID) (k : string)
    (v : UUID) :
  indexOrders trade idx !! k = Some v -> v = Trade.ID trade \/ idx !! k = Some v.
Proof.
  unfold indexOrders. intros H. apply fold_insert_lookup_inv in H.
  destruct H as [H|H]; [left; exact H|].
  assert (G : forall m : gmap string UUID,
            <[Order.BybitID (Trade.EntryOrder trade) := Trade.ID trade]> m !! k = Some v ->
            v = Trade.ID trade \/ m !! k = Some v).
  { intros m Hm.
    destruct (decide (Order.BybitID (Trade.EntryOrder trade) = k)) as [D|D].
    - rewrite D, lookup_insert_eq in Hm. left. congruence.
    - rewrite lookup_insert_ne in Hm by exact D. right. exact Hm. }
  destruct (Trade.TakeProfitOrder trade) as [tp|]; [|apply G; exact H].
  destruct (decide (Order.BybitID tp = k)) as [D|D].
  - rewrite D, lookup_insert_eq in H. left. congruence.
  - rewrite lookup_insert_ne in H by exact D. apply G. exact H.
Qed.

Lemma fold_delete_lookup_inv (l : list Order.t) (idx : gmap string UUID) (k : string)
    (v : UUID) :
  List.fold_left (fun idx o => delete (Order.BybitID o) idx) l idx !! k = Some v ->
  idx !! k = Some v.
Proof.
  revert idx. induction l as [|a l IH]; intros idx H; cbn [List.fold_left] in H; [exact H|].
  apply IH in H. apply lookup_delete_Some in H. tauto.
Qed.

Lemma unindexOrders_lookup_inv (trade : Trade.t) (idx : gmap string UUID) (k : string)
    (v : UUID) :
  unindexOrders trade idx !! k = Some v -> idx !! k = Some v.
Proof.
  unfold unindexOrders. intros H. apply fold_delete_lookup_inv in H.
  destruct (Trade.TakeProfitOrder trade) as [tp|].
  - apply lookup_delete_Some in H. destruct H as [_ H].
    apply lookup_delete_Some in H. tauto.
  - apply lookup_delete_Some in H. tauto.
Qed.

Section MoreRegistry.
Context {X : Exchange}.

Lemma finalizeTrade_state (s : TradeService) (tradeID : UUID) (status : TradeStatus)
    (w : World) :
  snd (fst (finalizeTrade s tradeID status w)) = s
  \/ exists trade,
       trades s !! tradeID = Some trade
       /\ snd (fst (finalizeTrade s tradeID status w)) =
          mkTradeService
            (<[tradeID := Trade.with_UpdatedAt (fst (time_Now w))
                            (Trade.with_Status status trade)]> (trades s))
            (unindexOrders trade (orderIndex s)).
Proof.
  unfold finalizeTrade. destruct (trades s !! tradeID) as [trade|]; [|left; reflexivity].
  right. exists trade. split; reflexivity.
Qed.

(** What a call can do to the registry: nothing, the registration of a
    trade under its id with its orders indexed, the rewriting of a
    registered trade that keeps its id, or that with the removal of index
    entries. *)
Lemma step_shape (s s' : TradeService) :
  step s s' ->
  s' = s
  \/ (exists trade,
        s' = mkTradeService (<[Trade.ID trade := trade]> (trades s))
                            (indexOrders trade (orderIndex s)))
  \/ (exists tradeID old new idx,
        trades s !! tradeID = Some old /\ Trade.ID new = Trade.ID old
        /\ (forall k v, idx !! k = Some v -> orderIndex s !! k = Some v)
        /\ s' = mkTradeService (<[tradeID := new]> (trades s)) idx).
Proof.
  assert (F : forall tradeID status w,
            let s' := snd (fst (finalizeTrade s tradeID status w)) in
            s' = s
            \/ (exists tradeID old new idx,
                  trades s !! tradeID = Some old /\ Trade.ID new = Trade.ID old
                  /\ (forall k v, idx !! k = Some v -> orderIndex s !! k = Some v)
                  /\ s' = mkTradeService (<[tradeID := new]> (trades s)) idx)).
  { intros tradeID status w.
    destruct (finalizeTrade_state s tradeID status w) as [E | (trade & Ht & E)];
      [left; exact E|].
    right. exists tradeID, trade. eexists. eexists.
    split; [exact Ht|]. split; [|split; [|exact E]]; [reflexivity|].
    intros k v. apply unindexOrders_lookup_inv. }
  intros H. destruct H as [s config w | s tradeID orderID w | s tradeID reason w].
  - unfold InitializeTrade. run.
    destruct (fst (ExecuteMarketOrder _ w)); cbn [fst snd]; [|left; reflexivity].
    right. left. eexists. reflexivity.
  - unfold ProcessOrderExecution.
    destruct (trades s !! tradeID) as [trade|] eqn:Ht; [|left; reflexivity].
    destruct (is_take_profit trade orderID).
    + destruct (F tradeID TradeStatusCompleted w) as [E|E]; [left | right; right]; exact E.
    + destruct (find_dca orderID (Trade.DCAOrders trade) 0) as [i|]; [|left; reflexivity].
      run. right. right. exists tradeID, trade. eexists. eexists.
      split; [exact Ht|]. split; [|split; [|reflexivity]].
      * apply (handleDCAExecution_identity trade i w).
      * auto.
  - unfold CloseTrade. destruct (trades s !! tradeID); [|left; reflexivity].
    destruct (F tradeID TradeStatusCancelled w) as [E|E]; [left | right; right]; exact E.
Qed.

Lemma step_preserves (s s' : TradeService) :
  step s s' ->
  keyed_by_id s /\ index_names_trades s -> keyed_by_id s' /\ index_names_trades s'.
Proof.
  intros H [Hk Hi]. apply step_shape in H.
  destruct H as [-> | [(trade & ->) | (tradeID & old & new & idx & Ht & Hid & Hsub & ->)]];
    [tauto| |]; unfold keyed_by_id, index_names_trades in *; cbn [trades orderIndex].
  - split.
    + intros k t H. destruct (decide (Trade.ID trade = k)) as [D|D].
      * rewrite D, lookup_insert_eq in H. congruence.
      * rewrite lookup_insert_ne in H by exact D. eauto.
    + intros o id H. apply indexOrders_lookup_inv in H. destruct H as [-> | H].
      * rewrite lookup_insert_eq. eauto.
      * destruct (decide (Trade.ID trade = id)) as [D|D].
        -- rewrite D, lookup_insert_eq. eauto.
        -- rewrite lookup_insert_ne by exact D. eauto.
  - split.
    + intros k t H. destruct (decide (tradeID = k)) as [D|D].
      * rewrite D, lookup_insert_eq in H. injection H as <-.
        rewrite Hid. subst k. eauto.
      * rewrite lookup_insert_ne in H by exact D. eauto.
    + intros o id H. apply Hsub in H. destruct (decide (tradeID = id)) as [D|D].
      * rewrite D, lookup_insert_eq. eauto.
      * rewrite lookup_insert_ne by exact D. eauto.
Qed.

(** X7. In every registry that calls of [InitializeTrade],
    [ProcessOrderExecution] and [CloseTrade] lead to from
    [NewTradeManager], each trade is stored under its own id and each
    entry of the reverse index names a registered trade; so
    [FindTradeByOrderID] fails only on ids that the index does not hold,
    and the trade it returns has the id that the index gives. *)
Theorem reachable_registry_is_well_formed (s : TradeService) :
  reachable s ->
  keyed_by_id s /\ index_names_trades s
  /\ forall o id, orderIndex s !! o = Some id ->
       exists trade, FindTradeByOrderID s o = Ok trade /\ Trade.ID trade = id.
Proof.
  intros H.
  assert (W : keyed_by_id s /\ index_names_trades s).
  { induction H as [|s s' _ IH Hs].
    - split; intros ? ? E; cbn in E; rewrite lookup_empty in E; discriminate.
    - exact (step_preserves s s' Hs IH). }
  destruct W as [Hk Hi]. split; [exact Hk|]. split; [exact Hi|].
  intros o id Ho. destruct (Hi o id Ho) as [trade Ht]. exists trade.
  split; [|exact (Hk id trade Ht)].
  unfold FindTradeByOrderID. unfold UUID in *. rewrite Ho, Ht. reflexivity.
Qed.

(** X8. No call of the service removes a trade: a trade id that is
    registered stays registered after [InitializeTrade],
    [ProcessOrderExecution] and [CloseTrade], whatever they return. *)
Theorem registered_trades_are_never_removed (s s' : TradeService) (tradeID : UUID) :
  step s s' -> is_Some (trades s !! tradeID) -> is_Some (trades s' !! tradeID).
Proof.
  intros H Hs. apply step_shape in H.
  destruct H as [-> | [(trade & ->) | (k & old & new & idx & _ & _ & _ & ->)]];
    [exact Hs| |]; cbn [trades].
  - destruct (decide (Trade.ID trade = tradeID)) as [D|D].
    + rewrite D, lookup_insert_eq. eauto.
    + rewrite lookup_insert_ne by exact D. exact Hs.
  - destruct (decide (k = tradeID)) as [D|D].
    + rewrite D, lookup_insert_eq. eauto.
    + rewrite lookup_insert_ne by exact D. exact Hs.
Qed.

End MoreRegistry.

(** *** What finalization asks of the exchange *)

Lemma Mock_TerminateOrder_calls (symbol orderID : string) (w : Mock.world) :
  Mock.calls (snd (@TerminateOrder Mock.exchange symbol orderID w)) =
  (Mock.calls w
   ++ [Mock.CallCancel (ExchangeCancelRequest.mk symbol orderID (Mock.clock w))])%list.
Proof.
  unfold TerminateOrder. run. cbn [client_TerminateOrder time_Now Mock.exchange].
  unfold Mock.TerminateOrder, Mock.now. cbn [fst snd].
  destruct (Mock.reject_cancel _); reflexivity.
Qed.

Lemma Mock_cancel_new_orders_calls (l : list Order.t) (w : Mock.world) :
  exists cs,
    Mock.calls (snd (@cancel_new_orders Mock.exchange l w)) = (Mock.calls w ++ cs)%list
    /\ Notions.cancelled_ids cs = Notions.new_ids l
    /\ List.length cs = List.length (Notions.new_ids l).
Proof.
  revert w. induction l as [|o l IH]; intros w.
  - exists []. cbn. rewrite List.app_nil_r. auto.
  - cbn [cancel_new_orders]. unfold Notions.new_ids. cbn [List.filter].
    destruct (String.eqb (Order.Status o) OrderStatusNew).
    + run.
      destruct (IH (snd (@TerminateOrder Mock.exchange (Order.Symbol o) (Order.BybitID o) w)))
        as (cs & H1 & H2 & H3).
      eexists (_ :: cs). rewrite H1, Mock_TerminateOrder_calls, <- List.app_assoc.
      split; [reflexivity|]. cbn [List.map List.length].
      split; [|f_equal; exact H3].
      unfold Notions.cancelled_ids in *. cbn [List.map List.concat List.app].
      cbn [ExchangeCancelRequest.OrderID]. f_equal. exact H2.
    + apply IH.
Qed.

(** X9. On the scripted exchange, the finalization of a registered trade
    makes one cancellation call for each DCA order of the trade whose
    status is NEW, in their order, and no other call: the take profit is
    not cancelled, nor any DCA order in another status. It does so
    whether the exchange accepts the cancellations or not. *)
Theorem finalization_cancels_new_dca_orders_only (s : TradeService) (tradeID : UUID)
    (trade : Trade.t) (status : TradeStatus) (w : Mock.world) :
  trades s !! tradeID = Some trade ->
  exists cs,
    Mock.calls (snd (@finalizeTrade Mock.exchange s tradeID status w)) = (Mock.calls w ++ cs)%list
    /\ Notions.cancelled_ids cs = Notions.new_ids (Trade.DCAOrders trade)
    /\ List.length cs = List.length (Notions.new_ids (Trade.DCAOrders trade)).
Proof.
  intros Ht. unfold finalizeTrade. rewrite Ht. run.
  cbn [Trade.DCAOrders Trade.with_UpdatedAt Trade.with_Status].
  destruct (Mock_cancel_new_orders_calls (Trade.DCAOrders trade)
              (snd (@time_Now Mock.exchange w))) as (cs & H1 & H2 & H3).
  exists cs. rewrite H1. auto.
Qed.

(** *** Limit orders and prices *)

Lemma parse_checked_empty : is_Err (parse_checked "") = true.
Proof. vm_compute. reflexivity. Qed.

Section MoreOrders.
Context {X : Exchange}.



(** X11. When amount and price are numbers and the price is not zero or
    less, [ExecuteLimitOrder] makes exactly one call to the exchange, with
    the request's symbol, side, type and price text, time in force GTC,
    and as quantity the amount divided by the price, to 8 digits: the
    amount of the request is in quote currency. The outcome is the
    exchange's: its error wrapped, or the order built from its response. *)
Theorem limit_order_quantity_is_amount_over_price (req : CreateOrderRequest.t) (w : World)
    (usdt price : F64.float64) :
  parse_checked (CreateOrderRequest.Quantity req) = Ok usdt ->
  parse_checked (CreateOrderRequest.Price req) = Ok price ->
  F64.leb price F64.zero = false ->
  let sent :=
    ExchangeOrderRequest.mk (CreateOrderRequest.Symbol req) (CreateOrderRequest.Side req)
      (CreateOrderRequest.Type_ req) (F64.Sprintf8 (F64.div usdt price))
      (CreateOrderRequest.Price req) "GTC" (fst (time_Now w)) in
  let r := client_ExecuteOrder sent (snd (time_Now w)) in
  ExecuteLimitOrder req w =
  match fst r with
  | Err e => (Err (wrap "failed to execute limit order" e), snd r)
  | Ok resp =>
      (Ok (fst (buildOrderFromResponse resp (snd r))),
       snd (buildOrderFromResponse resp (snd r)))
  end.
Proof.
  intros Hq Hp Hle sent r. unfold ExecuteLimitOrder, calculateQuantityFromUSDT.
  destruct (String.eqb (CreateOrderRequest.Price req) "") eqn:E.
  - apply String.eqb_eq in E. rewrite E in Hp.
    pose proof parse_checked_empty as P. rewrite Hp in P. discriminate P.
  - rewrite Hq, Hp, Hle. run. subst r sent. unfold DefaultTimeInForce.
    destruct (client_ExecuteOrder _ _) as [[resp|e] w']; reflexivity.
Qed.

End MoreOrders.

(** X12. The two price computations know one side, BUY: any other side
    text, SELL, lower-case buy or anything else, is priced as SELL. And
    the DCA price of a side that is not BUY is the take-profit price of
    BUY, and conversely, whenever one of them is computed. *)
Theorem side_other_than_BUY_is_priced_as_SELL (p : string) (pct : F64.float64)
    (side : OrderSide) :
  side <> OrderSideBuy ->
  ComputeTakeProfitPrice p pct side = ComputeTakeProfitPrice p pct OrderSideSell
  /\ ComputeDCAPrice p pct side = ComputeDCAPrice p pct OrderSideSell
  /\ (forall x, ComputeDCAPrice p pct side = Ok x <->
                ComputeTakeProfitPrice p pct OrderSideBuy = Ok x)
  /\ (forall x, ComputeTakeProfitPrice p pct side = Ok x <->
                ComputeDCAPrice p pct OrderSideBuy = Ok x).
Proof.
  intros H. apply String.eqb_neq in H.
  unfold ComputeTakeProfitPrice, ComputeDCAPrice. rewrite H.
  change (String.eqb OrderSideSell OrderSideBuy) with false.
  change (String.eqb OrderSideBuy OrderSideBuy) with true.
  split; [reflexivity|]. split; [reflexivity|].
  destruct (String.eqb p ""); [split; intros x; split; discriminate|].
  destruct (F64.leb pct F64.zero); [split; intros x; split; discriminate|].
  destruct (parse_checked p); split; intros x; split; intros E; try discriminate; exact E.
Qed.

(** *** The volumes of the DCA grid *)

Lemma dca_requests_volume (n : nat) (i0 : Z) (cfg : TradeConfig.t) (p : F64.float64)
    (v : string) (k : nat) :
  (k < n)%nat ->
  exists r, dca_requests n i0 cfg p v !! k = Some r
            /\ CreateOrderRequest.Quantity r = Nat.iter (S k) (next_dca_volume cfg) v
            /\ CreateOrderRequest.Symbol r = TradeConfig.Symbol cfg
            /\ CreateOrderRequest.Side r = OrderSideBuy
            /\ CreateOrderRequest.Type_ r = OrderTypeLimit.
Proof.
  revert i0 p v k. induction n as [|n IH]; intros i0 p v k Hk; [lia|].
  cbn [dca_requests]. destruct k as [|k].
  - eexists. split; [reflexivity|]. cbn. auto.
  - destruct (IH (i0 + 1) (next_dca_price cfg i0 p) (next_dca_volume cfg v) k) as (r & Hr & Hq & Hrest);
      [lia|].
    exists r. split; [exact Hr|]. split; [|exact Hrest].
    rewrite Hq. rewrite (Nat.iter_succ_r (S k)). reflexivity.
Qed.

(** X13. The [i]-th request of the DCA grid (from 0) is a limit BUY of
    the configured symbol whose amount is the DCA volume to which the
    martingale step (times the multiplier, put to 8 digits) has been
    applied [i+1] times: the first rung is already multiplied once. With
    a multiplier that is not above zero every rung has the DCA volume as
    it is written in the configuration. *)
Theorem dca_grid_volumes (cfg : TradeConfig.t) (entryPrice : F64.float64) (i : nat) :
  (i < Z.to_nat (TradeConfig.DCACount cfg))%nat ->
  exists r,
    dca_requests (Z.to_nat (TradeConfig.DCACount cfg)) 0 cfg entryPrice
      (TradeConfig.DCAVolume cfg) !! i = Some r
    /\ CreateOrderRequest.Quantity r = Notions.ladder_dca_volume cfg i
    /\ CreateOrderRequest.Symbol r = TradeConfig.Symbol cfg
    /\ CreateOrderRequest.Side r = OrderSideBuy
    /\ CreateOrderRequest.Type_ r = OrderTypeLimit
    /\ (F64.gtb (TradeConfig.Martingale cfg) F64.zero = false ->
        CreateOrderRequest.Quantity r = TradeConfig.DCAVolume cfg)
    /\ (F64.gtb (TradeConfig.Martingale cfg) F64.zero = true ->
        Notions.ladder_dca_volume cfg 0 =
        F64.Sprintf8 (F64.mul (parse_unchecked (TradeConfig.DCAVolume cfg))
                        (TradeConfig.Martingale cfg))).
Proof.
  intros Hi.
  destruct (dca_requests_volume _ 0 cfg entryPrice (TradeConfig.DCAVolume cfg) i Hi)
    as (r & Hr & Hq & Hs & Hside & Ht).
  exists r. repeat (split; [assumption|]). split.
  - intros Hm. rewrite Hq. clear Hr Hq. induction i as [|i IH].
    + cbn. unfold next_dca_volume. rewrite Hm. reflexivity.
    + rewrite Nat.iter_succ. rewrite IH by lia. unfold next_dca_volume. rewrite Hm.
      reflexivity.
  - intros Hm. unfold Notions.ladder_dca_volume. cbn. unfold next_dca_volume.
    rewrite Hm. reflexivity.
Qed.

(** *** The legs of the average price *)

Lemma fold_accumulate_filled (l : list Order.t) (acc : F64.float64 * F64.float64) :
  List.fold_left accumulate_dca
    (List.filter (fun o => String.eqb (Order.Status o) OrderStatusFilled) l) acc =
  List.fold_left accumulate_dca l acc.
Proof.
  revert acc. induction l as [|o l IH]; intros acc; [reflexivity|].
  cbn [List.filter List.fold_left].
  destruct (String.eqb (Order.Status o) OrderStatusFilled) eqn:E.
  - cbn [List.fold_left]. apply IH.
  - rewrite IH. f_equal. unfold accumulate_dca. rewrite E. reflexivity.
Qed.

(** X14. [calculateNewAveragePrice] counts, besides the entry order, the
    DCA orders whose status is the text FILLED and no other: a trade and
    the same trade without its DCA orders in any other status (NEW,
    CANCELLED, the exchange's own spelling Filled, PartiallyFilled) give
    the same average and total, or the same error. *)
Theorem only_FILLED_orders_count (trade : Trade.t) :
  calculateNewAveragePrice
    (Trade.with_DCAOrders
       (List.filter (fun o => String.eqb (Order.Status o) OrderStatusFilled)
          (Trade.DCAOrders trade))
       trade) =
  calculateNewAveragePrice trade.
Proof.
  unfold calculateNewAveragePrice.
  cbn [Trade.with_DCAOrders Trade.EntryOrder Trade.DCAOrders].
  destruct (parse_checked (Order.Quantity (Trade.EntryOrder trade))); [|reflexivity].
  destruct (parse_checked (Order.Price (Trade.EntryOrder trade))); [|reflexivity].
  rewrite fold_accumulate_filled. reflexivity.
Qed.

(** *** The handlers *)

Lemma existsb_BybitID (orderID : string) (l : list Order.t) :
  List.existsb (fun o => String.eqb (Order.BybitID o) orderID) l = true <->
  In orderID (List.map Order.BybitID l).
Proof.
  rewrite List.existsb_exists, List.in_map_iff.
  split; intros (o & H1 & H2); exists o.
  - apply String.eqb_eq in H2. auto.
  - split; [exact H2 | apply String.eqb_eq; exact H1].
Qed.

Lemma held_ids_bool (trade : Trade.t) (orderID : string) :
  In orderID (Notions.held_ids trade) <->
  (String.eqb (Order.BybitID (Trade.EntryOrder trade)) orderID
   || is_take_profit trade orderID
   || List.existsb (fun o => String.eqb (Order.BybitID o) orderID)
        (Trade.DCAOrders trade))%bool = true.
Proof.
  unfold Notions.held_ids, is_take_profit. cbn [In]. rewrite List.in_app_iff.
  rewrite !Bool.orb_true_iff, existsb_BybitID, String.eqb_eq.
  destruct (Trade.TakeProfitOrder trade) as [tp|]; cbn [In].
  - rewrite String.eqb_eq. tauto.
  - split; [intros [H|[[]|H]]; auto | intros [[H|H]|H]; [auto | discriminate | auto]].
Qed.

Lemma determineOrderType_entry (trade : Trade.t) (orderID : string) :
  determineOrderType trade orderID = "entry" <->
  Order.BybitID (Trade.EntryOrder trade) = orderID.
Proof.
  unfold determineOrderType.
  destruct (String.eqb (Order.BybitID (Trade.EntryOrder trade)) orderID) eqn:E;
    [apply String.eqb_eq in E | apply String.eqb_neq in E].
  - tauto.
  - destruct (is_take_profit trade orderID);
      [|destruct (List.existsb _ (Trade.DCAOrders trade))];
      (split; [discriminate | contradiction]).
Qed.

(** X15. [determineOrderType] answers unknown exactly for the order ids
    that the trade does not hold, and entry exactly for the id of the
    entry order, also when the take profit or a DCA order has the same
    id. *)
Theorem determineOrderType_classifies (trade : Trade.t) (orderID : string) :
  (determineOrderType trade orderID = "unknown" <-> ~ In orderID (Notions.held_ids trade))
  /\ (determineOrderType trade orderID = "entry" <->
      Order.BybitID (Trade.EntryOrder trade) = orderID)
  /\ In (determineOrderType trade orderID) ["entry"; "take_profit"; "dca"; "unknown"].
Proof.
  rewrite held_ids_bool. unfold determineOrderType.
  destruct (String.eqb (Order.BybitID (Trade.EntryOrder trade)) orderID) eqn:E;
    [apply String.eqb_eq in E | apply String.eqb_neq in E];
    destruct (is_take_profit trade orderID);
    destruct (List.existsb _ (Trade.DCAOrders trade));
    cbn; (split; [|split]).
  all: try (split; intros H;
            first [discriminate H | discriminate | reflexivity | exact E | contradiction
                  | exfalso; apply H; reflexivity]).
  all: repeat (first [left; reflexivity | right]).
Qed.

Section MoreHandlers.
Context {X : Exchange}.
Variable uuid_Parse : string -> result UUID.

(** X16. A handler that answers 400 has touched nothing: after such an
    answer of [InitializeTrade], [ProcessOrderExecution], [CloseTrade] or
    [WebhookOrderUpdate] the registry and the world are as before. For the
    order-execution handler the answer is 400 exactly when the trade id is
    empty or malformed, the body is no JSON, or the order id is empty. *)
Theorem bad_request_touches_nothing (s : TradeService) (w : World) (tradeIDStr : string)
    (config : result TradeConfig.t) (bound : result string) (hook : result WebhookData) :
  (StatusCode (fst (fst (Handler_InitializeTrade s config w))) = 400 ->
   snd (fst (Handler_InitializeTrade s config w)) = s
   /\ snd (Handler_InitializeTrade s config w) = w)
  /\ (reply_status (fst (fst (Handler_ProcessOrderExecution uuid_Parse s tradeIDStr bound w)))
      = 400 ->
      snd (fst (Handler_ProcessOrderExecution uuid_Parse s tradeIDStr bound w)) = s
      /\ snd (Handler_ProcessOrderExecution uuid_Parse s tradeIDStr bound w) = w)
  /\ (reply_status (fst (fst (Handler_CloseTrade uuid_Parse s tradeIDStr bound w))) = 400 ->
      snd (fst (Handler_CloseTrade uuid_Parse s tradeIDStr bound w)) = s
      /\ snd (Handler_CloseTrade uuid_Parse s tradeIDStr bound w) = w)
  /\ (reply_status (fst (fst (WebhookOrderUpdate s hook w))) = 400 ->
      snd (fst (WebhookOrderUpdate s hook w)) = s /\ snd (WebhookOrderUpdate s hook w) = w)
  /\ (reply_status (fst (fst (Handler_ProcessOrderExecution uuid_Parse s tradeIDStr bound w)))
      = 400 <->
      tradeIDStr = "" \/ is_Err (uuid_Parse tradeIDStr) = true
      \/ is_Err bound = true \/ bound = Ok "").
Proof.
  split; [|split; [|split; [|split]]].
  - unfold Handler_InitializeTrade. destruct config as [config|e]; [|split; reflexivity].
    destruct (_ || _ || _)%bool; [split; reflexivity|].
    destruct (_ || _ || _)%bool; [split; reflexivity|].
    run. destruct (fst (fst (InitializeTrade s _ w))); cbn; discriminate.
  - unfold Handler_ProcessOrderExecution.
    destruct (String.eqb tradeIDStr ""); [split; reflexivity|].
    destruct (uuid_Parse tradeIDStr) as [tradeID|e]; [|split; reflexivity].
    destruct bound as [orderID|e]; [|split; reflexivity].
    destruct (String.eqb orderID ""); [split; reflexivity|].
    run. destruct (fst (fst (ProcessOrderExecution s tradeID orderID w))); cbn; discriminate.
  - unfold Handler_CloseTrade.
    destruct (String.eqb tradeIDStr ""); [split; reflexivity|].
    destruct (uuid_Parse tradeIDStr) as [tradeID|e]; [|split; reflexivity].
    destruct bound as [given|e]; [|split; reflexivity].
    run. destruct (fst (fst (CloseTrade s tradeID _ w))); cbn; discriminate.
  - unfold WebhookOrderUpdate. destruct hook as [data|e]; [|split; reflexivity].
    destruct (String.eqb (wh_Status data) OrderStatusBybitFilled); [|cbn; discriminate].
    destruct (FindTradeByOrderID s (wh_OrderID data)) as [trade|e]; [|cbn; discriminate].
    destruct (String.eqb (determineOrderType trade (wh_OrderID data)) "entry");
      cbn; discriminate.
  - unfold Handler_ProcessOrderExecution.
    destruct (String.eqb tradeIDStr "") eqn:E1.
    { apply String.eqb_eq in E1. cbn. tauto. }
    apply String.eqb_neq in E1.
    destruct (uuid_Parse tradeIDStr) as [tradeID|e].
    2:{ cbn. tauto. }
    destruct bound as [orderID|e].
    2:{ cbn. tauto. }
    destruct (String.eqb orderID "") eqn:E2.
    { apply String.eqb_eq in E2. subst orderID. cbn. tauto. }
    apply String.eqb_neq in E2. run.
    destruct (fst (fst (ProcessOrderExecution s tradeID orderID w))); cbn;
      (split; [discriminate|]);
      intros [H|[H|[H|H]]]; try contradiction; try discriminate;
      injection H as H; contradiction.
Qed.

(** X17. A trade that the handler has created (201) is read back by
    [GetTrade] under its id as it was returned; [CloseTrade] of the
    handler then answers 200, whatever the reason given and whatever the
    exchange does with the cancellations, and [GetTrade] afterwards shows
    the same trade with status CANCELLED. *)
Theorem created_trade_is_read_and_closed (s : TradeService) (config : TradeConfig.t)
    (w : World) (trade : Trade.t) (tradeIDStr : string) :
  fst (fst (Handler_InitializeTrade s (Ok config) w)) = mkResponse 201 (BodyTrade trade) ->
  tradeIDStr <> "" ->
  uuid_Parse tradeIDStr = Ok (Trade.ID trade) ->
  let s1 := snd (fst (Handler_InitializeTrade s (Ok config) w)) in
  Handler_GetTrade uuid_Parse s1 tradeIDStr = ReplyTrade 200 trade
  /\ forall (reason : string) (w' : World),
       let c := Handler_CloseTrade uuid_Parse s1 tradeIDStr (Ok reason) w' in
       fst (fst c) = ReplyMessage "Trade closed successfully"
       /\ Handler_GetTrade uuid_Parse (snd (fst c)) tradeIDStr =
          ReplyTrade 200
            (Trade.with_UpdatedAt (fst (time_Now w'))
               (Trade.with_Status TradeStatusCancelled trade)).
Proof.
  intros H Hne Hparse s1.
  assert (Hreg : trades s1 !! Trade.ID trade = Some trade).
  { subst s1. revert H. unfold Handler_InitializeTrade.
    destruct (_ || _ || _)%bool; [discriminate|].
    destruct (_ || _ || _)%bool; [discriminate|].
    run.
    match goal with
    | |- context [InitializeTrade s ?c w] =>
        pose proof (InitializeTrade_indexed s c w) as I;
        destruct (fst (fst (InitializeTrade s c w))) as [t|e]
    end; cbn [fst snd]; [|discriminate].
    intros E. injection E as <-. apply (I t eq_refl). }
  clearbody s1. apply String.eqb_neq in Hne. split.
  - unfold Handler_GetTrade, GetTrade. rewrite Hne, Hparse. unfold UUID in *.
    rewrite Hreg. reflexivity.
  - intros reason w' c. subst c. unfold Handler_CloseTrade. rewrite Hne, Hparse. run.
    set (given := if String.eqb reason "" then "Manual close" else reason).
    unfold CloseTrade. unfold UUID in *. rewrite Hreg.
    destruct (finalizeTrade_registered s1 (Trade.ID trade) trade TradeStatusCancelled w' Hreg)
      as (F1 & F2 & _).
    unfold UUID in *. rewrite F1. cbn [fst snd]. split; [reflexivity|].
    unfold Handler_GetTrade, GetTrade. rewrite Hne, Hparse. unfold UUID in *.
    rewrite F2. reflexivity.
Qed.

(** X18. [WebhookOrderUpdate] answers 400 Invalid JSON, touching
    nothing, to a body that [bindJSON] refuses (text that is no JSON, or
    JSON with a field that is no text), and 200 to every body that binds,
    and to no other. On a bound body it acts only on the status text
    Filled: any other status, the domain's own FILLED among them, changes
    nothing. On Filled, an order id that the index does not hold is
    answered by Order not found, the fill of an entry order changes
    nothing, and any other order is handed to [ProcessOrderExecution],
    whose error, if any, is dropped. *)
Theorem webhook_acts_on_Filled_only (s : TradeService) (bound : result WebhookData)
    (w : World) :
  let r := WebhookOrderUpdate s bound w in
  (reply_status (fst (fst r)) = 200 <-> is_Err bound = false)
  /\ match bound with
     | Err _ => r = (ReplyError 400 "Invalid JSON", s, w)
     | Ok data =>
         reply_status (fst (fst r)) = 200
         /\ (wh_Status data <> "Filled" -> r = (ReplyMessage "Webhook processed", s, w))
         /\ (wh_Status data = OrderStatusFilled ->
             r = (ReplyMessage "Webhook processed", s, w))
         /\ (wh_Status data = "Filled" ->
             match FindTradeByOrderID s (wh_OrderID data) with
             | Err _ => r = (ReplyMessage "Order not found", s, w)
             | Ok trade =>
                 if String.eqb (Order.BybitID (Trade.EntryOrder trade)) (wh_OrderID data)
                 then r = (ReplyMessage "Webhook processed", s, w)
                 else r = (ReplyMessage "Webhook processed",
                           snd (fst (ProcessOrderExecution s (Trade.ID trade)
                                       (wh_OrderID data) w)),
                           snd (ProcessOrderExecution s (Trade.ID trade)
                                  (wh_OrderID data) w))
             end)
     end.
Proof.
  cbv zeta. destruct bound as [data|e].
  2:{ split; [|reflexivity]. cbn. split; discriminate. }
  assert (S200 : reply_status (fst (fst (WebhookOrderUpdate s (Ok data) w))) = 200).
  { unfold WebhookOrderUpdate.
    destruct (String.eqb (wh_Status data) OrderStatusBybitFilled); [|reflexivity].
    destruct (FindTradeByOrderID s (wh_OrderID data)) as [trade|e]; [|reflexivity].
    destruct (String.eqb (determineOrderType trade (wh_OrderID data)) "entry"); reflexivity. }
  split; [split; [reflexivity | intros _; exact S200]|].
  split; [exact S200|]. unfold WebhookOrderUpdate. split; [|split].
  - intros H. apply String.eqb_neq in H. unfold OrderStatusBybitFilled. rewrite H.
    reflexivity.
  - intros H. rewrite H. reflexivity.
  - intros H. rewrite H. change (String.eqb "Filled" OrderStatusBybitFilled) with true.
    cbv iota.
    destruct (FindTradeByOrderID s (wh_OrderID data)) as [trade|e]; [|reflexivity].
    pose proof (determineOrderType_entry trade (wh_OrderID data)) as Hentry.
    destruct (String.eqb (Order.BybitID (Trade.EntryOrder trade)) (wh_OrderID data)) eqn:E.
    + apply String.eqb_eq in E. apply Hentry in E. rewrite E. reflexivity.
    + destruct (String.eqb (determineOrderType trade (wh_OrderID data)) "entry") eqn:T.
      * apply String.eqb_eq in T. apply Hentry in T. apply String.eqb_neq in E.
        contradiction.
      * reflexivity.
Qed.

End MoreHandlers.

(** *** The canonical query string *)

Lemma String_leb_trans (a b c : string) :
  String.leb a b = true -> String.leb b c = true -> String.leb a c = true.
Proof.
  unfold String.leb. revert b c.
  induction a as [|x a IH]; intros [|y b] [|z c]; cbn; try congruence.
  unfold Ascii.compare. intros H1 H2.
  destruct (N.compare_spec (N_of_ascii x) (N_of_ascii y)) as [E1|L1|G1];
    try discriminate H1;
    destruct (N.compare_spec (N_of_ascii y) (N_of_ascii z)) as [E2|L2|G2];
    try discriminate H2.
  - rewrite E1, E2, N.compare_refl. exact (IH b c H1 H2).
  - rewrite E1. apply N.compare_lt_iff in L2. rewrite L2. reflexivity.
  - rewrite <- E2. apply N.compare_lt_iff in L1. rewrite L1. reflexivity.
  - assert (L : (N_of_ascii x < N_of_ascii z)%N) by lia.
    apply N.compare_lt_iff in L. rewrite L. reflexivity.
Qed.

Lemma String_leb_flip (x y : string) :
  x <> y -> String.leb y x = negb (String.leb x y).
Proof.
  intros H. destruct (String.leb x y) eqn:E1; destruct (String.leb y x) eqn:E2;
    try reflexivity.
  - exfalso. apply H. apply String.leb_antisym; assumption.
  - destruct (String.leb_total x y); congruence.
Qed.

Lemma insert_sorted_comm (a b : string * list string) (l : Url.Values) :
  fst a <> fst b ->
  Url.insert_sorted a (Url.insert_sorted b l) = Url.insert_sorted b (Url.insert_sorted a l).
Proof.
  intros Hab. pose proof (String_leb_flip _ _ Hab) as F.
  induction l as [|q l IH]; cbn [Url.insert_sorted].
  - rewrite F. destruct (String.leb (fst a) (fst b)); reflexivity.
  - destruct (String.leb (fst b) (fst q)) eqn:Eb;
      destruct (String.leb (fst a) (fst q)) eqn:Ea;
      cbn [Url.insert_sorted]; rewrite ?Ea, ?Eb, ?F.
    + destruct (String.leb (fst a) (fst b)); reflexivity.
    + destruct (String.leb (fst a) (fst b)) eqn:E; [|reflexivity].
      rewrite (String_leb_trans _ _ _ E Eb) in Ea. discriminate Ea.
    + destruct (String.leb (fst a) (fst b)) eqn:E; [reflexivity|]. cbn [negb].
      assert (E' : String.leb (fst b) (fst a) = true) by (rewrite F; reflexivity).
      rewrite (String_leb_trans _ _ _ E' Ea) in Eb. discriminate Eb.
    + rewrite IH. reflexivity.
Qed.

Lemma sort_keys_permutation (l l' : Url.Values) :
  Permutation l l' -> NoDup (List.map fst l) -> Url.sort_keys l = Url.sort_keys l'.
Proof.
  unfold Url.sort_keys. induction 1 as [|x l l' _ IH|x y l|l l' l'' H1 IH1 H2 IH2]; intros N.
  - reflexivity.
  - cbn [List.fold_right]. rewrite IH; [reflexivity|]. cbn in N. inversion N; assumption.
  - cbn [List.fold_right]. apply insert_sorted_comm.
    cbn in N. inversion N as [|? ? Hin _]; subst. intros E. apply Hin. left. symmetry. exact E.
  - rewrite IH1 by exact N. apply IH2.
    apply (Permutation_NoDup (Permutation_map fst H1)). exact N.
Qed.

Lemma filter_other_keys (k : string) (v : Url.Values) :
  ~ In k (List.map fst v) ->
  List.filter (fun p => negb (String.eqb (fst p) k)) v = v.
Proof.
  induction v as [|p v IH]; intros H; [reflexivity|]. cbn [List.filter List.map In] in *.
  destruct (String.eqb (fst p) k) eqn:E.
  - apply String.eqb_eq in E. tauto.
  - cbn [negb]. rewrite IH by tauto. reflexivity.
Qed.

Section MoreEncoding.
Context {E : Bybit.Encoding}.

Lemma kept_entry_keys (kv : string * Bybit.JSONValue) (k : string) :
  In k (List.map fst (Notions.kept_entry kv)) -> k = fst kv.
Proof.
  unfold Notions.kept_entry.
  destruct (snd kv) as [|s|f|b|r]; [| destruct (String.eqb s "") | | |]; cbn;
    first [intros [H|[]]; symmetry; exact H | intros []].
Qed.

Lemma kept_keys (m : list (string * Bybit.JSONValue)) (k : string) :
  In k (List.map fst (List.flat_map Notions.kept_entry m)) -> In k (List.map fst m).
Proof.
  induction m as [|kv m IH]; cbn [List.flat_map List.map In]; [tauto|].
  rewrite List.map_app, List.in_app_iff. intros [H|H].
  - left. symmetry. apply kept_entry_keys. exact H.
  - right. apply IH. exact H.
Qed.

Lemma kept_keys_NoDup (m : list (string * Bybit.JSONValue)) :
  NoDup (List.map fst m) -> NoDup (List.map fst (List.flat_map Notions.kept_entry m)).
Proof.
  induction m as [|kv m IH]; intros N; cbn [List.flat_map List.map] in *; [constructor|].
  inversion N as [|? ? Hin Hm]; subst. specialize (IH Hm).
  rewrite List.map_app.
  remember (Notions.kept_entry kv) as ke eqn:Hke. unfold Notions.kept_entry in Hke.
  destruct (snd kv) as [|s|f|b|r]; [| destruct (String.eqb s "") | | |]; subst ke;
    first [exact IH
          | cbn; constructor; [intros H; apply Hin, kept_keys; exact H | exact IH]].
Qed.

Lemma values_loop (m : list (string * Bybit.JSONValue)) (acc : Url.Values) :
  NoDup (List.map fst m) ->
  (forall k, In k (List.map fst m) -> ~ In k (List.map fst acc)) ->
  List.fold_left
    (fun values kv =>
       match snd kv with
       | Bybit.JNull => values
       | Bybit.JString s =>
           if String.eqb s "" then values else Url.Set_ (fst kv) s values
       | Bybit.JNumber f => Url.Set_ (fst kv) (Bybit.FormatFloat_f f) values
       | Bybit.JBool b => Url.Set_ (fst kv) (if b then "true" else "false") values
       | Bybit.JOther r => Url.Set_ (fst kv) r values
       end)
    m acc =
  (List.rev (List.flat_map Notions.kept_entry m) ++ acc)%list.
Proof.
  revert acc. induction m as [|kv m IH]; intros acc N D; [reflexivity|].
  cbn [List.fold_left List.flat_map]. cbn [List.map] in N, D.
  inversion N as [|? ? Hin Hm]; subst.
  assert (Hk : ~ In (fst kv) (List.map fst acc)) by (apply D; left; reflexivity).
  assert (S : forall v, Url.Set_ (fst kv) v acc = (fst kv, [v]) :: acc).
  { intros v. unfold Url.Set_. rewrite filter_other_keys by exact Hk. reflexivity. }
  assert (G : forall acc',
            (acc' = acc \/ exists v, acc' = (fst kv, [v]) :: acc) ->
            forall k, In k (List.map fst m) -> ~ In k (List.map fst acc')).
  { intros acc' [-> | (v & ->)] k Hkm.
    - apply D. right. exact Hkm.
    - cbn [List.map In fst]. intros [<-|H]; [contradiction|].
      revert H. apply D. right. exact Hkm. }
  rewrite List.rev_app_distr, <- List.app_assoc.
  remember (Notions.kept_entry kv) as ke eqn:Hke. unfold Notions.kept_entry in Hke.
  destruct (snd kv) as [|s|f|b|r]; [| destruct (String.eqb s "") | | |]; subst ke.
  - rewrite IH; [reflexivity | exact Hm | apply G; left; reflexivity].
  - rewrite IH; [reflexivity | exact Hm | apply G; left; reflexivity].
  - rewrite S, IH; [reflexivity | exact Hm | apply G; right; eexists; reflexivity].
  - rewrite S, IH; [reflexivity | exact Hm | apply G; right; eexists; reflexivity].
  - rewrite S, IH; [reflexivity | exact Hm | apply G; right; eexists; reflexivity].
  - rewrite S, IH; [reflexivity | exact Hm | apply G; right; eexists; reflexivity].
Qed.

(** X19. The query string that [structToURLValues] and [Encode] make of
    a decoded object does not depend on the order in which the map hands
    out its entries: two orders of the same entries, with one entry per
    key, give the same string. The parameters are the entries that are not
    null and not an empty text, sorted by key. *)
Theorem query_string_ignores_map_order (m m' : list (string * Bybit.JSONValue)) :
  NoDup (List.map fst m) ->
  Permutation m m' ->
  Url.Encode (Notions.values_of m) = Url.Encode (Notions.values_of m')
  /\ Url.sort_keys (Notions.values_of m) =
     Url.sort_keys (List.flat_map Notions.kept_entry m)
  /\ forall v data,
       Bybit.json_Marshal v = Ok data -> Bybit.json_Unmarshal_object data = Ok m ->
       Bybit.structToURLValues v = Ok (Notions.values_of m).
Proof.
  intros N P.
  assert (N' : NoDup (List.map fst m'))
    by (apply (Permutation_NoDup (Permutation_map fst P)); exact N).
  assert (V : forall l, NoDup (List.map fst l) ->
              Notions.values_of l = List.rev (List.flat_map Notions.kept_entry l)).
  { intros l Hl. unfold Notions.values_of. rewrite values_loop; [|exact Hl|intros k _ []].
    apply List.app_nil_r. }
  assert (R : forall l, NoDup (List.map fst l) ->
              Url.sort_keys (Notions.values_of l) =
              Url.sort_keys (List.flat_map Notions.kept_entry l)).
  { intros l Hl. rewrite (V l Hl). apply sort_keys_permutation.
    - apply Permutation_sym, Permutation_rev.
    - apply (Permutation_NoDup (Permutation_map fst (Permutation_rev _))).
      apply kept_keys_NoDup. exact Hl. }
  split; [|split].
  - unfold Url.Encode. rewrite (R m N), (R m' N'). do 3 f_equal.
    apply sort_keys_permutation.
    + apply Permutation_flat_map. exact P.
    + apply kept_keys_NoDup. exact N.
  - exact (R m N).
  - intros v data Hd Hm. unfold Bybit.structToURLValues. rewrite Hd, Hm. reflexivity.
Qed.

End MoreEncoding.

(** *** Escaping and signing *)

Lemma QueryEscape_cons (c : ascii) (t : string) :
  Url.QueryEscape (String c t) = Url.QueryEscape (String c "") ++ Url.QueryEscape t.
Proof.
  cbn [Url.QueryEscape]. destruct (Chars.eqb c " "); [reflexivity|].
  destruct (Url.shouldEscape c); reflexivity.
Qed.

Lemma list_ascii_of_string_app (a b : string) :
  list_ascii_of_string (a ++ b) = (list_ascii_of_string a ++ list_ascii_of_string b)%list.
Proof.
  induction a as [|c a IH]; [reflexivity|].
  change (list_ascii_of_string (String c a ++ b))
    with (c :: list_ascii_of_string (a ++ b)).
  rewrite IH. reflexivity.
Qed.

Lemma QueryEscape_one_safe (c : ascii) :
  List.forallb Notions.query_safe (list_ascii_of_string (Url.QueryEscape (String c ""))) = true.
Proof.
  destruct c as [[] [] [] [] [] [] [] []]; vm_compute; reflexivity.
Qed.

(** X20. The output of [QueryEscape] is made of letters, digits, the
    four marks that need no escaping, the plus sign and the percent sign,
    whatever the input: no separator of a query (ampersand, equals sign)
    and no space survives escaping. *)
Theorem QueryEscape_output_is_safe (s : string) :
  List.forallb Notions.query_safe (list_ascii_of_string (Url.QueryEscape s)) = true
  /\ ~ In "&"%char (list_ascii_of_string (Url.QueryEscape s))
  /\ ~ In "="%char (list_ascii_of_string (Url.QueryEscape s))
  /\ ~ In " "%char (list_ascii_of_string (Url.QueryEscape s)).
Proof.
  assert (H : List.forallb Notions.query_safe (list_ascii_of_string (Url.QueryEscape s))
              = true).
  { induction s as [|c s IH]; [reflexivity|].
    rewrite QueryEscape_cons, list_ascii_of_string_app, List.forallb_app, IH.
    rewrite QueryEscape_one_safe. reflexivity. }
  split; [exact H|].
  rewrite List.forallb_forall in H.
  repeat split; intros Hin; apply H in Hin; vm_compute in Hin; discriminate Hin.
Qed.

Lemma be_bytes_length (n : nat) (x : N) : List.length (Sha256.be_bytes n x) = n.
Proof. induction n as [|n IH]; cbn [Sha256.be_bytes List.length]; congruence. Qed.

Lemma be_bytes_small (n : nat) (x : N) :
  List.Forall (fun b => (b < 256)%N) (Sha256.be_bytes n x).
Proof.
  induction n as [|n IH]; cbn [Sha256.be_bytes]; constructor; [|exact IH].
  change 255%N with (N.ones 8). rewrite N.land_ones. apply N.mod_lt. discriminate.
Qed.

Lemma fold_round_length (l : list (N * N)) (st : list N) :
  List.length st = 8%nat -> List.length (List.fold_left Sha256.round l st) = 8%nat.
Proof.
  revert st. induction l as [|kw l IH]; intros st H; [exact H|].
  cbn [List.fold_left]. apply IH. reflexivity.
Qed.

Lemma compress_length (h : list N) (block : Sha256.bytes) :
  List.length h = 8%nat -> List.length (Sha256.compress h block) = 8%nat.
Proof.
  intros H. unfold Sha256.compress.
  rewrite List.length_map, List.length_combine, fold_round_length by exact H.
  rewrite H. reflexivity.
Qed.

Lemma blocks_length (n : nat) (h : list N) (bs : Sha256.bytes) :
  List.length h = 8%nat -> List.length (Sha256.blocks n h bs) = 8%nat.
Proof.
  revert h bs. induction n as [|n IH]; intros h bs H; [exact H|].
  cbn [Sha256.blocks]. apply IH, compress_length, H.
Qed.

Lemma words_bytes (ws : list N) :
  List.length (List.concat (List.map (Sha256.be_bytes 4) ws)) = (4 * List.length ws)%nat
  /\ List.Forall (fun b => (b < 256)%N) (List.concat (List.map (Sha256.be_bytes 4) ws)).
Proof.
  induction ws as [|x ws [IH1 IH2]]; [split; [reflexivity | constructor]|].
  cbn [List.map List.concat]. split.
  - rewrite List.length_app, be_bytes_length, IH1. cbn [List.length]. lia.
  - apply List.Forall_app. split; [apply be_bytes_small | exact IH2].
Qed.

Lemma sum256_bytes (msg : Sha256.bytes) :
  List.length (Sha256.sum256 msg) = 32%nat
  /\ List.Forall (fun b => (b < 256)%N) (Sha256.sum256 msg).
Proof.
  unfold Sha256.sum256.
  destruct (words_bytes
              (Sha256.blocks (List.length (Sha256.pad msg) / 64) Sha256.H0 (Sha256.pad msg)))
    as [H1 H2].
  split; [|exact H2]. cbv zeta. rewrite H1, blocks_length; reflexivity.
Qed.

Lemma hex_digit_lower (n : N) :
  (n < 16)%N -> Notions.lower_hex (Sha256.hex_digit n) = true.
Proof.
  intros H. rewrite <- (N2Nat.id n).
  assert (K : (N.to_nat n < 16)%nat) by lia. clear H.
  destruct (N.to_nat n) as [|k]; [vm_compute; reflexivity|].
  do 15 (destruct k as [|k]; [vm_compute; reflexivity|]). lia.
Qed.

Lemma hex_chars (bs : Sha256.bytes) :
  List.Forall (fun b => (b < 256)%N) bs ->
  String.length (Sha256.hex bs) = (2 * List.length bs)%nat
  /\ List.forallb Notions.lower_hex (list_ascii_of_string (Sha256.hex bs)) = true.
Proof.
  unfold Sha256.hex. intros H.
  assert (L : forall l, String.length (string_of_list_ascii l) = List.length l).
  { induction l as [|c l IH]; cbn; congruence. }
  rewrite L, list_ascii_of_string_of_list_ascii. clear L.
  induction H as [|b bs Hb _ [IH1 IH2]]; [split; reflexivity|].
  cbn [List.map List.concat List.app List.length List.forallb]. split.
  - rewrite IH1. lia.
  - rewrite IH2, !hex_digit_lower; [reflexivity | |].
    + apply N.mod_lt. discriminate.
    + apply N.Div0.div_lt_upper_bound. exact Hb.
Qed.

(** X21. Whatever the secret and the text to sign, [createSignature]
    returns 64 characters, each a digit or a letter from a to f: the
    lower-case hexadecimal form of a 32-byte digest. *)
Theorem createSignature_is_64_lower_hex (c : Bybit.Client) (queryString : string) :
  String.length (Bybit.createSignature c queryString) = 64%nat
  /\ List.forallb Notions.lower_hex
       (list_ascii_of_string (Bybit.createSignature c queryString)) = true.
Proof.
  unfold Bybit.createSignature, Sha256.hmac. cbv zeta.
  match goal with |- context [Sha256.hex (Sha256.sum256 ?m)] =>
    destruct (sum256_bytes m) as [H1 H2];
    destruct (hex_chars (Sha256.sum256 m) H2) as [H3 H4]
  end.
  rewrite H3, H1. split; [reflexivity | exact H4].
Qed.

Lemma string_app_assoc (a b c : string) : (a ++ b) ++ c = a ++ b ++ c.
Proof.
  induction a as [|x a IH]; [reflexivity|].
  change ((String x a ++ b) ++ c) with (String x ((a ++ b) ++ c)).
  rewrite IH. reflexivity.
Qed.

Lemma QueryEscape_digits (d : Decimal.uint) :
  Url.QueryEscape (NilEmpty.string_of_uint d) = NilEmpty.string_of_uint d.
Proof.
  induction d as [|d IH|d IH|d IH|d IH|d IH|d IH|d IH|d IH|d IH|d IH];
    [reflexivity|..]; cbn [NilEmpty.string_of_uint];
    rewrite QueryEscape_cons, IH; reflexivity.
Qed.

Lemma QueryEscape_FormatInt (z : Z) : Url.QueryEscape (Bybit.FormatInt z) = Bybit.FormatInt z.
Proof.
  assert (D : forall x, Url.QueryEscape (F64.dec x) = F64.dec x).
  { intros x. unfold F64.dec, NilZero.string_of_uint.
    destruct (N.to_uint (Z.to_N x)); [reflexivity | ..]; apply QueryEscape_digits. }
  unfold Bybit.FormatInt. destruct (z <? 0)%Z; [|apply D].
  change ("-" ++ F64.dec (- z)) with (String "-" (F64.dec (- z))).
  rewrite QueryEscape_cons, D. reflexivity.
Qed.

(** X22. For every client, time, symbol and order id, the request of
    [FetchOrderInfo] is a GET without body whose query is
    orderId, symbol, timestamp in that order, each value escaped, followed
    by the signature of exactly that query; it carries three headers, the
    key, the signature and the timestamp, and no receive window. *)
Theorem FetchOrderInfo_request_shape (c : Bybit.Client) (timestamp : Z)
    (symbol orderID : string) :
  let q := "orderId=" ++ Url.QueryEscape orderID ++ "&symbol=" ++ Url.QueryEscape symbol
           ++ "&timestamp=" ++ Bybit.FormatInt timestamp in
  let r := Bybit.FetchOrderInfo_request c timestamp symbol orderID in
  Url.Encode (Bybit.FetchOrderInfo_params timestamp symbol orderID) = q
  /\ Bybit.req_method r = "GET"
  /\ Bybit.req_body r = None
  /\ Bybit.req_url r =
     Bybit.getBaseURL c ++ "/v5/order/realtime?" ++ q ++ "&signature="
     ++ Bybit.createSignature c q
  /\ Bybit.req_headers r =
     [("X-BAPI-API-KEY", Bybit.apiKey c); ("X-BAPI-SIGN", Bybit.createSignature c q);
      ("X-BAPI-TIMESTAMP", Bybit.FormatInt timestamp)]
  /\ Bybit.Header_Get "X-BAPI-RECV-WINDOW" (Bybit.req_headers r) = None.
Proof.
  intros q r.
  assert (Hq : Url.Encode (Bybit.FetchOrderInfo_params timestamp symbol orderID) = q).
  { unfold q. rewrite <- (QueryEscape_FormatInt timestamp).
    reflexivity. }
  unfold r, Bybit.FetchOrderInfo_request. cbv zeta. rewrite Hq.
  split; [reflexivity|]. split; [reflexivity|]. split; [reflexivity|].
  split; [|split; reflexivity].
  cbn [Bybit.req_url]. rewrite !string_app_assoc. reflexivity.
Qed.

Section MoreRequests.
Context {E : Bybit.Encoding}.

(** X23. The requests of [ExecuteOrder] and [TerminateOrder] are both a
    POST to the bare endpoint with the marshalled payload as body, signed
    over timestamp, key and that body, with five headers: key, signature,
    timestamp, a receive window of 5000 and the JSON content type. The
    timestamp inside the payload is the one the caller read; the one that
    is signed and sent as header is read afterwards. A payload that cannot
    be marshalled is the only failure, wrapped twice. *)
Theorem post_requests_are_signed_json (c : Bybit.Client) (now_req now_sign : Z)
    (order : ExchangeOrderRequest.t) (cancel : ExchangeCancelRequest.t) :
  let posted (endpoint context : string) (payload : Bybit.Payload) :=
    match Bybit.json_Marshal payload with
    | Err e => Err (wrap context (wrap "failed to marshal payload" e))
    | Ok body =>
        Ok (Bybit.mkRequest "POST" (Bybit.getBaseURL c ++ endpoint)
              [("X-BAPI-API-KEY", Bybit.apiKey c);
               ("X-BAPI-SIGN", Bybit.scheme_signature c now_sign body);
               ("X-BAPI-TIMESTAMP", Bybit.FormatInt now_sign);
               ("X-BAPI-RECV-WINDOW", "5000");
               ("Content-Type", "application/json")]
              (Some body))
    end in
  Bybit.ExecuteOrder_request c now_req now_sign order =
    posted "/v5/order/create" "failed to create order"
      (Bybit.PayloadOrder
         (ExchangeOrderRequest.mk
            (ExchangeOrderRequest.Symbol order) (ExchangeOrderRequest.Side order)
            (ExchangeOrderRequest.OrderType order) (ExchangeOrderRequest.Qty order)
            (ExchangeOrderRequest.Price order) (ExchangeOrderRequest.TimeInForce order)
            now_req))
  /\ Bybit.TerminateOrder_request c now_req now_sign cancel =
     posted "/v5/order/cancel" "failed to cancel order"
       (Bybit.PayloadCancel
          (ExchangeCancelRequest.mk (ExchangeCancelRequest.Symbol cancel)
             (ExchangeCancelRequest.OrderID cancel) now_req)).
Proof.
  cbv zeta. unfold Bybit.ExecuteOrder_request, Bybit.TerminateOrder_request,
    Bybit.makeAuthenticatedRequest.
  cbn [String.eqb Ascii.eqb Bool.eqb orb].
  split; destruct (Bybit.json_Marshal _); reflexivity.
Qed.

End MoreRequests.

(** *** The client over HTTP *)

Section MoreWire.
Context {T : Wire.Transport} {E : Bybit.Encoding}.

(** X24. What it takes for the client to report success. [ExecuteOrder]
    returns an order exactly when the request was built and sent, the
    status was 200 and the body decoded to that order; [TerminateOrder]
    returns nil exactly when the request was built and sent and the status
    was 200, whatever the body says; [FetchOrderInfo] returns an order
    exactly when the status was 200 and the order is the first of the
    decoded list, whatever ids the list holds. *)
Theorem client_success_conditions (c : Bybit.Client) (order : ExchangeOrderRequest.t)
    (cancel : ExchangeCancelRequest.t) (symbol orderID : string) (n : Wire.Net) :
  let t1 := Wire.UnixMilli n in
  let t2 := Wire.UnixMilli (snd t1) in
  (forall result,
     fst (Wire.ExecuteOrder c order n) = Ok result <->
     exists r resp,
       Bybit.ExecuteOrder_request c (fst t1) (fst t2) order = Ok r
       /\ fst (Wire.Do r (snd t2)) = Ok resp
       /\ Wire.http_StatusCode resp = 200
       /\ Wire.decode_result (Wire.http_Body resp) = Ok result)
  /\ (fst (Wire.TerminateOrder c cancel n) = None <->
      exists r resp,
        Bybit.TerminateOrder_request c (fst t1) (fst t2) cancel = Ok r
        /\ fst (Wire.Do r (snd t2)) = Ok resp
        /\ Wire.http_StatusCode resp = 200)
  /\ (forall result,
        fst (Wire.FetchOrderInfo c symbol orderID n) = Ok result <->
        exists resp rest,
          fst (Wire.Do (Bybit.FetchOrderInfo_request c (fst t1) symbol orderID) (snd t1))
            = Ok resp
          /\ Wire.http_StatusCode resp = 200
          /\ Wire.decode_result_list (Wire.http_Body resp) = Ok (result :: rest)).
Proof.
  cbv zeta. split; [|split].
  - intros result. unfold Wire.ExecuteOrder. cbv zeta.
    destruct (Bybit.ExecuteOrder_request c _ _ order) as [r|e].
    + destruct (fst (Wire.Do r _)) as [resp|e] eqn:Hd; cbn [fst].
      * destruct (Wire.http_StatusCode resp =? 200)%Z eqn:Hs.
        -- apply Z.eqb_eq in Hs.
           destruct (Wire.decode_result (Wire.http_Body resp)) as [x|e] eqn:Hx; cbn [fst].
           ++ split.
              ** intros H. injection H as <-. exists r, resp. auto.
              ** intros (r' & resp' & Hr & Hd' & _ & Hx').
                 injection Hr as <-. rewrite Hd in Hd'. injection Hd' as <-.
                 rewrite Hx in Hx'. exact Hx'.
           ++ split; [discriminate|].
              intros (r' & resp' & Hr & Hd' & _ & Hx').
              injection Hr as <-. rewrite Hd in Hd'. injection Hd' as <-.
              rewrite Hx in Hx'. discriminate Hx'.
        -- apply Z.eqb_neq in Hs. cbn [fst]. split; [discriminate|].
           intros (r' & resp' & Hr & Hd' & Hs' & _).
           injection Hr as <-. rewrite Hd in Hd'. injection Hd' as <-. contradiction.
      * split; [discriminate|].
        intros (r' & resp' & Hr & Hd' & _). injection Hr as <-.
        rewrite Hd in Hd'. discriminate Hd'.
    + cbn [fst]. split; [discriminate|]. intros (r' & resp' & Hr & _). discriminate Hr.
  - unfold Wire.TerminateOrder. cbv zeta.
    destruct (Bybit.TerminateOrder_request c _ _ cancel) as [r|e].
    + destruct (fst (Wire.Do r _)) as [resp|e] eqn:Hd; cbn [fst].
      * destruct (Wire.http_StatusCode resp =? 200)%Z eqn:Hs; cbn [fst].
        -- apply Z.eqb_eq in Hs. split; [|reflexivity]. intros _. exists r, resp. auto.
        -- apply Z.eqb_neq in Hs. split; [discriminate|].
           intros (r' & resp' & Hr & Hd' & Hs').
           injection Hr as <-. rewrite Hd in Hd'. injection Hd' as <-. contradiction.
      * split; [discriminate|].
        intros (r' & resp' & Hr & Hd' & _). injection Hr as <-.
        rewrite Hd in Hd'. discriminate Hd'.
    + cbn [fst]. split; [discriminate|]. intros (r' & resp' & Hr & _). discriminate Hr.
  - intros result. unfold Wire.FetchOrderInfo. cbv zeta.
    destruct (fst (Wire.Do _ _)) as [resp|e] eqn:Hd.
    + destruct (Wire.http_StatusCode resp =? 200)%Z eqn:Hs.
      * apply Z.eqb_eq in Hs.
        destruct (Wire.decode_result_list (Wire.http_Body resp)) as [[|x l]|e] eqn:Hx;
          cbn [fst].
        -- split; [discriminate|]. intros (resp' & rest & Hd' & _ & Hx').
           injection Hd' as <-. rewrite Hx in Hx'. discriminate Hx'.
        -- split.
           ++ intros H. injection H as <-. exists resp, l. auto.
           ++ intros (resp' & rest & Hd' & _ & Hx').
              injection Hd' as <-. rewrite Hx in Hx'. injection Hx' as -> _. reflexivity.
        -- split; [discriminate|]. intros (resp' & rest & Hd' & _ & Hx').
           injection Hd' as <-. rewrite Hx in Hx'. discriminate Hx'.
      * apply Z.eqb_neq in Hs. cbn [fst]. split; [discriminate|].
        intros (resp' & rest & Hd' & Hs' & _). injection Hd' as <-. contradiction.
    + cbn [fst]. split; [discriminate|]. intros (resp' & rest & Hd' & _). discriminate Hd'.
Qed.

End MoreWire.

(** *** The error values *)

(** X25. An error built by one of the five constructors has a status in
    the 4xx or 5xx range fixed by its constructor, 400, 422, 502, 500 or
    404; the default branch of [GetHTTPStatus] is not what gives 500: only
    [InternalError] does. [Error] is the message. *)
Theorem built_errors_have_their_status (e : AppErrors.AppError) :
  AppErrors.built e ->
  AppErrors.GetHTTPStatus e =
    (if String.eqb (AppErrors.Type_ e) "validation" then 400
     else if String.eqb (AppErrors.Type_ e) "domain" then 422
     else if String.eqb (AppErrors.Type_ e) "external" then 502
     else if String.eqb (AppErrors.Type_ e) "not_found" then 404 else 500)%Z
  /\ (AppErrors.GetHTTPStatus e = 500%Z <-> exists message, e = AppErrors.InternalError message)
  /\ In (AppErrors.GetHTTPStatus e) [400; 422; 502; 500; 404]%Z
  /\ AppErrors.Error e = AppErrors.Message e.
Proof.
  intros H. destruct H; (split; [reflexivity|]); (split; [|split; [cbn; tauto | reflexivity]]).
  - split; [discriminate | intros (m & Hm); discriminate Hm].
  - split; [discriminate | intros (m & Hm); discriminate Hm].
  - split; [discriminate | intros (m & Hm); discriminate Hm].
  - split; [intros _; eexists; reflexivity | reflexivity].
  - split; [discriminate | intros (m & Hm); discriminate Hm].
Qed.

(** *** The order controller *)

(** X26. The two price handlers answer 400 exactly when a field is
    missing or the percentage is zero or less, and after that check the
    only failure left is a price text that is no number, answered by 500;
    otherwise they answer 200 with the price to 8 digits: for a take
    profit the entry price raised by the percentage on the side BUY and
    lowered on any other side, for a DCA price the other way round. *)
Theorem price_handlers_outcomes (req : ComputeRequest) :
  let missing :=
    (String.eqb (cr_Price req) "" || F64.leb (cr_Percent req) F64.zero
     || String.eqb (cr_Side req) "")%bool in
  let buy := String.eqb (cr_Side req) OrderSideBuy in
  (missing = true ->
   order_reply_status (Handler_ComputeTakeProfit (Ok req)) = 400
   /\ order_reply_status (Handler_ComputeDCAPrice (Ok req)) = 400)
  /\ (missing = false -> is_Err (parse_checked (cr_Price req)) = true ->
      order_reply_status (Handler_ComputeTakeProfit (Ok req)) = 500
      /\ order_reply_status (Handler_ComputeDCAPrice (Ok req)) = 500)
  /\ (missing = false -> forall price, parse_checked (cr_Price req) = Ok price ->
      Handler_ComputeTakeProfit (Ok req) =
        OrderReplyPrice (cr_Price req) (cr_Percent req) (cr_Side req)
          (F64.Sprintf8
             (F64.mul price
                (if buy then Spec.up (cr_Percent req) else Spec.down (cr_Percent req))))
      /\ Handler_ComputeDCAPrice (Ok req) =
        OrderReplyPrice (cr_Price req) (cr_Percent req) (cr_Side req)
          (F64.Sprintf8
             (F64.mul price
                (if buy then Spec.down (cr_Percent req) else Spec.up (cr_Percent req))))).
Proof.
  cbv zeta. unfold Handler_ComputeTakeProfit, Handler_ComputeDCAPrice.
  split; [|split].
  - intros H. rewrite H. split; reflexivity.
  - intros H Hp. rewrite H. apply Bool.orb_false_iff in H. destruct H as [H _].
    apply Bool.orb_false_iff in H. destruct H as [H1 H2].
    unfold ComputeTakeProfitPrice, ComputeDCAPrice. rewrite H1, H2.
    destruct (parse_checked (cr_Price req)); [discriminate Hp|]. split; reflexivity.
  - intros H price Hp. rewrite H. apply Bool.orb_false_iff in H. destruct H as [H _].
    apply Bool.orb_false_iff in H. destruct H as [H1 H2].
    unfold ComputeTakeProfitPrice, ComputeDCAPrice. rewrite H1, H2, Hp.
    destruct (String.eqb (cr_Side req) OrderSideBuy); split; reflexivity.
Qed.

Section MoreOrderHandlers.
Context {X : Exchange}.

(** X27. The market-order handler ignores the type and the price of the
    body: with a symbol and a quantity it makes one call to the exchange,
    for a MARKET order without price or time in force whose quantity is the
    text of the body as it is, and answers 201 or, when the exchange
    refuses, 500. *)
Theorem market_order_handler_request (req : CreateOrderRequest.t) (w : World) :
  CreateOrderRequest.Symbol req <> "" ->
  CreateOrderRequest.Quantity req <> "" ->
  let sent :=
    ExchangeOrderRequest.mk (CreateOrderRequest.Symbol req) (CreateOrderRequest.Side req)
      "MARKET" (CreateOrderRequest.Quantity req) "" "" (fst (time_Now w)) in
  let r := client_ExecuteOrder sent (snd (time_Now w)) in
  Handler_ExecuteMarketOrder (Ok req) w =
  match fst r with
  | Err _ => (OrderReplyError 500 "Failed to execute market order", snd r)
  | Ok resp =>
      (OrderReplyOrder 201 (fst (buildOrderFromResponse resp (snd r))),
       snd (buildOrderFromResponse resp (snd r)))
  end.
Proof.
  intros Hs Hq sent r. apply String.eqb_neq in Hs, Hq.
  unfold Handler_ExecuteMarketOrder, with_Type.
  cbn [CreateOrderRequest.Symbol CreateOrderRequest.Quantity]. rewrite Hs, Hq. cbn [orb].
  unfold ExecuteMarketOrder. run.
  cbn [CreateOrderRequest.Symbol CreateOrderRequest.Quantity CreateOrderRequest.Side
       CreateOrderRequest.Type_].
  subst r sent. unfold OrderTypeMarket.
  destruct (client_ExecuteOrder _ _) as [[resp|e] w']; reflexivity.
Qed.


End MoreOrderHandlers.

(** *** The environment *)

(** X29. Whatever [strings.ToLower] makes of the environment name: a
    local environment is a development environment, and no environment is
    both production and development. *)
Theorem environment_kinds (ToLower : string -> string) (c : Config.BaseConfig) :
  (Config.IsLocal ToLower c = true -> Config.IsDevelopment ToLower c = true)
  /\ (Config.IsProduction ToLower c = true -> Config.IsDevelopment ToLower c = false)
  /\ (Config.IsDevelopment ToLower c = true -> Config.IsProduction ToLower c = false).
Proof.
  unfold Config.IsLocal, Config.IsProduction, Config.IsDevelopment. cbv zeta.
  set (env := ToLower (Config.Environment c)).
  split; [|split].
  - intros H. rewrite H. apply Bool.orb_true_r.
  - intros H. apply Bool.orb_true_iff in H.
    destruct H as [H|H]; apply String.eqb_eq in H; rewrite H; reflexivity.
  - intros H. apply Bool.orb_true_iff in H. destruct H as [H|H].
    + apply Bool.orb_true_iff in H.
      destruct H as [H|H]; apply String.eqb_eq in H; rewrite H; reflexivity.
    + apply String.eqb_eq in H. rewrite H. reflexivity.
Qed.

(** *** The router *)

Lemma string_app_nil_r (s : string) : s ++ "" = s.
Proof.
  induction s as [|c s IH]; [reflexivity|].
  change (String c s ++ "") with (String c (s ++ "")). rewrite IH. reflexivity.
Qed.

Lemma segment_snoc (taken : string) (c : ascii) :
  ~ In "/"%char (list_ascii_of_string taken) -> Ascii.eqb c "/" = false ->
  Router.segment (taken ++ String c "").
Proof.
  intros H Hc. split.
  - destruct taken; discriminate.
  - rewrite list_ascii_of_string_app, List.in_app_iff. cbn [list_ascii_of_string In].
    intros [K|[K|[]]]; [contradiction|]. subst c. discriminate Hc.
Qed.

Lemma take_group_segments (rest : string -> option (list string)) :
  (forall path groups, rest path = Some groups -> List.Forall Router.segment groups) ->
  forall path taken groups,
    ~ In "/"%char (list_ascii_of_string taken) ->
    Router.take_group rest taken path = Some groups ->
    List.Forall Router.segment groups.
Proof.
  intros Hrest.
  assert (Hstop : forall taken path groups,
            ~ In "/"%char (list_ascii_of_string taken) ->
            (if String.eqb taken "" then None else option_map (cons taken) (rest path))
            = Some groups ->
            List.Forall Router.segment groups).
  { intros taken path groups Ht H. destruct (String.eqb taken "") eqn:E; [discriminate|].
    destruct (rest path) as [g|] eqn:R; [|discriminate]. injection H as <-.
    constructor; [|exact (Hrest _ _ R)]. split; [apply String.eqb_neq; exact E | exact Ht]. }
  induction path as [|c path IH]; intros taken groups Ht H; cbn [Router.take_group] in H.
  - exact (Hstop _ _ _ Ht H).
  - destruct (Ascii.eqb c "/") eqn:Ec; [exact (Hstop _ _ _ Ht H)|].
    destruct (Router.take_group rest (taken ++ String c "") path) as [g|] eqn:G.
    + injection H as <-. apply (IH _ _ (proj2 (segment_snoc taken c Ht Ec)) G).
    + exact (Hstop _ _ _ Ht H).
Qed.

Lemma submatches_segments (pattern : list Router.Token) (path : string)
    (groups : list string) :
  Router.submatches pattern path = Some groups -> List.Forall Router.segment groups.
Proof.
  revert path groups. induction pattern as [|[c|] pattern IH]; intros path groups H;
    cbn [Router.submatches] in H.
  - destruct (String.eqb path ""); [|discriminate]. injection H as <-. constructor.
  - destruct path as [|c' t]; [discriminate|].
    destruct (Ascii.eqb c c'); [|discriminate]. exact (IH _ _ H).
  - apply (take_group_segments _ IH path "" groups); [intros [] | exact H].
Qed.

Lemma combine_segments (names groups : list string) :
  List.Forall Router.segment groups ->
  List.Forall (fun kv => Router.segment (snd kv)) (List.combine names groups).
Proof.
  revert names. induction groups as [|g groups IH]; intros names G;
    destruct names as [|n names]; cbn [List.combine]; try constructor.
  - inversion G as [|? ? G1 G2]; subst. exact G1.
  - apply IH. inversion G as [|? ? G1 G2]; subst. exact G2.
Qed.

Lemma dispatch_segments (routes : list Router.route) (method path : string)
    (target : Router.Target) (values : list (string * string)) :
  Router.dispatch routes method path = Router.Routed target values ->
  List.Forall (fun kv => Router.segment (snd kv)) values.
Proof.
  induction routes as [|r routes IH]; cbn [Router.dispatch]; [discriminate|].
  destruct (String.eqb (Router.method r) method); [|exact IH].
  destruct (Router.submatches (Router.pattern r) path) as [groups|] eqn:G; [|exact IH].
  intros H. injection H as _ <-. apply combine_segments.
  exact (submatches_segments _ _ _ G).
Qed.

Lemma dispatch_other_method (routes : list Router.route) (method path : string) :
  List.forallb (fun r => negb (String.eqb (Router.method r) method)) routes = true ->
  Router.dispatch routes method path = Router.NotFound.
Proof.
  induction routes as [|r routes IH]; cbn [Router.dispatch List.forallb]; [reflexivity|].
  intros H. apply Bool.andb_true_iff in H. destruct H as [H1 H2].
  apply Bool.negb_true_iff in H1. rewrite H1. exact (IH H2).
Qed.

Lemma take_group_segment (rest : string -> option (list string)) (id tail taken : string) :
  (forall c t, Ascii.eqb c "/" = false -> rest (String c t) = None) ->
  ~ In "/"%char (list_ascii_of_string id) ->
  (tail = "" \/ exists t, tail = String "/" t) ->
  Router.take_group rest taken (id ++ tail) =
  if String.eqb (taken ++ id) "" then None
  else option_map (cons (taken ++ id)) (rest tail).
Proof.
  intros Hrest. revert taken. induction id as [|c id IH]; intros taken Hid Htail.
  - rewrite string_app_nil_r. change ("" ++ tail) with tail.
    destruct Htail as [-> | (t & ->)]; reflexivity.
  - change (String c id ++ tail) with (String c (id ++ tail)).
    cbn [Router.take_group].
    assert (Ec : Ascii.eqb c "/" = false).
    { destruct (Ascii.eqb c "/") eqn:E; [|reflexivity]. apply Ascii.eqb_eq in E.
      exfalso. apply Hid. left. exact E. }
    rewrite Ec, IH; [|intros K; apply Hid; right; exact K | exact Htail].
    rewrite string_app_assoc. change (String c "" ++ id) with (String c id).
    assert (Ne : String.eqb (taken ++ String c id) "" = false)
      by (destruct taken; reflexivity).
    rewrite Ne. destruct (rest tail); [reflexivity|]. cbn [option_map].
    rewrite (Hrest c _ Ec). destruct (String.eqb taken ""); reflexivity.
Qed.

(** A continuation of a group that starts with a slash, or is the end of
    the pattern, fails on a text that starts with another byte. *)
Ltac rest_fails :=
  let c := fresh "c" in
  let t := fresh "t" in
  let H := fresh "H" in
  intros c t H; destruct c as [[] [] [] [] [] [] [] []]; try reflexivity; discriminate H.

(** One group of the route at hand, on a path whose next segment is [id]. *)
Ltac through_group id tail Hid Hne :=
  let p := fresh "p" in
  let Hp := fresh "Hp" in
  remember (id ++ tail) as p eqn:Hp; lazy -[Router.take_group]; subst p;
  rewrite take_group_segment;
    [ | rest_fails | exact Hid | first [left; reflexivity | right; eexists; reflexivity] ];
  rewrite Hne.

(** X30. The router answers 204 to OPTIONS on any path and 404 to any
    method other than GET, POST, DELETE and OPTIONS, PUT among them. A
    value that it hands to a handler as a path parameter is never empty
    and holds no slash, so the checks of the handlers for an empty trade
    id, symbol or order id cannot fire behind the router. For every
    segment [id] the three trade paths reach their handlers with [id] as
    tradeId, and for every two segments the two order paths reach theirs
    with symbol and orderId. *)
Theorem router_dispatch (method path id symbol orderID : string) :
  Router.Handler "OPTIONS" path = Router.NoContent
  /\ (~ In method ["GET"; "POST"; "DELETE"; "OPTIONS"] ->
      Router.Handler method path = Router.NotFound)
  /\ (forall target values,
        Router.Handler method path = Router.Routed target values ->
        List.Forall (fun kv => Router.segment (snd kv)) values)
  /\ (Router.segment id ->
      Router.Handler "GET" ("/api/trades/" ++ id) =
        Router.Routed Router.TradeGetTrade [("tradeId", id)]
      /\ Router.Handler "POST" ("/api/trades/" ++ id ++ "/close") =
        Router.Routed Router.TradeCloseTrade [("tradeId", id)]
      /\ Router.Handler "POST" ("/api/trades/" ++ id ++ "/order-filled") =
        Router.Routed Router.TradeProcessOrderExecution [("tradeId", id)])
  /\ (Router.segment symbol -> Router.segment orderID ->
      Router.Handler "DELETE" ("/api/orders/" ++ symbol ++ "/" ++ orderID) =
        Router.Routed Router.OrderTerminateOrder [("symbol", symbol); ("orderId", orderID)]
      /\ Router.Handler "GET" ("/api/orders/" ++ symbol ++ "/" ++ orderID) =
        Router.Routed Router.OrderFetchOrderStatus
          [("symbol", symbol); ("orderId", orderID)]).
Proof.
  split; [reflexivity|]. split; [|split; [|split]].
  - intros H. unfold Router.Handler.
    destruct (String.eqb method "OPTIONS") eqn:E.
    { apply String.eqb_eq in E. exfalso. apply H. subst method. cbn. tauto. }
    apply dispatch_other_method. apply List.forallb_forall. intros r Hr.
    apply Bool.negb_true_iff, String.eqb_neq. intros K. apply H.
    vm_compute in Hr.
    repeat (destruct Hr as [<-|Hr]; [rewrite <- K; cbn; tauto|]). destruct Hr.
  - intros target values. unfold Router.Handler.
    destruct (String.eqb method "OPTIONS"); [discriminate|]. apply dispatch_segments.
  - intros [Hne Hid]. apply String.eqb_neq in Hne.
    assert (Hne' : String.eqb ("" ++ id) "" = false) by exact Hne.
    split; [|split].
    + rewrite <- (string_app_nil_r id).
      through_group id "" Hid Hne'. rewrite !string_app_nil_r. reflexivity.
    + through_group id "/close" Hid Hne'. through_group id "/close" Hid Hne'.
      reflexivity.
    + through_group id "/order-filled" Hid Hne'. reflexivity.
  - intros [Hs1 Hs2] [Ho1 Ho2]. apply String.eqb_neq in Hs1, Ho1.
    assert (Hs1' : String.eqb ("" ++ symbol) "" = false) by exact Hs1.
    assert (Ho1' : String.eqb ("" ++ orderID) "" = false) by exact Ho1.
    split.
    + rewrite <- (string_app_nil_r orderID).
      through_group symbol ("/" ++ orderID ++ "") Hs2 Hs1'.
      through_group orderID "" Ho2 Ho1'. rewrite !string_app_nil_r. reflexivity.
    + rewrite <- (string_app_nil_r orderID).
      through_group symbol ("/" ++ orderID ++ "") Hs2 Hs1'.
      through_group orderID "" Ho2 Ho1'. rewrite !string_app_nil_r. reflexivity.
Qed.

(** *** The further properties at sample inputs *)

(** X1 at the trade of scenario 1, closed by hand: its take profit. *)
Lemma finalization_unindexes_held_orders_witness :
  trades Scenario.s0 !! Scenario.tradeID = Some Scenario.trade0
  /\ orderIndex (snd (fst (@CloseTrade Mock.exchange Scenario.s0 Scenario.tradeID "manual"
                             (Scenario.w0 [])))) !! "ord-3" = None.
Proof.
  assert (H : trades Scenario.s0 !! Scenario.tradeID = Some Scenario.trade0) by evaluated.
  assert (K : In "ord-3" (Notions.held_ids Scenario.trade0)) by (vm_compute; auto 10).
  split; [exact H|].
  exact (proj1 (proj1 (@finalization_unindexes_held_orders Mock.exchange Scenario.s0
                         Scenario.tradeID Scenario.trade0 TradeStatusCompleted "manual"
                         (Scenario.w0 []) H) "ord-3" K)).
Defined.

(** X2 at the initialization of scenario 1: the first DCA order. *)
Lemma initialized_trade_is_found_by_its_orders_witness :
  fst (fst (@InitializeTrade Mock.exchange NewTradeManager Scenario.config
              Scenario.fresh_world)) = Ok Scenario.trade0
  /\ FindTradeByOrderID
       (snd (fst (@InitializeTrade Mock.exchange NewTradeManager Scenario.config
                    Scenario.fresh_world))) "ord-5" = Ok Scenario.trade0.
Proof.
  assert (H : fst (fst (@InitializeTrade Mock.exchange NewTradeManager Scenario.config
                          Scenario.fresh_world)) = Ok Scenario.trade0) by evaluated.
  assert (K : In "ord-5" (Notions.held_ids Scenario.trade0)) by (vm_compute; auto 10).
  split; [exact H|].
  exact (proj2 (@initialized_trade_is_found_by_its_orders Mock.exchange NewTradeManager
                  Scenario.config Scenario.fresh_world Scenario.trade0 H) "ord-5" K).
Defined.

(** X3 on an exchange that refuses the entry order. *)
Lemma rejected_entry_registers_nothing_witness :
  fst (Mock.ExecuteOrder
         (ExchangeOrderRequest.mk "SOLUSDT" OrderSideBuy OrderTypeMarket "100" "" ""
            (fst (Mock.now Samples.refusing_world)))
         (snd (Mock.now Samples.refusing_world))) =
    Err (errClient "bybit API error: status 400")
  /\ snd (fst (@InitializeTrade Mock.exchange NewTradeManager Scenario.config
                 Samples.refusing_world)) = NewTradeManager.
Proof.
  assert (H : fst (Mock.ExecuteOrder
                     (ExchangeOrderRequest.mk "SOLUSDT" OrderSideBuy OrderTypeMarket "100"
                        "" "" (fst (Mock.now Samples.refusing_world)))
                     (snd (Mock.now Samples.refusing_world))) =
              Err (errClient "bybit API error: status 400")) by evaluated.
  split; [exact H|].
  exact (f_equal (fun r => snd (fst r))
           (@rejected_entry_registers_nothing Mock.exchange NewTradeManager Scenario.config
              Samples.refusing_world (errClient "bybit API error: status 400") H)).
Defined.

(** X4 at the initialization of scenario 1. *)
Lemma accepted_entry_always_yields_a_trade_witness :
  fst (@ExecuteMarketOrder Mock.exchange
         (CreateOrderRequest.mk "SOLUSDT" OrderSideBuy OrderTypeMarket "100" "")
         Scenario.fresh_world) = Ok (Trade.EntryOrder Scenario.trade0)
  /\ exists trade,
       fst (fst (@InitializeTrade Mock.exchange NewTradeManager Scenario.config
                   Scenario.fresh_world)) = Ok trade
       /\ Trade.Status trade = TradeStatusActive.
Proof.
  assert (H : fst (@ExecuteMarketOrder Mock.exchange
                     (CreateOrderRequest.mk (TradeConfig.Symbol Scenario.config) OrderSideBuy
                        OrderTypeMarket (TradeConfig.EntryVolume Scenario.config) "")
                     Scenario.fresh_world) = Ok (Trade.EntryOrder Scenario.trade0))
    by evaluated.
  split; [exact H|].
  destruct (@accepted_entry_always_yields_a_trade Mock.exchange NewTradeManager
              Scenario.config Scenario.fresh_world (Trade.EntryOrder Scenario.trade0) H)
    as (trade & H1 & H2 & _).
  exists trade. split; assumption.
Defined.

(** X5 at the trade of scenario 1 and the id of its entry order. *)
Lemma unknown_order_changes_nothing_witness :
  (trades Scenario.s0 !! Scenario.tradeID = None
   \/ exists trade, trades Scenario.s0 !! Scenario.tradeID = Some trade
        /\ is_take_profit trade "ord-0" = false
        /\ ~ In "ord-0" (List.map Order.BybitID (Trade.DCAOrders trade)))
  /\ snd (fst (@ProcessOrderExecution Mock.exchange Scenario.s0 Scenario.tradeID "ord-0"
                 (Scenario.w0 []))) = Scenario.s0.
Proof.
  assert (H : trades Scenario.s0 !! Scenario.tradeID = None
              \/ exists trade, trades Scenario.s0 !! Scenario.tradeID = Some trade
                   /\ is_take_profit trade "ord-0" = false
                   /\ ~ In "ord-0" (List.map Order.BybitID (Trade.DCAOrders trade))).
  { right. exists Scenario.trade0.
    split; [evaluated|]. split; [evaluated|].
    vm_compute. intros [K|[K|[K|[]]]]; discriminate K. }
  split; [exact H|].
  exact (proj1 (proj2 (@unknown_order_changes_nothing Mock.exchange Scenario.s0
                         Scenario.tradeID "ord-0" (Scenario.w0 []) H))).
Defined.

(** X6 at the first DCA order of scenario 1, on an exchange that knows no
    order. *)
Lemma failed_fetch_leaves_the_trade_witness :
  trades Scenario.s0 !! Scenario.tradeID = Some Scenario.trade0
  /\ is_take_profit Scenario.trade0 "ord-5" = false
  /\ find_dca "ord-5" (Trade.DCAOrders Scenario.trade0) 0 = Some 0%nat
  /\ Trade.DCAOrders Scenario.trade0 !! 0%nat = Some Scenario.dca0
  /\ fst (@client_FetchOrderInfo Mock.exchange (Order.Symbol Scenario.dca0)
            (Order.BybitID Scenario.dca0) Samples.forgetful_world) =
     Err (errClient "order not found")
  /\ trades (snd (fst (@ProcessOrderExecution Mock.exchange Scenario.s0 Scenario.tradeID
                         "ord-5" Samples.forgetful_world))) !! Scenario.tradeID =
     Some Scenario.trade0.
Proof.
  assert (H1 : trades Scenario.s0 !! Scenario.tradeID = Some Scenario.trade0) by evaluated.
  assert (H2 : is_take_profit Scenario.trade0 "ord-5" = false) by evaluated.
  assert (H3 : find_dca "ord-5" (Trade.DCAOrders Scenario.trade0) 0 = Some 0%nat)
    by evaluated.
  assert (H4 : Trade.DCAOrders Scenario.trade0 !! 0%nat = Some Scenario.dca0) by evaluated.
  assert (H5 : fst (@client_FetchOrderInfo Mock.exchange (Order.Symbol Scenario.dca0)
                      (Order.BybitID Scenario.dca0) Samples.forgetful_world) =
               Err (errClient "order not found")) by evaluated.
  split; [exact H1|]. split; [exact H2|]. split; [exact H3|]. split; [exact H4|].
  split; [exact H5|].
  exact (proj1 (proj2 (@failed_fetch_leaves_the_trade Mock.exchange Scenario.s0
                         Scenario.tradeID Scenario.trade0 "ord-5" 0%nat Scenario.dca0
                         (errClient "order not found") Samples.forgetful_world
                         H1 H2 H3 H4 H5))).
Defined.

(** X7 at the registry of scenario 1 after its initialization. *)
Lemma reachable_registry_is_well_formed_witness :
  @reachable Mock.exchange Scenario.s0 /\ keyed_by_id Scenario.s0.
Proof.
  assert (H : @reachable Mock.exchange Scenario.s0).
  { apply (@reachable_step Mock.exchange NewTradeManager); [apply reachable_new|].
    exact (@step_InitializeTrade Mock.exchange NewTradeManager Scenario.config
             Scenario.fresh_world). }
  split; [exact H|].
  exact (proj1 (@reachable_registry_is_well_formed Mock.exchange Scenario.s0 H)).
Defined.

(** X8 at the closing of the trade of scenario 1. *)
Lemma registered_trades_are_never_removed_witness :
  @step Mock.exchange Scenario.s0
    (snd (fst (@CloseTrade Mock.exchange Scenario.s0 Scenario.tradeID "manual"
                 (Scenario.w0 []))))
  /\ is_Some (trades Scenario.s0 !! Scenario.tradeID)
  /\ is_Some (trades (snd (fst (@CloseTrade Mock.exchange Scenario.s0 Scenario.tradeID
                                  "manual" (Scenario.w0 [])))) !! Scenario.tradeID).
Proof.
  assert (H1 : @step Mock.exchange Scenario.s0
                 (snd (fst (@CloseTrade Mock.exchange Scenario.s0 Scenario.tradeID "manual"
                              (Scenario.w0 [])))))
    by apply step_CloseTrade.
  assert (H2 : is_Some (trades Scenario.s0 !! Scenario.tradeID))
    by (exists Scenario.trade0; evaluated).
  split; [exact H1|]. split; [exact H2|].
  exact (@registered_trades_are_never_removed Mock.exchange Scenario.s0 _ Scenario.tradeID
           H1 H2).
Defined.

(** X9 at the trade of scenario 1, whose three DCA orders are NEW. *)
Lemma finalization_cancels_new_dca_orders_only_witness :
  trades Scenario.s0 !! Scenario.tradeID = Some Scenario.trade0
  /\ exists cs,
       Mock.calls (snd (@finalizeTrade Mock.exchange Scenario.s0 Scenario.tradeID
                          TradeStatusCompleted (Scenario.w0 []))) =
       (Mock.calls (Scenario.w0 []) ++ cs)%list
       /\ Notions.cancelled_ids cs = Notions.new_ids (Trade.DCAOrders Scenario.trade0)
       /\ List.length cs = List.length (Notions.new_ids (Trade.DCAOrders Scenario.trade0)).
Proof.
  assert (H : trades Scenario.s0 !! Scenario.tradeID = Some Scenario.trade0) by evaluated.
  split; [exact H|].
  exact (finalization_cancels_new_dca_orders_only Scenario.s0 Scenario.tradeID
           Scenario.trade0 TradeStatusCompleted (Scenario.w0 []) H).
Defined.


(** X11 at a limit order of 50 at 99. *)
Lemma limit_order_quantity_is_amount_over_price_witness :
  parse_checked (CreateOrderRequest.Quantity Samples.limit_request) = Ok (F64.of_int 50)
  /\ parse_checked (CreateOrderRequest.Price Samples.limit_request) = Ok (F64.of_int 99)
  /\ F64.leb (F64.of_int 99) F64.zero = false
  /\ F64.Sprintf8 (F64.div (F64.of_int 50) (F64.of_int 99)) = "0.50505051"
  /\ @ExecuteLimitOrder Mock.exchange Samples.limit_request Scenario.fresh_world =
     match fst (Mock.ExecuteOrder
                  (ExchangeOrderRequest.mk "SOLUSDT" OrderSideBuy OrderTypeLimit
                     (F64.Sprintf8 (F64.div (F64.of_int 50) (F64.of_int 99))) "99" "GTC"
                     (fst (Mock.now Scenario.fresh_world)))
                  (snd (Mock.now Scenario.fresh_world))) with
     | Err e =>
         (Err (wrap "failed to execute limit order" e),
          snd (Mock.ExecuteOrder
                 (ExchangeOrderRequest.mk "SOLUSDT" OrderSideBuy OrderTypeLimit
                    (F64.Sprintf8 (F64.div (F64.of_int 50) (F64.of_int 99))) "99" "GTC"
                    (fst (Mock.now Scenario.fresh_world)))
                 (snd (Mock.now Scenario.fresh_world))))
     | Ok resp =>
         (Ok (fst (@buildOrderFromResponse Mock.exchange resp
                     (snd (Mock.ExecuteOrder
                             (ExchangeOrderRequest.mk "SOLUSDT" OrderSideBuy OrderTypeLimit
                                (F64.Sprintf8 (F64.div (F64.of_int 50) (F64.of_int 99))) "99"
                                "GTC" (fst (Mock.now Scenario.fresh_world)))
                             (snd (Mock.now Scenario.fresh_world)))))),
          snd (@buildOrderFromResponse Mock.exchange resp
                 (snd (Mock.ExecuteOrder
                         (ExchangeOrderRequest.mk "SOLUSDT" OrderSideBuy OrderTypeLimit
                            (F64.Sprintf8 (F64.div (F64.of_int 50) (F64.of_int 99))) "99"
                            "GTC" (fst (Mock.now Scenario.fresh_world)))
                         (snd (Mock.now Scenario.fresh_world))))))
     end.
Proof.
  assert (H1 : parse_checked (CreateOrderRequest.Quantity Samples.limit_request) =
               Ok (F64.of_int 50)) by evaluated.
  assert (H2 : parse_checked (CreateOrderRequest.Price Samples.limit_request) =
               Ok (F64.of_int 99)) by evaluated.
  assert (H3 : F64.leb (F64.of_int 99) F64.zero = false) by evaluated.
  assert (H4 : F64.Sprintf8 (F64.div (F64.of_int 50) (F64.of_int 99)) = "0.50505051")
    by evaluated.
  split; [exact H1|]. split; [exact H2|]. split; [exact H3|]. split; [exact H4|].
  exact (@limit_order_quantity_is_amount_over_price Mock.exchange Samples.limit_request
           Scenario.fresh_world (F64.of_int 50) (F64.of_int 99) H1 H2 H3).
Defined.

(** X12 at the side written in lower case. *)
Lemma side_other_than_BUY_is_priced_as_SELL_witness :
  "buy" <> OrderSideBuy
  /\ ComputeTakeProfitPrice "100" (F64.of_int 2) "buy" =
     ComputeTakeProfitPrice "100" (F64.of_int 2) OrderSideSell.
Proof.
  assert (H : "buy" <> OrderSideBuy) by discriminate.
  split; [exact H|].
  exact (proj1 (side_other_than_BUY_is_priced_as_SELL "100" (F64.of_int 2) "buy" H)).
Defined.

(** X13 at the first rung of scenario 1. *)
Lemma dca_grid_volumes_witness :
  (0 < Z.to_nat (TradeConfig.DCACount Scenario.config))%nat
  /\ exists r,
       dca_requests (Z.to_nat (TradeConfig.DCACount Scenario.config)) 0 Scenario.config
         (F64.of_int 100) (TradeConfig.DCAVolume Scenario.config) !! 0%nat = Some r
       /\ CreateOrderRequest.Quantity r = Notions.ladder_dca_volume Scenario.config 0.
Proof.
  assert (H : (0 < Z.to_nat (TradeConfig.DCACount Scenario.config))%nat)
    by (vm_compute; lia).
  split; [exact H|].
  destruct (dca_grid_volumes Scenario.config (F64.of_int 100) 0%nat H) as (r & H1 & H2 & _).
  exists r. split; assumption.
Defined.

(** X17 at the trade of scenario 1, created through the handler. *)
Lemma created_trade_is_read_and_closed_witness :
  fst (fst (@Handler_InitializeTrade Mock.exchange NewTradeManager (Ok Scenario.config)
              Scenario.fresh_world)) = mkResponse 201 (BodyTrade Scenario.trade0)
  /\ "uuid-2" <> ""
  /\ Samples.uuid_Parse "uuid-2" = Ok (Trade.ID Scenario.trade0)
  /\ Handler_GetTrade Samples.uuid_Parse
       (snd (fst (@Handler_InitializeTrade Mock.exchange NewTradeManager (Ok Scenario.config)
                    Scenario.fresh_world))) "uuid-2" = ReplyTrade 200 Scenario.trade0.
Proof.
  assert (H1 : fst (fst (@Handler_InitializeTrade Mock.exchange NewTradeManager
                           (Ok Scenario.config) Scenario.fresh_world)) =
               mkResponse 201 (BodyTrade Scenario.trade0)) by evaluated.
  assert (H2 : "uuid-2" <> "") by discriminate.
  assert (H3 : Samples.uuid_Parse "uuid-2" = Ok (Trade.ID Scenario.trade0)) by evaluated.
  split; [exact H1|]. split; [exact H2|]. split; [exact H3|].
  exact (proj1 (@created_trade_is_read_and_closed Mock.exchange Samples.uuid_Parse
                  NewTradeManager Scenario.config Scenario.fresh_world Scenario.trade0
                  "uuid-2" H1 H2 H3)).
Defined.

(** X19 at the decoded object of a cancellation, in two orders. *)
Lemma query_string_ignores_map_order_witness :
  NoDup (List.map fst Samples.cancel_object)
  /\ Permutation Samples.cancel_object Samples.cancel_object_reordered
  /\ Url.Encode (@Notions.values_of Samples.encoding Samples.cancel_object) =
     Url.Encode (@Notions.values_of Samples.encoding Samples.cancel_object_reordered).
Proof.
  assert (H1 : NoDup (List.map fst Samples.cancel_object)).
  { cbn. repeat constructor; cbn; intros K;
      repeat (destruct K as [K|K]; [discriminate K|]); exact K. }
  assert (H2 : Permutation Samples.cancel_object Samples.cancel_object_reordered).
  { unfold Samples.cancel_object, Samples.cancel_object_reordered.
    eapply perm_trans; [apply perm_skip, perm_swap | apply perm_swap]. }
  split; [exact H1|]. split; [exact H2|].
  exact (proj1 (@query_string_ignores_map_order Samples.encoding Samples.cancel_object
                  Samples.cancel_object_reordered H1 H2)).
Defined.

(** X25 at an error for a trade that is not there. *)
Lemma built_errors_have_their_status_witness :
  AppErrors.built (AppErrors.NotFoundError "trade" "uuid-2")
  /\ AppErrors.GetHTTPStatus (AppErrors.NotFoundError "trade" "uuid-2") = 404%Z.
Proof.
  assert (H : AppErrors.built (AppErrors.NotFoundError "trade" "uuid-2"))
    by apply AppErrors.built_not_found.
  split; [exact H|].
  exact (proj1 (built_errors_have_their_status _ H)).
Defined.

(** X27 at a body that asks for a LIMIT order at the market endpoint. *)
Lemma market_order_handler_request_witness :
  CreateOrderRequest.Symbol Samples.market_request <> ""
  /\ CreateOrderRequest.Quantity Samples.market_request <> ""
  /\ order_reply_status
       (fst (@Handler_ExecuteMarketOrder Mock.exchange (Ok Samples.market_request)
               Scenario.fresh_world)) = 201%Z.
Proof.
  assert (H1 : CreateOrderRequest.Symbol Samples.market_request <> "") by discriminate.
  assert (H2 : CreateOrderRequest.Quantity Samples.market_request <> "") by discriminate.
  split; [exact H1|]. split; [exact H2|].
  rewrite (@market_order_handler_request Mock.exchange Samples.market_request
             Scenario.fresh_world H1 H2).
  vm_compute. reflexivity.
Defined.
